(** * Quiz backend: grading, attempt records, reconciliation, deletion, analytics

    A shallow embedding of the JavaScript sources

      - controllers/quizController.js  (getQuizzes, createQuiz, deleteQuiz,
                                        submitQuizAttempt, getQuizAttemptById)
      - controllers/adminController.js (getAllUsers, deleteUser, deleteQuiz)
      - controllers/userController.js  (getUserHistory, getUserAnalytics)
      - middleware/auth.js             (protect, authorize)
      - models/QuizAttempt.js          (schema, pre-save hook)
      - models/Quiz.js                 (schema, pre-save hook, virtuals)

    JavaScript numbers are IEEE-754 binary64 values ([spec_float] at precision
    53), strings are sequences of characters with code points 0 to 255 (ASCII
    and the Latin-1 supplement), and the values a JSON payload or a schema
    path of type Mixed can hold are the scalars of [JS.value]: undefined,
    null, booleans, numbers and strings. *)

From Stdlib Require Import ZArith List String Ascii Bool Lia DecimalString.
From Stdlib Require Import Floats.SpecFloat.
From stdpp Require Import gmap strings.

Import ListNotations.
Local Open Scope string_scope.
Local Open Scope Z_scope.

(** ** The JavaScript runtime the controllers rely on *)

Module JS.

(** *** Numbers *)

Definition number := spec_float.

Definition prec : Z := 53.
Definition emax : Z := 1024.

Definition NaN : number := S754_nan.
Definition Infinity : number := S754_infinity false.

(** The Number value of a mathematical integer (round to nearest, ties to even). *)
Definition Num (z : Z) : number := binary_normalize prec emax z 0 false.

Definition add (x y : number) : number := SFadd prec emax x y.
Definition mul (x y : number) : number := SFmul prec emax x y.
Definition div (x y : number) : number := SFdiv prec emax x y.

(** [x === y] and [x > y] on numbers. *)
Definition num_eq (x y : number) : bool := SFeqb x y.
Definition gt (x y : number) : bool := SFltb y x.

(** [isNaN(x)] for a number [x]. *)
Definition isNaN (x : number) : bool :=
  match x with S754_nan => true | _ => false end.

Definition isFinite (x : number) : bool :=
  match x with S754_nan | S754_infinity _ => false | _ => true end.

(** ToBoolean on a number: zero and NaN are falsy. *)
Definition num_truthy (x : number) : bool :=
  match x with S754_zero _ | S754_nan => false | _ => true end.

(** [Math.round(x)]: the integral value closest to [x], ties towards +Infinity;
    NaN, the zeros and the infinities are returned unchanged, and a result of
    zero keeps the sign of [x]. *)
Definition Math_round (x : number) : number :=
  match x with
  | S754_finite s m e =>
      if 0 <=? e then x
      else
        let d := 2 ^ (- e) in
        let v := if s then Z.neg m else Z.pos m in
        binary_normalize prec emax ((2 * v + d) / (2 * d)) 0 s
  | _ => x
  end.

(** *** Strings *)

(** The WhiteSpace and LineTerminator characters below 256: TAB, LF, VT, FF,
    CR, SP and NBSP. *)
Definition is_whitespace (c : ascii) : bool :=
  let n := N_of_ascii c in
  ((9 <=? n) && (n <=? 13) || (n =? 32) || (n =? 160))%N.

(** The capital letters below 256: A to Z, and the accented capitals of
    Latin-1 (192 to 222, the multiplication sign 215 apart). Each has its
    small letter 32 places further. *)
Definition is_upper (c : ascii) : bool :=
  let n := N_of_ascii c in
  ((65 <=? n) && (n <=? 90) || (192 <=? n) && (n <=? 222) && negb (n =? 215))%N.

Definition lower_char (c : ascii) : ascii :=
  if is_upper c then ascii_of_N (N_of_ascii c + 32) else c.

Fixpoint toLowerCase (s : string) : string :=
  match s with
  | EmptyString => EmptyString
  | String c r => String (lower_char c) (toLowerCase r)
  end.

Fixpoint trimStart (s : string) : string :=
  match s with
  | String c r => if is_whitespace c then trimStart r else s
  | EmptyString => EmptyString
  end.

Fixpoint trimEnd (s : string) : string :=
  match s with
  | EmptyString => EmptyString
  | String c r =>
      match trimEnd r with
      | EmptyString => if is_whitespace c then EmptyString else String c EmptyString
      | r' => String c r'
      end
  end.

Definition trim (s : string) : string := trimEnd (trimStart s).

(** *** Number::toString

    The decimal rendering of a number: the shortest digit string [s] (with [k]
    digits) and decimal exponent [n] such that [s * 10^(n-k)] reads back as
    the same number, laid out as ECMAScript prescribes. *)

Definition decimal (z : Z) : string :=
  NilZero.string_of_uint (N.to_uint (Z.to_N z)).

(** [x = m * 2^e] as a fraction of integers. *)
Definition fraction (m : positive) (e : Z) : Z * Z :=
  if 0 <=? e then (Z.pos m * 2 ^ e, 1) else (Z.pos m, 2 ^ (- e)).

(** Least [j >= from] with [num * 10^j >= den]. *)
Fixpoint scale_up (fuel : nat) (num den j : Z) : Z :=
  match fuel with
  | O => j
  | S fuel' => if den <=? num * 10 ^ j then j else scale_up fuel' num den (j + 1)
  end.

(** The [n] with [10^(n-1) <= num/den < 10^n]. *)
Definition decimal_exponent (num den : Z) : Z :=
  if den <=? num then Z.of_nat (String.length (decimal (num / den)))
  else 1 - scale_up 400 num den 1.

(** [s * 10^p] as a fraction. *)
Definition scaled (s p : Z) : Z * Z :=
  if 0 <=? p then (s * 10 ^ p, 1) else (s, 10 ^ (- p)).

Definition frac_compare (a b : Z * Z) : comparison :=
  (fst a * snd b ?= fst b * snd a).

Definition frac_dist (a b : Z * Z) : Z * Z :=
  (Z.abs (fst a * snd b - fst b * snd a), snd a * snd b).

(** The open (closed, when the mantissa is even) interval of the reals that
    round to [m * 2^e]. *)
Definition rounds_to (m : positive) (e : Z) (v : Z * Z) : bool :=
  let '(num, den) := fraction m e in
  let u := if 0 <=? e then 2 ^ e else 1 in
  let below := if (Pos.eqb m (2 ^ 52)) && (-1074 <? e) then u else 2 * u in
  let lo := (4 * num - below, 4 * den) in
  let hi := (4 * num + 2 * u, 4 * den) in
  let closed := Z.even (Z.pos m) in
  match frac_compare lo v, frac_compare v hi with
  | Lt, Lt => true
  | Eq, _ | _, Eq => closed
  | _, _ => false
  end.

(** The candidates with [k] digits: for each exponent [n], the two [k]-digit
    integers around [x / 10^(n-k)]. *)
Definition candidates (m : positive) (e : Z) (n0 k : Z) : list (Z * Z) :=
  let '(num, den) := fraction m e in
  let at_n (n : Z) :=
    let p := n - k in
    let q := if 0 <=? p then num / (den * 10 ^ p) else (num * 10 ^ (- p)) / den in
    [(q, n); (q + 1, n)] in
  List.filter
    (fun '(s, n) => (10 ^ (k - 1) <=? s) && (s <? 10 ^ k) && rounds_to m e (scaled s (n - k)))
    (at_n n0 ++ at_n (n0 + 1)).

(** The candidate closest to [x]; of two equally close ones, the even one. *)
Definition closest (m : positive) (e : Z) (k : Z) (cs : list (Z * Z)) : option (Z * Z) :=
  let x := fraction m e in
  let dist '(s, n) := frac_dist (scaled s (n - k)) x in
  List.fold_left
    (fun best c =>
       match best with
       | None => Some c
       | Some b =>
           match frac_compare (dist c) (dist b) with
           | Lt => Some c
           | Eq => if Z.even (fst c) then Some c else Some b
           | Gt => Some b
           end
       end)
    cs None.

Fixpoint shortest (fuel : nat) (m : positive) (e : Z) (n0 k : Z) : Z * Z * Z :=
  match closest m e k (candidates m e n0 k) with
  | Some (s, n) => (s, n, k)
  | None =>
      match fuel with
      | O => (0, 0, k)
      | S fuel' => shortest fuel' m e n0 (k + 1)
      end
  end.

Definition zeros (n : Z) : string := string_of_list_ascii (List.repeat "0"%char (Z.to_nat n)).

Definition exponent_part (n : Z) : string :=
  "e" ++ (if 0 <=? n - 1 then "+" else "-") ++ decimal (Z.abs (n - 1)).

Definition layout (s n k : Z) : string :=
  let ds := decimal s in
  if (k <=? n) && (n <=? 21) then ds ++ zeros (n - k)
  else if (0 <? n) && (n <=? 21) then
    substring 0 (Z.to_nat n) ds ++ "." ++ substring (Z.to_nat n) (Z.to_nat (k - n)) ds
  else if (-6 <? n) && (n <=? 0) then "0." ++ zeros (- n) ++ ds
  else if k =? 1 then ds ++ exponent_part n
  else substring 0 1 ds ++ "." ++ substring 1 (Z.to_nat (k - 1)) ds ++ exponent_part n.

Definition Number_toString (x : number) : string :=
  match x with
  | S754_nan => "NaN"
  | S754_zero _ => "0"
  | S754_infinity s => if s then "-Infinity" else "Infinity"
  | S754_finite sg m e =>
      let '(num, den) := fraction m e in
      let '(s, n, k) := shortest 17 m e (decimal_exponent num den) 1 in
      (if sg then "-" else "") ++ layout s n k
  end.

(** *** Values *)

Inductive value :=
  | VUndefined
  | VNull
  | VBool (b : bool)
  | VNum (n : number)
  | VStr (s : string).

(** ToBoolean, as used by [!v] and [v || w]. *)
Definition truthy (v : value) : bool :=
  match v with
  | VUndefined | VNull => false
  | VBool b => b
  | VNum n => num_truthy n
  | VStr s => negb (String.eqb s "")
  end.

Definition ToString (v : value) : string :=
  match v with
  | VUndefined => "undefined"
  | VNull => "null"
  | VBool b => if b then "true" else "false"
  | VNum n => Number_toString n
  | VStr s => s
  end.

Definition nullish (v : value) : bool :=
  match v with VUndefined | VNull => true | _ => false end.

(** [str === v] for a string [str]. *)
Definition str_strict_eq (str : string) (v : value) : bool :=
  match v with VStr s => String.eqb str s | _ => false end.

(** *** parseInt without a radix argument *)

Definition digit_value (radix : Z) (c : ascii) : option Z :=
  let n := Z.of_N (N_of_ascii c) in
  let d := if (48 <=? n) && (n <=? 57) then n - 48
           else if (97 <=? n) && (n <=? 122) then n - 87
           else if (65 <=? n) && (n <=? 90) then n - 55
           else radix in
  if d <? radix then Some d else None.

(** The value of the longest prefix of digits; [None] when it is empty. *)
Fixpoint digits_prefix (radix : Z) (s : string) (acc : option Z) : option Z :=
  match s with
  | EmptyString => acc
  | String c r =>
      match digit_value radix c with
      | Some d => digits_prefix radix r (Some (radix * default 0 acc + d))
      | None => acc
      end
  end.

(** [parseInt(v)] when [radix10] is false, [parseInt(v, 10)] when it is true:
    only the former recognises a hexadecimal prefix. *)
Definition parse_int (radix10 : bool) (v : value) : number :=
  let s := trimStart (ToString v) in
  let '(negative, s) :=
    match s with
    | String "-" r => (true, r)
    | String "+" r => (false, r)
    | _ => (false, s)
    end in
  let '(radix, s) :=
    if radix10 then (10, s)
    else
      match s with
      | String "0" (String "x" r) | String "0" (String "X" r) => (16, r)
      | _ => (10, s)
      end in
  match digits_prefix radix s None with
  | None => NaN
  | Some z => binary_normalize prec emax (if negative then - z else z) 0 negative
  end.

Definition parseInt (v : value) : number := parse_int false v.
Definition parseInt10 (v : value) : number := parse_int true v.

(** *** Number applied to a string (StringToNumber)

    The string, trimmed, is empty (0), a hexadecimal, octal or binary integer
    with its prefix, or a decimal literal with an optional sign: Infinity, or
    digits with an optional fraction and an optional exponent. Anything else
    is NaN. The value is rounded to the nearest number, ties to even. *)

(** The leading decimal digits of [s]: their value after [acc], how many
    they are, and what follows them. *)
Fixpoint span_digits (s : string) (acc : Z) (n : Z) : Z * Z * string :=
  match s with
  | EmptyString => (acc, n, s)
  | String c r =>
      match digit_value 10 c with
      | Some d => span_digits r (10 * acc + d) (n + 1)
      | None => (acc, n, s)
      end
  end.

(** The value of [s] when it consists of digits of the radix only, and of at
    least one. *)
Definition digits_only (radix : Z) (s : string) : option Z :=
  match s with
  | EmptyString => None
  | _ =>
      (fix go (s : string) (acc : Z) : option Z :=
         match s with
         | EmptyString => Some acc
         | String c r =>
             match digit_value radix c with
             | Some d => go r (radix * acc + d)
             | None => None
             end
         end) s 0
  end.

(** The number closest to [m * 10 ^ e10] for [0 <= m], with the given sign.
    For a negative exponent the quotient is taken with 64 bits or more and a
    sticky bit, which rounds as the exact quotient does. *)
Definition scaled_decimal (negative : bool) (m e10 : Z) : number :=
  let signed (v : Z) := if negative then - v else v in
  if m =? 0 then S754_zero negative
  else if 0 <=? e10 then binary_normalize prec emax (signed (m * 10 ^ e10)) 0 negative
  else
    let den := 10 ^ (- e10) in
    let k := Z.max 0 (Z.log2 den - Z.log2 m + 64) in
    let q := (m * 2 ^ k) / den in
    let sticky := if (m * 2 ^ k) mod den =? 0 then 0 else 1 in
    binary_normalize prec emax (signed (2 * q + sticky)) (- k - 1) negative.

(** The exponent part that may end a decimal literal: [Some 0] when there is
    none, [None] when what is left is no exponent part. *)
Definition exponent_of (s : string) : option Z :=
  match s with
  | EmptyString => Some 0
  | String c r =>
      if Ascii.eqb c "e" || Ascii.eqb c "E" then
        let '(negative, r) :=
          match r with
          | String "-" r' => (true, r')
          | String "+" r' => (false, r')
          | _ => (false, r)
          end in
        let '(x, n, rest) := span_digits r 0 0 in
        if (0 <? n) && String.eqb rest "" then Some (if negative then - x else x) else None
      else None
  end.

(** An unsigned decimal literal. *)
Definition unsigned_decimal (negative : bool) (s : string) : number :=
  if String.eqb s "Infinity" then S754_infinity negative
  else
    let '(i, ni, r1) := span_digits s 0 0 in
    let '(m, nf, r2) :=
      match r1 with
      | String "." r => let '(m, n, r2) := span_digits r i 0 in (m, n, r2)
      | _ => (i, 0, r1)
      end in
    if 0 <? ni + nf then
      match exponent_of r2 with
      | Some x => scaled_decimal negative m (x - nf)
      | None => NaN
      end
    else NaN.

Definition StringToNumber (str : string) : number :=
  let integer (radix : Z) (digits : string) :=
    match digits_only radix digits with
    | Some z => Num z
    | None => NaN
    end in
  match trim str with
  | EmptyString => Num 0
  | String "0" (String "x" r) | String "0" (String "X" r) => integer 16 r
  | String "0" (String "o" r) | String "0" (String "O" r) => integer 8 r
  | String "0" (String "b" r) | String "0" (String "B" r) => integer 2 r
  | String "-" r => unsigned_decimal true r
  | String "+" r => unsigned_decimal false r
  | s => unsigned_decimal false s
  end.

(** [x.toFixed(2)]: the integer [n] closest to [x * 100] (the larger one of
    two equally close), printed with two decimals. *)
Definition toFixed2 (x : number) : string :=
  match x with
  | S754_nan => "NaN"
  | S754_infinity s => if s then "-Infinity" else "Infinity"
  | S754_zero _ => "0.00"
  | S754_finite sg m e =>
      if SFleb (Num (10 ^ 21)) (S754_finite false m e) then Number_toString x
      else
        let '(num, den) := fraction m e in
        let n := (200 * num + den) / (2 * den) in
        let ds := decimal n in
        let ds := zeros (3 - Z.of_nat (String.length ds)) ++ ds in
        let k := (String.length ds - 2)%nat in
        (if sg then "-" else "") ++ substring 0 k ds ++ "." ++ substring k 2 ds
  end.

End JS.

(** ** Documents *)

(** An ObjectId, in the 24-digit hexadecimal form [toString()] gives. *)
Definition ObjectId := string.

(** A question of a quiz (the [questions] sub-schema of models/Quiz.js). *)
Module Question.
Record t := {
    _id : ObjectId;
    type : string;
    questionText : string;
    options : option (list string);
    correctAnswer : JS.value;
    marks : option JS.number
  }.
End Question.

Module Quiz.
Record t := {
    _id : ObjectId;
    title : string;
    subject : string;
    createdBy : ObjectId;
    questions : list Question.t
  }.
End Quiz.

(** One element of the [responses] array of a submission. *)
Module Response.
Record t := {
    questionId : JS.value;
    selectedAnswer : JS.value
  }.
End Response.

(** One element of [processedResponses]. *)
Module Processed.
Record t := {
    questionId : JS.value;
    selectedAnswer : JS.value;
    isCorrect : bool;
    questionType : string;
    correctAnswer : JS.value
  }.
End Processed.

(** ** Grading (submitQuizAttempt, quizController.js:335-407) *)

Module Grading.

(** [quiz.questions.find(q => q._id.toString() === response.questionId)] *)
Definition find_question (quiz : Quiz.t) (response : Response.t) : option Question.t :=
  List.find (fun q => JS.str_strict_eq (Question._id q) (Response.questionId response))
            (Quiz.questions quiz).

(** Whether the lookup finds a question for the response. *)
Definition matched (quiz : Quiz.t) (response : Response.t) : bool :=
  match find_question quiz response with Some _ => true | None => false end.

(** The [switch (question.type)] that sets [isCorrect]. *)
Definition is_correct (question : Question.t) (userAnswer : JS.value) : bool :=
  if String.eqb (Question.type question) "MCQ" then
    JS.num_eq (JS.parseInt (Question.correctAnswer question)) (JS.parseInt userAnswer)
  else if String.eqb (Question.type question) "Fill" then
    if negb (JS.truthy (Question.correctAnswer question)) || JS.nullish userAnswer then false
    else
      let correctStr := JS.trim (JS.toLowerCase (JS.ToString (Question.correctAnswer question))) in
      let userStr := JS.trim (JS.toLowerCase (JS.ToString userAnswer)) in
      String.eqb correctStr userStr
  else false.

(** [question.marks || d] *)
Definition marks_or (d : JS.number) (question : Question.t) : JS.number :=
  match Question.marks question with
  | Some n => if JS.num_truthy n then n else d
  | None => d
  end.

(** The callback of [responses.map]: it reads and updates the variable
    [score] of the enclosing function and returns an entry, or null. *)
Definition process_response (quiz : Quiz.t) (score : JS.number) (response : Response.t)
  : JS.number * option Processed.t :=
  match find_question quiz response with
  | None => (score, None)
  | Some question =>
      let userAnswer := Response.selectedAnswer response in
      let isCorrect := is_correct question userAnswer in
      let score := if isCorrect then JS.add score (marks_or (JS.Num 1) question) else score in
      (score,
       Some {| Processed.questionId := Response.questionId response;
               Processed.selectedAnswer := userAnswer;
               Processed.isCorrect := isCorrect;
               Processed.questionType := Question.type question;
               Processed.correctAnswer := Question.correctAnswer question |})
  end.

(** [responses.map(callback)], threading [score] from left to right. *)
Fixpoint map_responses (quiz : Quiz.t) (score : JS.number) (responses : list Response.t)
  : JS.number * list (option Processed.t) :=
  match responses with
  | [] => (score, [])
  | response :: rest =>
      let '(score, entry) := process_response quiz score response in
      let '(score, entries) := map_responses quiz score rest in
      (score, entry :: entries)
  end.

(** [.filter(Boolean)] on an array of entries and nulls. *)
Fixpoint filter_Boolean {A} (l : list (option A)) : list A :=
  match l with
  | [] => []
  | Some x :: r => x :: filter_Boolean r
  | None :: r => filter_Boolean r
  end.

(** The final [score] and [processedResponses]. *)
Definition grade (quiz : Quiz.t) (responses : list Response.t) : JS.number * list Processed.t :=
  let '(score, entries) := map_responses quiz (JS.Num 0) responses in
  (score, filter_Boolean entries).

(** [quiz.questions.reduce((sum, q) => sum + (q.marks || 1), 0)] *)
Definition totalMarks (quiz : Quiz.t) : JS.number :=
  List.fold_left (fun sum q => JS.add sum (marks_or (JS.Num 1) q)) (Quiz.questions quiz) (JS.Num 0).

Definition totalQuestions (quiz : Quiz.t) : JS.number :=
  JS.Num (Z.of_nat (List.length (Quiz.questions quiz))).

(** [Math.round((score / attemptData.totalMarks) * 100)], the percentage of the reply. *)
Definition percentage (score totalMarks : JS.number) : JS.number :=
  JS.Math_round (JS.mul (JS.div score totalMarks) (JS.Num 100)).

End Grading.

(** ** Attempt records (models/QuizAttempt.js) *)

(** An element of the [responses] path: the schema declares [questionId],
    [selectedAnswer] and [isCorrect] only. *)
Module StoredResponse.
Record t := {
    questionId : JS.value;
    selectedAnswer : JS.value;
    isCorrect : bool
  }.
End StoredResponse.

(** A QuizAttempt document. The schema is strict (Mongoose's default, which
    the file leaves alone), so a document holds the declared paths and no
    others: there is no [totalMarks] path. The schema sets [timestamps], and
    [updatedAt] is the time, in milliseconds, of the last write to the
    document. The paths [completedAt] and [createdAt], which are written once
    when the document is created, and the display names [username] and
    [quizTitle] are left out. *)
Module QuizAttempt.
Record t := {
    _id : ObjectId;
    user : ObjectId;
    quiz : ObjectId;
    score : JS.number;
    totalQuestions : JS.number;
    percentage : JS.number;
    responses : list StoredResponse.t;
    timeTaken : JS.value;
    updatedAt : Z
  }.

Definition set_percentage (p : JS.number) (doc : t) : t :=
    {| _id := _id doc; user := user doc; quiz := quiz doc; score := score doc;
       totalQuestions := totalQuestions doc; percentage := p;
       responses := responses doc; timeTaken := timeTaken doc;
       updatedAt := updatedAt doc |}.

Definition set_updatedAt (now : Z) (doc : t) : t :=
    {| _id := _id doc; user := user doc; quiz := quiz doc; score := score doc;
       totalQuestions := totalQuestions doc; percentage := percentage doc;
       responses := responses doc; timeTaken := timeTaken doc;
       updatedAt := now |}.

(** Mongoose's cast of a value to the schema type Number: null and undefined
    are left as they are, the empty string becomes null, a string or a
    boolean is converted by [Number], and a value that is NaN after that is
    refused with a CastError ([None]). *)
Definition castNumber (v : JS.value) : option JS.value :=
    match v with
    | JS.VUndefined | JS.VNull => Some v
    | JS.VBool b => Some (JS.VNum (JS.Num (if b then 1 else 0)))
    | JS.VNum n => if JS.isNaN n then None else Some v
    | JS.VStr s =>
        if String.eqb s "" then Some JS.VNull
        else
          let n := JS.StringToNumber s in
          if JS.isNaN n then None else Some (JS.VNum n)
    end.

(** The percentage part of [QuizAttemptSchema.pre('save')]. *)
Definition pre_save (doc : t) : t :=
    if JS.gt (totalQuestions doc) (JS.Num 0) then
      set_percentage
        (JS.Math_round (JS.mul (JS.div (score doc) (totalQuestions doc)) (JS.Num 100))) doc
    else doc.
End QuizAttempt.

(** The object [attemptData] that submitQuizAttempt hands to [QuizAttempt.create]. *)
Module AttemptData.
Record t := {
    quiz : ObjectId;
    user : ObjectId;
    score : JS.number;
    totalMarks : JS.number;
    totalQuestions : JS.number;
    responses : list Processed.t;
    timeTaken : JS.value
  }.
End AttemptData.

(** ** The database *)

Record Store := {
  quizzes : list Quiz.t;
  attempts : list QuizAttempt.t
}.

(** What a handler passes to [res.status(...).json(...)]: a success with its
    data, or a failure with its message. *)
Inductive Reply (A : Type) :=
  | Success (status : Z) (data : A)
  | Failure (status : Z) (message : string).
Arguments Success {A} status data.
Arguments Failure {A} status message.

Definition status {A} (r : Reply A) : Z :=
  match r with Success s _ | Failure s _ => s end.

(** The message of an error raised by the database driver. *)
Definition DbError : string := "database operation failed".
(** The message of the CastError raised for an id that is no ObjectId. *)
Definition CastError : string := "Cast to ObjectId failed".

Module Db.

Definition findQuiz (db : Store) (id : ObjectId) : option Quiz.t :=
  List.find (fun q => String.eqb (Quiz._id q) id) (quizzes db).

Definition findAttempt (db : Store) (id : ObjectId) : option QuizAttempt.t :=
  List.find (fun a => String.eqb (QuizAttempt._id a) id) (attempts db).

(** A document built by [new QuizAttempt(attemptData)] and validated: the
    declared paths are taken from [attemptData] and cast to their types,
    [percentage] gets its default 0, and the paths the schema does not
    declare are dropped. The two paths of type Number that [attemptData] can
    fill with a value that does not cast are [score] (NaN) and [timeTaken];
    [None] is the ValidationError that results. The ids are ObjectIds
    already, or the strings of ObjectIds. *)
Definition newAttempt (now : Z) (id : ObjectId) (data : AttemptData.t)
  : option QuizAttempt.t :=
  if JS.isNaN (AttemptData.score data) then None
  else
    match QuizAttempt.castNumber (AttemptData.timeTaken data) with
    | None => None
    | Some timeTaken =>
        Some {| QuizAttempt._id := id;
                QuizAttempt.user := AttemptData.user data;
                QuizAttempt.quiz := AttemptData.quiz data;
                QuizAttempt.score := AttemptData.score data;
                QuizAttempt.totalQuestions := AttemptData.totalQuestions data;
                QuizAttempt.percentage := JS.Num 0;
                QuizAttempt.responses :=
                  List.map
                    (fun p => {| StoredResponse.questionId := Processed.questionId p;
                                 StoredResponse.selectedAnswer := Processed.selectedAnswer p;
                                 StoredResponse.isCorrect := Processed.isCorrect p |})
                    (AttemptData.responses data);
                QuizAttempt.timeTaken := timeTaken;
                QuizAttempt.updatedAt := now |}
    end.

(** [QuizAttempt.create(attemptData)]: build and validate, run the pre-save
    hook, insert. [None] is a rejection, which stores nothing: the document
    is not valid, or the hook or the insertion fails ([insert_fails]). *)
Definition createAttempt (insert_fails : bool) (now : Z) (id : ObjectId)
  (data : AttemptData.t) (db : Store) : option (QuizAttempt.t * Store) :=
  match newAttempt now id data with
  | None => None
  | Some doc =>
      if insert_fails then None
      else
        let doc := QuizAttempt.pre_save doc in
        Some (doc, {| quizzes := quizzes db; attempts := attempts db ++ [doc] |})
  end.

(** The ObjectId-valued paths of the QuizAttempt schema. *)
Definition attempt_path (path : string) (doc : QuizAttempt.t) : option ObjectId :=
  if String.eqb path "_id" then Some (QuizAttempt._id doc)
  else if String.eqb path "user" then Some (QuizAttempt.user doc)
  else if String.eqb path "quiz" then Some (QuizAttempt.quiz doc)
  else None.

(** Whether a document matches the filter [{ path: id }]. A path the schema
    does not declare is removed from the filter when [strictQuery] is on, so
    that every document matches; when it is off the filter reaches the
    database as written and matches no document, none having such a field. *)
Definition matches (strictQuery : bool) (path : string) (id : ObjectId)
  (doc : QuizAttempt.t) : bool :=
  match attempt_path path doc with
  | Some v => String.eqb v id
  | None => strictQuery
  end.

(** [QuizAttempt.deleteMany({ path: id })] *)
Definition deleteManyAttempts (strictQuery : bool) (path : string) (id : ObjectId)
  (db : Store) : Store :=
  {| quizzes := quizzes db;
     attempts := List.filter (fun a => negb (matches strictQuery path id a)) (attempts db) |}.

(** [quiz.remove()] and [quiz.deleteOne()] *)
Definition removeQuiz (id : ObjectId) (db : Store) : Store :=
  {| quizzes := List.filter (fun q => negb (String.eqb (Quiz._id q) id)) (quizzes db);
     attempts := attempts db |}.

(** [QuizAttempt.findByIdAndUpdate(id, { $set: { percentage: p, totalMarks: _ } })]
    on the first document with that id: [totalMarks] is not a path of the
    schema and is not written, and the timestamps of the schema make the
    update set [updatedAt] as well. *)
Fixpoint update_first (now : Z) (id : ObjectId) (p : JS.number) (l : list QuizAttempt.t)
  : list QuizAttempt.t :=
  match l with
  | [] => []
  | a :: r =>
      if String.eqb (QuizAttempt._id a) id
      then QuizAttempt.set_updatedAt now (QuizAttempt.set_percentage p a) :: r
      else a :: update_first now id p r
  end.

Definition updateAttemptPercentage (now : Z) (id : ObjectId) (p : JS.number) (db : Store)
  : Store :=
  {| quizzes := quizzes db; attempts := update_first now id p (attempts db) |}.

End Db.

(** ** Quiz documents (models/Quiz.js) *)

Module QuizModel.

Definition set_options_answer (o : option (list string)) (a : JS.value) (q : Question.t)
  : Question.t :=
  {| Question._id := Question._id q; Question.type := Question.type q;
     Question.questionText := Question.questionText q; Question.options := o;
     Question.correctAnswer := a; Question.marks := Question.marks q |}.

(** The True/False branch: a boolean becomes 0 or 1, a string that is "true"
    or "false" once lowercased becomes 0 or 1, anything else is kept. *)
Definition trueFalse_answer (correctAnswer : JS.value) : JS.value :=
  match correctAnswer with
  | JS.VBool b => JS.VNum (if b then JS.Num 0 else JS.Num 1)
  | JS.VStr s =>
      let answer := JS.toLowerCase s in
      if String.eqb answer "true" then JS.VNum (JS.Num 0)
      else if String.eqb answer "false" then JS.VNum (JS.Num 1)
      else correctAnswer
  | _ => correctAnswer
  end.

(** Pad with empty strings, or cut, to exactly four options. *)
Definition four_options (o : list string) : list string :=
  List.firstn 4 (o ++ List.repeat "" (4 - List.length o)%nat).

(** The callback of [this.questions.map] in [QuizSchema.pre('save')]. *)
Definition pre_save_question (question : Question.t) : Question.t :=
  if String.eqb (Question.type question) "TrueFalse" then
    set_options_answer (Some ["True"; "False"])
                       (trueFalse_answer (Question.correctAnswer question)) question
  else if String.eqb (Question.type question) "Fill" then
    set_options_answer None (Question.correctAnswer question) question
  else if String.eqb (Question.type question) "MCQ" then
    let answer :=
      match Question.correctAnswer question with
      | JS.VNum _ => Question.correctAnswer question
      | v => JS.VNum (JS.parseInt10 v)
      end in
    let opts :=
      match Question.options question with
      | None => ["";"";"";""]
      | Some o => if (List.length o =? 4)%nat then o else four_options o
      end in
    set_options_answer (Some opts) answer question
  else question.

Definition pre_save (quiz : Quiz.t) : Quiz.t :=
  {| Quiz._id := Quiz._id quiz; Quiz.title := Quiz.title quiz;
     Quiz.subject := Quiz.subject quiz; Quiz.createdBy := Quiz.createdBy quiz;
     Quiz.questions := List.map pre_save_question (Quiz.questions quiz) |}.

(** [Number.isInteger(v)] *)
Definition isInteger (v : JS.value) : bool :=
  match v with
  | JS.VNum (S754_zero _) => true
  | JS.VNum (S754_finite _ m e) => (0 <=? e) || (Z.pos m mod 2 ^ (- e) =? 0)
  | _ => false
  end.

(** The validators of the question sub-schema; the result lists the messages
    of every path that fails. The [message] functions of [options] and
    [correctAnswer] are not called on the question: [this.type] is undefined
    in them and they return their second text, whatever the type. *)
Definition type_ok (q : Question.t) : bool :=
  String.eqb (Question.type q) "MCQ" || String.eqb (Question.type q) "Fill".

Definition options_ok (q : Question.t) : bool :=
  if String.eqb (Question.type q) "MCQ" then
    match Question.options q with
    | Some o => (List.length o =? 4)%nat
    | None => false
    end
  else
    match Question.options q with
    | Some o => (List.length o =? 0)%nat
    | None => true
    end.

Definition correctAnswer_ok (q : Question.t) : bool :=
  if String.eqb (Question.type q) "MCQ" then
    match Question.correctAnswer q with
    | JS.VNum n => isInteger (JS.VNum n) && SFleb (JS.Num 0) n && SFltb n (JS.Num 4)
    | _ => false
    end
  else
    match Question.correctAnswer q with
    | JS.VStr s => negb (String.eqb (JS.trim s) "")
    | _ => false
    end.

Definition marks_ok (q : Question.t) : bool :=
  match Question.marks q with
  | Some n => SFleb (JS.Num 1) n
  | None => true
  end.

Definition validate_question (q : Question.t) : list string :=
  (if type_ok q then [] else ["`" ++ Question.type q ++ "` is not a valid enum value for path `type`."])
  ++ (if String.eqb (Question.questionText q) "" then ["Path `questionText` is required."] else [])
  ++ (if options_ok q then [] else ["Fill questions should not have options"])
  ++ (if correctAnswer_ok q then []
      else ["Fill questions must have a non-empty string as correct answer"])
  ++ (if marks_ok q then [] else ["Marks must be at least 1"]).

(** The invariant of a MultipleChoice question: four options and an integer
    index into them. *)
Definition MultipleChoice_invariant (q : Question.t) : bool :=
  String.eqb (Question.type q) "MCQ" && options_ok q && correctAnswer_ok q.

End QuizModel.

(** ** Controllers *)

(** Which of the awaited database writes reject. *)
Record Faults := {
  deleteMany_fails : bool;
  remove_fails : bool;
  update_fails : bool
}.

Definition no_faults : Faults :=
  {| deleteMany_fails := false; remove_fails := false; update_fails := false |}.

(** What can go wrong in submitQuizAttempt once the attempt is valid:
    [create_fails], the pre-save hook or the insertion rejects; and
    [toObject_throws], [quizAttempt.toObject()] raises after the insertion.
    The latter is what happens with Mongoose 6 and later, where the
    [populate] calls of the pre-save hook leave [quiz] populated with its
    title only: [toObject] applies the virtuals of the Quiz schema to it, and
    these read [this.questions], which is undefined there. *)
Record SubmitFaults := {
  create_fails : bool;
  toObject_throws : bool
}.

Definition no_submit_faults : SubmitFaults :=
  {| create_fails := false; toObject_throws := false |}.

(** An element of [enhancedResponses]. *)
Module Enhanced.
Record t := {
    response : StoredResponse.t;
    questionText : string;
    questionType : option string;
    options : list string;
    correctAnswer : JS.value;
    marks : JS.number
  }.
End Enhanced.

(** [responseData] of getQuizAttemptById. *)
Module AttemptResult.
Record t := {
    _id : ObjectId;
    quizId : ObjectId;
    quizTitle : string;
    subject : string;
    score : JS.number;
    totalMarks : JS.value;
    totalPossibleScore : JS.number;
    percentage : JS.number;
    timeTaken : JS.value;
    responses : list Enhanced.t
  }.
End AttemptResult.

Section Controllers.

(** [mongoose.Types.ObjectId.isValid]; [findById] raises a CastError on an id
    that is not valid. *)
Variable isValid : string -> bool.

(** Whether Mongoose strips unknown paths from query filters. *)
Variable strictQuery : bool.

(** The time of the request, in milliseconds. *)
Variable now : Z.

(** *** controllers/quizController.js *)

Record SubmitRequest := {
  submit_id : string;                          (* req.params.id *)
  submit_user : option ObjectId;               (* req.user?.id *)
  submit_responses : option (list Response.t); (* req.body.responses, when it is an array *)
  submit_timeTaken : JS.value                  (* req.body.timeTaken *)
}.

(** [attemptData], for the quiz found and the user id to record. *)
Definition attemptData (quiz : Quiz.t) (quizId user : ObjectId)
  (responses : list Response.t) (timeTaken : JS.value) : AttemptData.t :=
  let '(score, processedResponses) := Grading.grade quiz responses in
  {| AttemptData.quiz := quizId;
     AttemptData.user := user;
     AttemptData.score := score;
     AttemptData.totalMarks := Grading.totalMarks quiz;
     AttemptData.totalQuestions := Grading.totalQuestions quiz;
     AttemptData.responses := processedResponses;
     AttemptData.timeTaken := if JS.truthy timeTaken then timeTaken else JS.VNum (JS.Num 0) |}.

(** [submitQuizAttempt]. [newUser] and [newId] are the ObjectIds generated for
    an anonymous user and for the new document. The reply's data is
    [{...quizAttempt.toObject(), percentage: ...}]. Every exception is
    answered 500 by the handler's catch block: a rejection of
    [QuizAttempt.create], which has stored nothing, and [toObject] raising,
    when the attempt is stored already. *)
Definition submitQuizAttempt (faults : SubmitFaults) (newUser newId : ObjectId) (db : Store)
  (req : SubmitRequest) : Reply QuizAttempt.t * Store :=
  let quizId := submit_id req in
  if String.eqb quizId "" then (Failure 400 "Quiz ID is required", db)
  else
    match submit_responses req with
    | None => (Failure 400 "Valid responses array is required", db)
    | Some responses =>
        if negb (isValid quizId) then (Failure 500 "Failed to submit quiz attempt", db)
        else
          match Db.findQuiz db quizId with
          | None => (Failure 404 "Quiz not found", db)
          | Some quiz =>
              let user :=
                match submit_user req with
                | Some id => if String.eqb id "" then newUser else id
                | None => newUser
                end in
              let data := attemptData quiz quizId user responses (submit_timeTaken req) in
              match Db.createAttempt (create_fails faults) now newId data db with
              | None => (Failure 500 "Failed to submit quiz attempt", db)
              | Some (quizAttempt, db) =>
                  if toObject_throws faults
                  then (Failure 500 "Failed to submit quiz attempt", db)
                  else
                    (Success 201
                       (QuizAttempt.set_percentage
                          (Grading.percentage (AttemptData.score data)
                                              (AttemptData.totalMarks data))
                          quizAttempt),
                     db)
              end
          end
    end.

Record DeleteRequest := {
  delete_id : string;       (* req.params.id *)
  delete_user : ObjectId;   (* req.user.id *)
  delete_role : string      (* req.user.role *)
}.

(** [deleteQuiz] of quizController.js. *)
Definition deleteQuiz (faults : Faults) (db : Store) (req : DeleteRequest)
  : Reply unit * Store :=
  if negb (isValid (delete_id req)) then (Failure 500 CastError, db)
  else
    match Db.findQuiz db (delete_id req) with
    | None => (Failure 404 "Quiz not found", db)
    | Some quiz =>
        if negb (String.eqb (Quiz.createdBy quiz) (delete_user req))
           && negb (String.eqb (delete_role req) "admin")
        then (Failure 401 "Not authorized to delete this quiz", db)
        else if deleteMany_fails faults then (Failure 500 DbError, db)
        else
          let db := Db.deleteManyAttempts strictQuery "quizId" (Quiz._id quiz) db in
          if remove_fails faults then (Failure 500 DbError, db)
          else (Success 200 tt, Db.removeQuiz (Quiz._id quiz) db)
    end.

(** [attempt.quiz.questions.reduce((sum, question) => sum + (question.marks || 0), 0)] *)
Definition totalPossibleScore (quiz : Quiz.t) : JS.number :=
  List.fold_left (fun sum question => JS.add sum (Grading.marks_or (JS.Num 0) question))
                 (Quiz.questions quiz) (JS.Num 0).

(** [calculatedPercentage], after the isNaN check. *)
Definition calculatedPercentage (score total : JS.number) : JS.number :=
  let p := if JS.gt total (JS.Num 0)
           then JS.Math_round (JS.mul (JS.div score total) (JS.Num 100))
           else JS.Num 0 in
  if JS.isNaN p then JS.Num 0 else p.

Definition enhance (quiz : Quiz.t) (response : StoredResponse.t) : Enhanced.t :=
  let question :=
    List.find (fun q => String.eqb (Question._id q)
                                   (JS.ToString (StoredResponse.questionId response)))
              (Quiz.questions quiz) in
  {| Enhanced.response := response;
     Enhanced.questionText :=
       match question with
       | Some q => if String.eqb (Question.questionText q) "" then "Question not found"
                   else Question.questionText q
       | None => "Question not found"
       end;
     Enhanced.questionType := option_map Question.type question;
     Enhanced.options :=
       match question with
       | Some q => default [] (Question.options q)
       | None => []
       end;
     Enhanced.correctAnswer :=
       match question with
       | Some q => Question.correctAnswer q
       | None => JS.VUndefined
       end;
     Enhanced.marks :=
       match question with
       | Some q => Grading.marks_or (JS.Num 1) q
       | None => JS.Num 1
       end |}.

(** [getQuizAttemptById]: the attempt is read with its quiz populated, its
    percentage is recomputed from the quiz as it is now and written back,
    which also sets [updatedAt]. A lean attempt has no [totalMarks] field. *)
Definition getQuizAttemptById (faults : Faults) (db : Store) (attemptId : string)
  : Reply AttemptResult.t * Store :=
  if negb (isValid attemptId) then (Failure 400 "Invalid attempt ID format", db)
  else
    match Db.findAttempt db attemptId with
    | None => (Failure 404 "Quiz attempt not found", db)
    | Some attempt =>
        match Db.findQuiz db (QuizAttempt.quiz attempt) with
        | None => (Failure 500 "Failed to fetch quiz attempt", db)
        | Some quiz =>
            let total := totalPossibleScore quiz in
            let p := calculatedPercentage (QuizAttempt.score attempt) total in
            let db := if update_fails faults then db
                      else Db.updateAttemptPercentage now (QuizAttempt._id attempt) p db in
            (Success 200
               {| AttemptResult._id := QuizAttempt._id attempt;
                  AttemptResult.quizId := Quiz._id quiz;
                  AttemptResult.quizTitle := Quiz.title quiz;
                  AttemptResult.subject := Quiz.subject quiz;
                  AttemptResult.score := QuizAttempt.score attempt;
                  AttemptResult.totalMarks := JS.VUndefined;
                  AttemptResult.totalPossibleScore := total;
                  AttemptResult.percentage := p;
                  AttemptResult.timeTaken := QuizAttempt.timeTaken attempt;
                  AttemptResult.responses :=
                    List.map (enhance quiz) (QuizAttempt.responses attempt) |},
             db)
        end
    end.

(** *** controllers/adminController.js *)

(** [deleteQuiz] of adminController.js; an error goes to the error-handling
    middleware of server.js, which answers 500. *)
Definition admin_deleteQuiz (faults : Faults) (db : Store) (id : string)
  : Reply unit * Store :=
  if negb (isValid id) then (Failure 500 CastError, db)
  else
    match Db.findQuiz db id with
    | None => (Failure 404 ("Quiz not found with id of " ++ id), db)
    | Some quiz =>
        if deleteMany_fails faults then (Failure 500 DbError, db)
        else
          let db := Db.deleteManyAttempts strictQuery "quiz" (Quiz._id quiz) db in
          if remove_fails faults then (Failure 500 DbError, db)
          else (Success 200 tt, Db.removeQuiz (Quiz._id quiz) db)
    end.

End Controllers.

(** *** controllers/userController.js *)

(** The quiz that [populate] puts in place of a reference, with the selected
    paths [title] and [subject]. *)
Module PopulatedQuiz.
Record t := {
    _id : ObjectId;
    title : string;
    subject : string
  }.
End PopulatedQuiz.

(** The counters of a subject in [subjectPerformance]. *)
Module SubjectStats.
Record t := {
    attempts : JS.number;
    totalScore : JS.number;
    averageScore : string
  }.
End SubjectStats.

(** An element of [recentActivity]. *)
Module Activity.
Record t := {
    quizId : JS.value;
    title : JS.value;
    subject : JS.value;
    score : JS.number;
    totalMarks : JS.value;
    percentage : JS.number
  }.
End Activity.

Module Analytics.
Record t := {
    totalAttempts : JS.number;
    averageScore : JS.value;
    subjectPerformance : gmap string SubjectStats.t;
    recentActivity : list Activity.t
  }.
End Analytics.

Module UserController.

(** The message of Mongoose's StrictPopulateError. *)
Definition StrictPopulateError : string :=
  "Cannot populate path `quizId` because it is not in your schema. Set the `strictPopulate` option to false to override.".

(** The message of the TypeError of [attempt.quizId.subject]. *)
Definition SubjectTypeError : string :=
  "Cannot read properties of undefined (reading 'subject')".

(** The query of getUserAnalytics,
    [QuizAttempt.find({ userId: id }).populate({ path: 'quizId', ... }).lean()].
    The schema of the attempts declares the paths [user] and [quiz], and
    neither [userId] nor [quizId]. The filter selects as [Db.matches] says.
    To populate a path that the schema lacks is refused when
    [strictPopulate] is on (the default of Mongoose 6 and later), as soon as
    there is a document to populate, and does nothing when it is off; [inl]
    is the error of the former. *)
Definition analytics_query (strictQuery strictPopulate : bool) (db : Store)
  (userId : ObjectId) : string + list QuizAttempt.t :=
  match List.filter (Db.matches strictQuery "userId" userId) (attempts db) with
  | [] => inr []
  | docs => if strictPopulate then inl StrictPopulateError else inr docs
  end.

(** [attempt.quizId] and [attempt.totalMarks] on a document of the query
    result: the schema being strict, no stored document has such a field,
    and the reads give undefined. *)
Definition quizId (attempt : QuizAttempt.t) : JS.value := JS.VUndefined.
Definition totalMarks (attempt : QuizAttempt.t) : JS.value := JS.VUndefined.

(** [v.subject], [v._id] and [v.title] for a scalar [v]: reading a property
    of undefined or null raises a TypeError ([None]); the other scalars have
    no such property and the read gives undefined. *)
Definition property (v : JS.value) : option JS.value :=
  match v with
  | JS.VUndefined | JS.VNull => None
  | _ => Some JS.VUndefined
  end.

(** ToNumber on the scalars that can stand for [totalMarks]. *)
Definition ToNumber (v : JS.value) : JS.number :=
  match v with
  | JS.VUndefined => JS.NaN
  | JS.VNull => JS.Num 0
  | JS.VBool b => JS.Num (if b then 1 else 0)
  | JS.VNum n => n
  | JS.VStr s => JS.StringToNumber s
  end.

(** [attempt.percentage = (attempt.score / attempt.totalMarks) * 100] *)
Definition percentage (attempt : QuizAttempt.t) : JS.number :=
  JS.mul (JS.div (QuizAttempt.score attempt) (ToNumber (totalMarks attempt))) (JS.Num 100).

(** One round of the loop that fills [subjectPerformance]; [None] is the
    TypeError of [attempt.quizId.subject]. The object is a finite map from
    property names to counters. *)
Definition group_attempt (acc : gmap string (JS.number * JS.number)) (attempt : QuizAttempt.t)
  : option (gmap string (JS.number * JS.number)) :=
  match property (quizId attempt) with
  | None => None
  | Some subject =>
      let key := JS.ToString subject in
      let '(n, total) := default (JS.Num 0, JS.Num 0) (acc !! key) in
      Some (<[key := (JS.add n (JS.Num 1), JS.add total (percentage attempt))]> acc)
  end.

Fixpoint group_attempts (acc : gmap string (JS.number * JS.number))
  (quizAttempts : list QuizAttempt.t) : option (gmap string (JS.number * JS.number)) :=
  match quizAttempts with
  | [] => Some acc
  | attempt :: rest =>
      match group_attempt acc attempt with
      | None => None
      | Some acc => group_attempts acc rest
      end
  end.

(** The second loop, which adds [averageScore] to every subject. *)
Definition with_average (entry : JS.number * JS.number) : SubjectStats.t :=
  {| SubjectStats.attempts := fst entry;
     SubjectStats.totalScore := snd entry;
     SubjectStats.averageScore := JS.toFixed2 (JS.div (snd entry) (fst entry)) |}.

(** The callback of [quizAttempts.slice(0, 5).map]. *)
Definition activity (attempt : QuizAttempt.t) : option Activity.t :=
  match property (quizId attempt) with
  | None => None
  | Some field =>
      Some {| Activity.quizId := field;
              Activity.title := field;
              Activity.subject := field;
              Activity.score := QuizAttempt.score attempt;
              Activity.totalMarks := totalMarks attempt;
              Activity.percentage := percentage attempt |}
  end.

Fixpoint activities (l : list QuizAttempt.t) : option (list Activity.t) :=
  match l with
  | [] => Some []
  | attempt :: rest =>
      match activity attempt with
      | None => None
      | Some a => option_map (cons a) (activities rest)
      end
  end.

(** [getUserAnalytics] for the user [userId]; an exception, of the query or
    of the body, is answered with status 500 and the error's message. *)
Definition getUserAnalytics (strictQuery strictPopulate : bool) (db : Store)
  (userId : ObjectId) : Reply Analytics.t :=
  match analytics_query strictQuery strictPopulate db userId with
  | inl message => Failure 500 message
  | inr quizAttempts =>
      let totalAttempts := JS.Num (Z.of_nat (List.length quizAttempts)) in
      let totalScore :=
        List.fold_left (fun acc attempt => JS.add acc (percentage attempt))
                       quizAttempts (JS.Num 0) in
      let averageScore :=
        if JS.gt totalAttempts (JS.Num 0)
        then JS.VStr (JS.toFixed2 (JS.div totalScore totalAttempts))
        else JS.VNum (JS.Num 0) in
      match group_attempts ∅ quizAttempts with
      | None => Failure 500 SubjectTypeError
      | Some groups =>
          match activities (List.firstn 5 quizAttempts) with
          | None => Failure 500 SubjectTypeError
          | Some recent =>
              Success 200
                {| Analytics.totalAttempts := totalAttempts;
                   Analytics.averageScore := averageScore;
                   Analytics.subjectPerformance := with_average <$> groups;
                   Analytics.recentActivity := recent |}
          end
      end
  end.

(** The [quizId] entry that getUserHistory builds for an attempt: [None] is
    the null it writes when the quiz did not resolve. *)
Definition history_quiz (quiz : option PopulatedQuiz.t) : option PopulatedQuiz.t :=
  match quiz with
  | Some q =>
      Some {| PopulatedQuiz._id := PopulatedQuiz._id q;
              PopulatedQuiz.title :=
                if String.eqb (PopulatedQuiz.title q) "" then "Untitled Quiz"
                else PopulatedQuiz.title q;
              PopulatedQuiz.subject :=
                if String.eqb (PopulatedQuiz.subject q) "" then "General"
                else PopulatedQuiz.subject q |}
  | None => None
  end.

End UserController.

(** ** Vocabulary of the properties *)

Module Props.

(** A string made of whitespace only. *)
Fixpoint all_whitespace (s : string) : bool :=
  match s with
  | EmptyString => true
  | String c r => JS.is_whitespace c && all_whitespace r
  end.

(** The same letter in the other case: a capital becomes its small letter
    and the small letter of a capital becomes that capital; other characters
    are kept. *)
Definition swap_char (c : ascii) : ascii :=
  let n := N_of_ascii c in
  if JS.is_upper c then ascii_of_N (n + 32)
  else if (32 <=? n)%N && JS.is_upper (ascii_of_N (n - 32)) then ascii_of_N (n - 32)
  else c.

(** [s] with the case of its letters changed at the positions [mask] marks. *)
Fixpoint swap_case (mask : list bool) (s : string) : string :=
  match mask, s with
  | b :: mask', String c r => String (if b then swap_char c else c) (swap_case mask' r)
  | _, _ => s
  end.

Definition is_digit (c : ascii) : bool :=
  let n := N_of_ascii c in ((48 <=? n) && (n <=? 57))%N.

Fixpoint all_digits (s : string) : bool :=
  match s with
  | EmptyString => true
  | String c r => is_digit c && all_digits r
  end.

(** A numeric answer: a number other than NaN, or a string that, whitespace
    around it apart, is an optional sign followed by one or more decimal
    digits. *)
Definition numeric (v : JS.value) : bool :=
  match v with
  | JS.VNum n => negb (JS.isNaN n)
  | JS.VStr s =>
      let body :=
        match JS.trim s with
        | String "-" r | String "+" r => r
        | t => t
        end in
      negb (String.eqb body "") && all_digits body
  | _ => false
  end.

(** A character that can start no integer: neither whitespace, a sign nor a digit. *)
Definition starts_no_integer (c : ascii) : bool :=
  negb (JS.is_whitespace c) && negb (is_digit c)
  && negb (Ascii.eqb c "-") && negb (Ascii.eqb c "+").

End Props.

(** ** Sample data *)

Module Sample.

(** A valid ObjectId string: 24 hexadecimal digits. *)
Definition hex24 (s : string) : bool :=
  (String.length s =? 24)%nat
  && forallb (fun c => match JS.digit_value 16 c with Some _ => true | None => false end)
             (list_ascii_of_string s).

Definition quizId : ObjectId := "64b0c0ffee00000000000001".
Definition otherQuizId : ObjectId := "64b0c0ffee00000000000002".
Definition q1 : ObjectId := "64b0c0ffee000000000000a1".
Definition q2 : ObjectId := "64b0c0ffee000000000000a2".
Definition author : ObjectId := "64b0c0ffee000000000000b1".
Definition student : ObjectId := "64b0c0ffee000000000000b2".
Definition attemptId : ObjectId := "64b0c0ffee000000000000c1".
Definition otherAttemptId : ObjectId := "64b0c0ffee000000000000c2".

Definition question (id : ObjectId) (type : string) (options : option (list string))
  (correctAnswer : JS.value) (marks : Z) : Question.t :=
  {| Question._id := id; Question.type := type; Question.questionText := "Which one?";
     Question.options := options; Question.correctAnswer := correctAnswer;
     Question.marks := Some (JS.Num marks) |}.

Definition mcq (id : ObjectId) (correctAnswer marks : Z) : Question.t :=
  question id "MCQ" (Some ["A"; "B"; "C"; "D"]) (JS.VNum (JS.Num correctAnswer)) marks.

Definition fill (id : ObjectId) (correctAnswer : string) (marks : Z) : Question.t :=
  question id "Fill" None (JS.VStr correctAnswer) marks.

Definition quiz (questions : list Question.t) : Quiz.t :=
  {| Quiz._id := quizId; Quiz.title := "Capitals"; Quiz.subject := "Geography";
     Quiz.createdBy := author; Quiz.questions := questions |}.

Definition answer (id : ObjectId) (selectedAnswer : JS.value) : Response.t :=
  {| Response.questionId := JS.VStr id; Response.selectedAnswer := selectedAnswer |}.

Definition store (q : Quiz.t) : Store := {| quizzes := [q]; attempts := [] |}.

Definition submission (responses : list Response.t) : SubmitRequest :=
  {| submit_id := quizId; submit_user := Some student;
     submit_responses := Some responses; submit_timeTaken := JS.VNum (JS.Num 30) |}.

(** The quiz of the scenarios: an MCQ worth 1 mark and a Fill worth 2. *)
Definition capitals : Quiz.t := quiz [mcq q1 2 1; fill q2 "Paris" 2].

(** A quiz whose questions were all removed by an update. *)
Definition emptied : Quiz.t := quiz [].

(** A quiz with a single question worth 2 marks. *)
Definition twoMarks : Quiz.t := quiz [mcq q1 2 2].

(** A quiz with a single question worth 1 mark. *)
Definition oneMark : Quiz.t := quiz [mcq q1 2 1].

(** A quiz with a single question worth 1e308 marks. *)
Definition heavy : Quiz.t := quiz [mcq q1 2 (10 ^ 308)].

(** A legacy True/False question. *)
Definition trueFalse : Question.t :=
  question q1 "TrueFalse" None (JS.VBool true) 1.

(** Two times of day, in milliseconds: when the attempts of the scenarios
    were stored, and a later one. *)
Definition created : Z := 1700000000000.
Definition later : Z := 1700000060000.

(** An attempt on [quizId] and one on another quiz. *)
Definition attemptOn (id quiz : ObjectId) : QuizAttempt.t :=
  {| QuizAttempt._id := id; QuizAttempt.user := student; QuizAttempt.quiz := quiz;
     QuizAttempt.score := JS.Num 1; QuizAttempt.totalQuestions := JS.Num 1;
     QuizAttempt.percentage := JS.Num 100; QuizAttempt.responses := [];
     QuizAttempt.timeTaken := JS.VNum (JS.Num 30); QuizAttempt.updatedAt := created |}.

Definition attempted : Store :=
  {| quizzes := [oneMark];
     attempts := [attemptOn attemptId quizId; attemptOn otherAttemptId otherQuizId] |}.

Definition ownerDelete : DeleteRequest :=
  {| delete_id := quizId; delete_user := author; delete_role := "user" |}.

End Sample.

(** ** Users and authentication (models/User.js, middleware/auth.js) *)

(** A User document, with the paths the handlers read. *)
Module User.
Record t := {
  _id : ObjectId;
  name : string;
  email : string;
  role : string
}.
End User.

(** What a middleware does: hand the request on, or answer it. *)
Inductive Middleware (A : Type) :=
  | Next (a : A)
  | Respond (status : Z) (message : string).
Arguments Next {A} a.
Arguments Respond {A} status message.

Module Auth.

(** [s.split(' ')] *)
Fixpoint split_space (s : string) : list string :=
  match s with
  | EmptyString => [EmptyString]
  | String c r =>
      if Ascii.eqb c " " then EmptyString :: split_space r
      else
        match split_space r with
        | p :: ps => String c p :: ps
        | [] => [String c EmptyString]
        end
  end.

(** The token of [protect]: the second space-separated field of an
    Authorization header that starts with "Bearer". *)
Definition bearer_token (authorization : option string) : option string :=
  match authorization with
  | Some header =>
      if negb (String.eqb header "") && String.prefix "Bearer" header
      then List.nth_error (split_space header) 1
      else None
  | None => None
  end.

Definition findUser (users : list User.t) (id : ObjectId) : option User.t :=
  List.find (fun u => String.eqb (User._id u) id) users.

Section Protect.

(** [jwt.verify(token, process.env.JWT_SECRET)]: the [id] of the decoded
    payload, or [None] when verification throws. *)
Variable verify : string -> option string.
Variable isValid : string -> bool.

(** [protect]: on success [req.user] is the user the token names. *)
Definition protect (users : list User.t) (authorization : option string) : Middleware User.t :=
  match bearer_token authorization with
  | None => Respond 401 "Not authorized to access this route. No token provided."
  | Some token =>
      if String.eqb token "" then
        Respond 401 "Not authorized to access this route. No token provided."
      else
        match verify token with
        | None => Respond 401 "Not authorized to access this route. Invalid token."
        | Some id =>
            if negb (isValid id) then
              Respond 401 "Not authorized to access this route. Invalid token."
            else
              match findUser users id with
              | None => Respond 401 "User not found with this token"
              | Some user => Next user
              end
        end
  end.

End Protect.

(** [authorize(...roles)] *)
Definition authorize (roles : list string) (user : User.t) : Middleware User.t :=
  if existsb (String.eqb (User.role user)) roles then Next user
  else Respond 403 ("User role " ++ User.role user ++ " is not authorized to access this route").

End Auth.

(** ** More of the controllers *)

(** Which of the three writes of deleteUser reject. *)
Record UserFaults := {
  quizzes_deleteMany_fails : bool;
  attempts_deleteMany_fails : bool;
  user_deleteOne_fails : bool
}.

Definition no_user_faults : UserFaults :=
  {| quizzes_deleteMany_fails := false; attempts_deleteMany_fails := false;
     user_deleteOne_fails := false |}.

(** The body of a request to createQuiz. *)
Record CreateRequest := {
  create_user : option ObjectId;               (* req.user && req.user.id *)
  create_title : string;                       (* req.body.title, "" when absent *)
  create_subject : string;                     (* req.body.subject, "" when absent *)
  create_duration : option JS.number;          (* req.body.duration *)
  create_questions : option (list Question.t)  (* req.body.questions *)
}.

(** The sort specification and the filter that getQuizzes builds. *)
Record SortOptions := {
  sort_title : option Z;
  sort_createdAt : option Z;
  sort_duration : option Z
}.

Record QuizQuery := {
  query_isPublic : bool;
  query_subject : option string;
  query_title : option string   (* the source of the case-insensitive $regex *)
}.

Module More.

(** [Quiz.deleteMany({ createdBy: id })]; [createdBy] is a path of the Quiz schema. *)
Definition deleteQuizzesBy (id : ObjectId) (db : Store) : Store :=
  {| quizzes := List.filter (fun q => negb (String.eqb (Quiz.createdBy q) id)) (quizzes db);
     attempts := attempts db |}.

(** [user.deleteOne()] *)
Definition removeUser (id : ObjectId) (users : list User.t) : list User.t :=
  List.filter (fun u => negb (String.eqb (User._id u) id)) users.

(** The default of the path [marks]. *)
Definition default_marks (q : Question.t) : Question.t :=
  {| Question._id := Question._id q; Question.type := Question.type q;
     Question.questionText := Question.questionText q; Question.options := Question.options q;
     Question.correctAnswer := Question.correctAnswer q;
     Question.marks := Some (default (JS.Num 1) (Question.marks q)) |}.

(** The Mongoose document of a stored quiz: a path that the stored document
    lacks gets its default. The virtuals are computed on such documents. *)
Definition hydrate (quiz : Quiz.t) : Quiz.t :=
  {| Quiz._id := Quiz._id quiz; Quiz.title := Quiz.title quiz;
     Quiz.subject := Quiz.subject quiz; Quiz.createdBy := Quiz.createdBy quiz;
     Quiz.questions := List.map default_marks (Quiz.questions quiz) |}.

(** The virtual [totalMarks] of the Quiz schema, for the stored quiz [quiz]:
    [this.questions.reduce((total, question) => total + question.marks, 0)]
    on the document. *)
Definition virtual_totalMarks (quiz : Quiz.t) : JS.number :=
  List.fold_left (fun total question => JS.add total (default JS.NaN (Question.marks question)))
                 (Quiz.questions (hydrate quiz)) (JS.Num 0).

(** The virtual [questionCount]. *)
Definition virtual_questionCount (quiz : Quiz.t) : JS.number :=
  JS.Num (Z.of_nat (List.length (Quiz.questions (hydrate quiz)))).

(** The messages of the validators of the Quiz schema, those of its
    questions included, for a document with the given [duration]. *)
Definition validate_quiz (quiz : Quiz.t) (duration : JS.number) : list string :=
  ((if String.eqb (Quiz.title quiz) "" then ["Please provide a quiz title"] else [])
   ++ (if String.eqb (Quiz.subject quiz) "" then ["Please provide a subject"] else [])
   ++ (if SFleb (JS.Num 1) duration then [] else ["Duration must be at least 1 minute"])
   ++ List.concat (List.map QuizModel.validate_question (Quiz.questions quiz)))%list.

Definition validSortOptions : list string :=
  ["a-z"; "z-a"; "newest"; "oldest"; "duration-asc"; "duration-desc"].

Definition no_sort : SortOptions :=
  {| sort_title := None; sort_createdAt := None; sort_duration := None |}.

(** The [switch (lowerSort)] of getQuizzes. *)
Definition sortOptions_of (lowerSort : string) : SortOptions :=
  if String.eqb lowerSort "a-z" then
    {| sort_title := Some 1; sort_createdAt := None; sort_duration := None |}
  else if String.eqb lowerSort "z-a" then
    {| sort_title := Some (-1); sort_createdAt := None; sort_duration := None |}
  else if String.eqb lowerSort "newest" then
    {| sort_title := None; sort_createdAt := Some (-1); sort_duration := None |}
  else if String.eqb lowerSort "oldest" then
    {| sort_title := None; sort_createdAt := Some 1; sort_duration := None |}
  else if String.eqb lowerSort "duration-asc" then
    {| sort_title := None; sort_createdAt := None; sort_duration := Some 1 |}
  else if String.eqb lowerSort "duration-desc" then
    {| sort_title := None; sort_createdAt := None; sort_duration := Some (-1) |}
  else
    {| sort_title := None; sort_createdAt := Some (-1); sort_duration := None |}.

(** The part of getQuizzes that precedes [Quiz.find]: the sort parameter is
    checked, then the filter and the sort specification are built. A
    parameter that is absent or empty is [None]. *)
Definition getQuizzes_plan (subject sort search : option string)
  : Reply (QuizQuery * SortOptions) :=
  let given (p : option string) :=
    match p with Some s => negb (String.eqb s "") | None => false end in
  if given sort && negb (existsb (String.eqb (JS.toLowerCase (default "" sort))) validSortOptions)
  then Failure 400 "Invalid sort option. Valid options are: a-z, z-a, newest, oldest, duration-asc, duration-desc"
  else
    let query :=
      {| query_isPublic := true;
         query_subject :=
           if given subject && negb (String.eqb (default "" subject) "all") then subject else None;
         query_title := if given search then search else None |} in
    let sortOptions :=
      if given sort then sortOptions_of (JS.toLowerCase (default "" sort))
      else {| sort_title := None; sort_createdAt := Some (-1); sort_duration := None |} in
    Success 200 (query, sortOptions).

Section Handlers.

Variable isValid : string -> bool.
Variable strictQuery : bool.
Variable now : Z.

(** [deleteUser] of adminController.js, on the users and the database. *)
Definition admin_deleteUser (faults : UserFaults) (users : list User.t) (db : Store)
  (id : string) : Reply unit * (list User.t * Store) :=
  if negb (isValid id) then (Failure 500 CastError, (users, db))
  else
    match Auth.findUser users id with
    | None => (Failure 404 ("User not found with id of " ++ id), (users, db))
    | Some user =>
        if quizzes_deleteMany_fails faults then (Failure 500 DbError, (users, db))
        else
          let db := deleteQuizzesBy (User._id user) db in
          if attempts_deleteMany_fails faults then (Failure 500 DbError, (users, db))
          else
            let db := Db.deleteManyAttempts strictQuery "user" (User._id user) db in
            if user_deleteOne_fails faults then (Failure 500 DbError, (users, db))
            else
              (Success 200 tt, (removeUser (User._id user) users, db))
    end.

(** [Quiz.create(req.body)] for a body that passed the handler's own check:
    the document is built (the strings trimmed, the default of [marks]
    applied), validated, and only then handed to the pre-save hook and
    inserted. The result is the list of validation messages or the
    document. *)
Definition createQuizDocument (newId createdBy : ObjectId) (title subject : string)
  (duration : JS.number) (questions : list Question.t) : list string + Quiz.t :=
  let quiz :=
    {| Quiz._id := newId; Quiz.title := JS.trim title; Quiz.subject := JS.trim subject;
       Quiz.createdBy := createdBy; Quiz.questions := List.map default_marks questions |} in
  match validate_quiz quiz duration with
  | [] => inr (QuizModel.pre_save quiz)
  | errors => inl errors
  end.

(** [createQuiz] of quizController.js. The reply to a validation error
    carries the messages; they are joined here into the message of the
    failure. [insert_fails] tells whether the insertion rejects. *)
Definition createQuiz (insert_fails : bool) (newId : ObjectId) (users : list User.t)
  (db : Store) (req : CreateRequest) : Reply Quiz.t * Store :=
  match create_user req with
  | None => (Failure 401 "User not authenticated", db)
  | Some userId =>
      if String.eqb userId "" then (Failure 401 "User not authenticated", db)
      else if negb (isValid userId) then (Failure 500 CastError, db)
      else
        match Auth.findUser users userId with
        | None => (Failure 404 "User not found", db)
        | Some _ =>
            match create_duration req, create_questions req with
            | Some duration, Some (q :: qs) =>
                if String.eqb (create_title req) "" || String.eqb (create_subject req) ""
                   || negb (JS.num_truthy duration)
                then (Failure 400 "Please provide all required fields: title, subject, duration, and at least one question", db)
                else
                  match createQuizDocument newId userId (create_title req)
                          (create_subject req) duration (q :: qs) with
                  | inl errors => (Failure 400 (String.concat ", " errors), db)
                  | inr quiz =>
                      if insert_fails then (Failure 500 DbError, db)
                      else
                      (Success 201 quiz,
                       {| quizzes := (quizzes db ++ [quiz])%list; attempts := attempts db |})
                  end
            | _, _ => (Failure 400 "Please provide all required fields: title, subject, duration, and at least one question", db)
            end
        end
  end.

(** The routes: [protect], for the administrators' routes [authorize('admin')],
    then the handler. *)
Variable verify : string -> option string.

Definition route_deleteQuiz (faults : Faults) (users : list User.t) (db : Store)
  (authorization : option string) (id : string) : Reply unit * Store :=
  match Auth.protect verify isValid users authorization with
  | Respond s m => (Failure s m, db)
  | Next user =>
      deleteQuiz isValid strictQuery faults db
        {| delete_id := id; delete_user := User._id user; delete_role := User.role user |}
  end.

Definition route_submitQuizAttempt (faults : SubmitFaults) (newUser newId : ObjectId)
  (users : list User.t) (db : Store) (authorization : option string) (id : string)
  (responses : option (list Response.t)) (timeTaken : JS.value)
  : Reply QuizAttempt.t * Store :=
  match Auth.protect verify isValid users authorization with
  | Respond s m => (Failure s m, db)
  | Next user =>
      submitQuizAttempt isValid now faults newUser newId db
        {| submit_id := id; submit_user := Some (User._id user);
           submit_responses := responses; submit_timeTaken := timeTaken |}
  end.

Definition route_admin_deleteQuiz (faults : Faults) (users : list User.t) (db : Store)
  (authorization : option string) (id : string) : Reply unit * Store :=
  match Auth.protect verify isValid users authorization with
  | Respond s m => (Failure s m, db)
  | Next user =>
      match Auth.authorize ["admin"] user with
      | Respond s m => (Failure s m, db)
      | Next _ => admin_deleteQuiz isValid strictQuery faults db id
      end
  end.

Definition route_admin_deleteUser (faults : UserFaults) (users : list User.t) (db : Store)
  (authorization : option string) (id : string) : Reply unit * (list User.t * Store) :=
  match Auth.protect verify isValid users authorization with
  | Respond s m => (Failure s m, (users, db))
  | Next user =>
      match Auth.authorize ["admin"] user with
      | Respond s m => (Failure s m, (users, db))
      | Next _ => admin_deleteUser faults users db id
      end
  end.

End Handlers.

(** The marks that grading adds for an entry marked correct: those of the
    question the entry names. *)
Definition entry_marks (quiz : Quiz.t) (p : Processed.t) : JS.number :=
  match List.find (fun q => JS.str_strict_eq (Question._id q) (Processed.questionId p))
                  (Quiz.questions quiz) with
  | Some q => Grading.marks_or (JS.Num 1) q
  | None => JS.Num 0
  end.

(** The marks of the entries marked correct, added to [score] from left to right. *)
Definition add_correct (quiz : Quiz.t) (entries : list Processed.t) (score : JS.number)
  : JS.number :=
  List.fold_left
    (fun s p => if Processed.isCorrect p then JS.add s (entry_marks quiz p) else s)
    entries score.

(** What an entry says about the response and the question it comes from. *)
Definition entry_of (quiz : Quiz.t) (responses : list Response.t) (p : Processed.t) : Prop :=
  exists r q,
    In r responses
    /\ Grading.find_question quiz r = Some q
    /\ In q (Quiz.questions quiz)
    /\ Response.questionId r = JS.VStr (Question._id q)
    /\ Processed.questionId p = Response.questionId r
    /\ Processed.selectedAnswer p = Response.selectedAnswer r
    /\ Processed.isCorrect p = Grading.is_correct q (Response.selectedAnswer r)
    /\ Processed.questionType p = Question.type q
    /\ Processed.correctAnswer p = Question.correctAnswer q.

(** A question whose marks are set and count: neither absent, zero nor NaN. *)
Definition has_marks (q : Question.t) : bool :=
  match Question.marks q with Some n => JS.num_truthy n | None => false end.

(** The invariant of a question of the data model: MultipleChoice with four
    options and an index into them, or FillBlank with a non-blank answer and
    no options; a text, and marks of at least 1. *)
Definition question_invariant (q : Question.t) : bool :=
  (QuizModel.MultipleChoice_invariant q
   || String.eqb (Question.type q) "Fill" && QuizModel.options_ok q
      && QuizModel.correctAnswer_ok q)
  && negb (String.eqb (Question.questionText q) "")
  && QuizModel.marks_ok q.

End More.

(** ** getAllUsers (adminController.js) *)

(** The creator that [populate('createdBy', 'name email')] puts in a quiz. *)
Module Creator.
Record t := {
  _id : ObjectId;
  name : string;
  email : string
}.
End Creator.

(** An element of the arrays of [quizzesByUser]. The Quiz schema declares
    none of the paths description, isPublished, category, difficulty,
    timeLimit, passingScore and tags, so these fields hold the fallback
    values of the handler; the two dates are left out. *)
Module AdminQuiz.
Record t := {
  _id : ObjectId;
  title : string;
  description : string;
  questions : list Question.t;
  isPublished : bool;
  category : string;
  difficulty : string;
  timeLimit : JS.number;
  passingScore : JS.number;
  tags : list string;
  createdBy : option Creator.t
}.
End AdminQuiz.

(** An element of [formattedUsers]. *)
Module FormattedUser.
Record t := {
  user : User.t;
  quizCount : JS.number;
  quizzes : list AdminQuiz.t;
  totalAttempts : JS.number
}.
End FormattedUser.

(** [responseData] of getAllUsers. *)
Module UsersReport.
Record t := {
  count : JS.number;
  users : list FormattedUser.t;
  unassignedQuizzes : list AdminQuiz.t
}.
End UsersReport.

Module AdminController.

(** [quiz.createdBy ? quiz.createdBy._id.toString() : 'unassigned'] *)
Definition creatorId (creator : option Creator.t) : string :=
  match creator with
  | Some c => Creator._id c
  | None => "unassigned"
  end.

(** The object pushed for a quiz and its populated creator. *)
Definition adminQuiz (entry : Quiz.t * option Creator.t) : AdminQuiz.t :=
  let '(quiz, creator) := entry in
  {| AdminQuiz._id := Quiz._id quiz;
     AdminQuiz.title := Quiz.title quiz;
     AdminQuiz.description := "";
     AdminQuiz.questions := Quiz.questions quiz;
     AdminQuiz.isPublished := false;
     AdminQuiz.category := "General";
     AdminQuiz.difficulty := "Medium";
     AdminQuiz.timeLimit := JS.Num 0;
     AdminQuiz.passingScore := JS.Num 0;
     AdminQuiz.tags := [];
     AdminQuiz.createdBy :=
       option_map (fun c => {| Creator._id := Creator._id c; Creator.name := Creator.name c;
                               Creator.email := Creator.email c |}) creator |}.

(** [allQuizzes.reduce(..., {})]: the quizzes grouped by creator. *)
Definition quizzesByUser (allQuizzes : list (Quiz.t * option Creator.t))
  : gmap string (list AdminQuiz.t) :=
  List.fold_left
    (fun acc entry =>
       let key := creatorId (snd entry) in
       <[key := (default [] (acc !! key) ++ [adminQuiz entry])%list]> acc)
    allQuizzes ∅.

(** [attemptsByUser.reduce(..., {})] on the result of the aggregation, a
    list of groups with the user ([None] for a null [_id]) and the count. *)
Definition attemptCounts (attemptsByUser : list (option ObjectId * JS.number))
  : gmap string JS.number :=
  List.fold_left
    (fun acc group =>
       match fst group with
       | Some id => <[id := snd group]> acc
       | None => acc
       end)
    attemptsByUser ∅.

(** [getAllUsers], from the results of its three queries. *)
Definition getAllUsers (users : list User.t) (allQuizzes : list (Quiz.t * option Creator.t))
  (attemptsByUser : list (option ObjectId * JS.number)) : Reply UsersReport.t :=
  let byUser := quizzesByUser allQuizzes in
  let counts := attemptCounts attemptsByUser in
  let formattedUsers :=
    List.map
      (fun user =>
         let userId := User._id user in
         let userQuizzes := default [] (byUser !! userId) in
         {| FormattedUser.user := user;
            FormattedUser.quizCount := JS.Num (Z.of_nat (List.length userQuizzes));
            FormattedUser.quizzes := userQuizzes;
            FormattedUser.totalAttempts :=
              match counts !! userId with
              | Some n => if JS.num_truthy n then n else JS.Num 0
              | None => JS.Num 0
              end |})
      users in
  Success 200
    {| UsersReport.count := JS.Num (Z.of_nat (List.length formattedUsers));
       UsersReport.users := formattedUsers;
       UsersReport.unassignedQuizzes := default [] (byUser !! "unassigned") |}.

End AdminController.

Module Sample2.

Definition admin : User.t :=
  {| User._id := "64b0c0ffee000000000000d1"; User.name := "Root";
     User.email := "root@example.org"; User.role := "admin" |}.

Definition authorUser : User.t :=
  {| User._id := Sample.author; User.name := "Ada";
     User.email := "ada@example.org"; User.role := "user" |}.

Definition studentUser : User.t :=
  {| User._id := Sample.student; User.name := "Bob";
     User.email := "bob@example.org"; User.role := "user" |}.

Definition users : list User.t := [admin; authorUser; studentUser].

(** A token service that accepts the tokens "t-admin", "t-author" and "t-student". *)
Definition verify (token : string) : option string :=
  if String.eqb token "t-admin" then Some (User._id admin)
  else if String.eqb token "t-author" then Some (User._id authorUser)
  else if String.eqb token "t-student" then Some (User._id studentUser)
  else None.

Definition creation : CreateRequest :=
  {| create_user := Some Sample.author;
     create_title := " Capitals ";
     create_subject := "Geography";
     create_duration := Some (JS.Num 10);
     create_questions :=
       Some [Sample.mcq Sample.q1 2 1;
             {| Question._id := Sample.q2; Question.type := "Fill";
                Question.questionText := "Capital of France?";
                Question.options := Some [];
                Question.correctAnswer := JS.VStr "Paris"; Question.marks := None |}] |}.

(** A body with a legacy True/False question. *)
Definition trueFalseCreation : CreateRequest :=
  {| create_user := Some Sample.author; create_title := "Facts";
     create_subject := "General"; create_duration := Some (JS.Num 5);
     create_questions := Some [Sample.trueFalse] |}.

(** An attempt of the student on the author's quiz. *)
Definition studentsAttempt : Store :=
  {| quizzes := [Sample.oneMark];
     attempts := [Sample.attemptOn Sample.attemptId Sample.quizId] |}.

End Sample2.

(** * Properties *)

Arguments JS.add : simpl never.
Arguments JS.mul : simpl never.
Arguments JS.div : simpl never.
Arguments JS.Num : simpl never.
Arguments JS.Math_round : simpl never.
Arguments JS.parse_int : simpl never.
Arguments JS.Number_toString : simpl never.

(** ** Grading *)

Section GradingFacts.

Variable quiz : Quiz.t.

Lemma process_unmatched score r :
  Grading.matched quiz r = false ->
  Grading.process_response quiz score r = (score, None).
Proof.
  unfold Grading.matched, Grading.process_response.
  destruct (Grading.find_question quiz r); [discriminate | reflexivity].
Qed.

Lemma process_matched score r :
  Grading.matched quiz r = true ->
  exists score' p,
    Grading.process_response quiz score r = (score', Some p)
    /\ Processed.questionId p = Response.questionId r.
Proof.
  unfold Grading.matched, Grading.process_response.
  destruct (Grading.find_question quiz r) as [q|]; [intros _ | discriminate].
  eexists _, _. split; reflexivity.
Qed.

(** Mapping over the matched responses only gives the same score and, once
    the nulls are filtered out, the same entries. *)
Lemma map_responses_matched responses : forall score,
  fst (Grading.map_responses quiz score responses)
  = fst (Grading.map_responses quiz score (List.filter (Grading.matched quiz) responses))
  /\ Grading.filter_Boolean (snd (Grading.map_responses quiz score responses))
     = Grading.filter_Boolean
         (snd (Grading.map_responses quiz score
                 (List.filter (Grading.matched quiz) responses))).
Proof.
  induction responses as [|r rest IH]; intros score; [split; reflexivity |].
  cbn [List.filter Grading.map_responses].
  destruct (Grading.matched quiz r) eqn:Hm.
  - cbn [Grading.map_responses].
    destruct (Grading.process_response quiz score r) as [score1 entry].
    specialize (IH score1).
    destruct (Grading.map_responses quiz score1 rest) as [s1 e1].
    destruct (Grading.map_responses quiz score1 (List.filter _ rest)) as [s2 e2].
    cbn [fst snd] in *. destruct IH as [-> IH].
    split; [reflexivity |]. destruct entry; cbn; now rewrite IH.
  - rewrite (process_unmatched score r Hm).
    specialize (IH score).
    destruct (Grading.map_responses quiz score rest) as [s1 e1].
    exact IH.
Qed.

(** The entries kept are those of the matched responses, in order. *)
Lemma map_responses_ids responses : forall score,
  List.map Processed.questionId
    (Grading.filter_Boolean (snd (Grading.map_responses quiz score responses)))
  = List.map Response.questionId (List.filter (Grading.matched quiz) responses).
Proof.
  induction responses as [|r rest IH]; intros score; [reflexivity |].
  cbn [List.filter Grading.map_responses].
  destruct (Grading.matched quiz r) eqn:Hm.
  - destruct (process_matched score r Hm) as (score1 & p & -> & Hid).
    specialize (IH score1).
    destruct (Grading.map_responses quiz score1 rest) as [s1 e1].
    cbn in *. now rewrite Hid, IH.
  - rewrite (process_unmatched score r Hm).
    specialize (IH score).
    destruct (Grading.map_responses quiz score rest) as [s1 e1].
    exact IH.
Qed.

Lemma grade_matched responses :
  Grading.grade quiz responses
  = Grading.grade quiz (List.filter (Grading.matched quiz) responses).
Proof.
  unfold Grading.grade.
  pose proof (map_responses_matched responses (JS.Num 0)) as [Hs He].
  destruct (Grading.map_responses quiz (JS.Num 0) responses) as [s1 e1].
  destruct (Grading.map_responses quiz (JS.Num 0) (List.filter _ responses)) as [s2 e2].
  cbn [fst snd] in *. now rewrite Hs, He.
Qed.

Lemma grade_ids responses :
  List.map Processed.questionId (snd (Grading.grade quiz responses))
  = List.map Response.questionId (List.filter (Grading.matched quiz) responses).
Proof.
  unfold Grading.grade.
  pose proof (map_responses_ids responses (JS.Num 0)) as H.
  destruct (Grading.map_responses quiz (JS.Num 0) responses) as [s1 e1].
  exact H.
Qed.

End GradingFacts.

(** C4. For every quiz and every response list, the responses whose
    questionId matches no question of the quiz add nothing to the score and
    leave no entry in the output: grading the list gives the score and the
    entries that grading its matched responses alone gives, the entries are
    those of the matched responses in their order, and a response that
    matches no question can be removed from anywhere in the list without
    changing the result. *)
Theorem unmatched_responses_are_dropped (quiz : Quiz.t) (responses : list Response.t) :
  Grading.grade quiz responses
  = Grading.grade quiz (List.filter (Grading.matched quiz) responses)
  /\ List.map Processed.questionId (snd (Grading.grade quiz responses))
     = List.map Response.questionId (List.filter (Grading.matched quiz) responses)
  /\ (forall before r after,
        responses = (before ++ r :: after)%list ->
        Grading.matched quiz r = false ->
        Grading.grade quiz responses = Grading.grade quiz (before ++ after)%list).
Proof.
  split; [apply grade_matched |]. split; [apply grade_ids |].
  intros before r after -> Hr.
  rewrite (grade_matched quiz (before ++ r :: after)%list),
    (grade_matched quiz (before ++ after)%list).
  rewrite !List.filter_app. cbn [List.filter]. now rewrite Hr.
Qed.

Lemma unmatched_responses_are_dropped_witness :
  Grading.grade Sample.capitals
    [Sample.answer Sample.q1 (JS.VNum (JS.Num 2)); Sample.answer "stale" (JS.VNum (JS.Num 2))]
  = Grading.grade Sample.capitals [Sample.answer Sample.q1 (JS.VNum (JS.Num 2))].
Proof.
  exact (proj2 (proj2 (unmatched_responses_are_dropped Sample.capitals _))
           [Sample.answer Sample.q1 (JS.VNum (JS.Num 2))]
           (Sample.answer "stale" (JS.VNum (JS.Num 2))) [] eq_refl eq_refl).
Defined.

(** Each response is graded on its own: a list followed by one more response
    gives the score of the list, plus the marks when that response is
    correct, whether or not the list already answers the same question. *)
Lemma map_responses_app quiz l1 : forall l2 score,
  Grading.map_responses quiz score (l1 ++ l2)%list
  = let '(s1, e1) := Grading.map_responses quiz score l1 in
    let '(s2, e2) := Grading.map_responses quiz s1 l2 in
    (s2, (e1 ++ e2)%list).
Proof.
  induction l1 as [|r l1 IH]; intros l2 score; cbn [Grading.map_responses app].
  - now destruct (Grading.map_responses quiz score l2).
  - destruct (Grading.process_response quiz score r) as [score1 entry].
    rewrite IH.
    destruct (Grading.map_responses quiz score1 l1) as [s1 e1].
    now destruct (Grading.map_responses quiz s1 l2).
Qed.

Lemma repeated_response_counts_again quiz r q score :
  Grading.find_question quiz r = Some q ->
  Grading.is_correct q (Response.selectedAnswer r) = true ->
  fst (Grading.map_responses quiz score [r; r])
  = JS.add (JS.add score (Grading.marks_or (JS.Num 1) q)) (Grading.marks_or (JS.Num 1) q)
  /\ List.length (Grading.filter_Boolean (snd (Grading.map_responses quiz score [r; r]))) = 2%nat.
Proof.
  intros Hq Hc. cbn [Grading.map_responses]. unfold Grading.process_response.
  rewrite Hq, Hc. split; reflexivity.
Qed.

(** C10. Grading does not deduplicate: there are a quiz and a response list
    that names the same question twice with the correct answer, for which
    each of the two responses gets its own entry marked correct, the score is
    twice the question's marks and exceeds the quiz's totalMarks, and the
    percentage of the reply exceeds 100. *)
Theorem duplicate_responses_score_twice :
  exists (quiz : Quiz.t) (question : Question.t) (r : Response.t),
    Quiz.questions quiz = [question]
    /\ Response.questionId r = JS.VStr (Question._id question)
    /\ Grading.is_correct question (Response.selectedAnswer r) = true
    /\ let '(score, processedResponses) := Grading.grade quiz [r; r] in
       List.map Processed.isCorrect processedResponses = [true; true]
       /\ List.map Processed.questionId processedResponses
          = [Response.questionId r; Response.questionId r]
       /\ score = JS.add (JS.add (JS.Num 0) (Grading.marks_or (JS.Num 1) question))
                         (Grading.marks_or (JS.Num 1) question)
       /\ JS.gt score (Grading.totalMarks quiz) = true
       /\ Grading.percentage score (Grading.totalMarks quiz) = JS.Num 200
       /\ JS.gt (Grading.percentage score (Grading.totalMarks quiz)) (JS.Num 100) = true.
Proof.
  exists Sample.oneMark, (Sample.mcq Sample.q1 2 1),
         (Sample.answer Sample.q1 (JS.VNum (JS.Num 2))).
  vm_compute. repeat split; reflexivity.
Qed.

(** A quiz without questions matches no response. *)
Lemma no_questions_no_match quiz responses :
  Quiz.questions quiz = [] ->
  List.filter (Grading.matched quiz) responses = [].
Proof.
  intros Hq. induction responses as [|r rest IH]; [reflexivity |].
  cbn [List.filter]. unfold Grading.matched at 1, Grading.find_question.
  rewrite Hq. exact IH.
Qed.

(** Dividing by a zero total never gives a percentage of 0: the percentage is
    NaN or an infinity. *)
Lemma zero_total_percentage_not_finite (score : JS.number) (sign : bool) :
  JS.isFinite (Grading.percentage score (S754_zero sign)) = false.
Proof.
  destruct score as [s | s | | s m e]; destruct sign; try destruct s; reflexivity.
Qed.

(** C1 (the defect). For a quiz that has no questions, whatever the response
    list, totalMarks is 0 and the percentage of the reply is NaN, not 0:
    submitQuizAttempt divides the score by totalMarks without the guard
    that getQuizAttemptById and getUserHistory have. *)
Theorem empty_quiz_percentage_is_NaN (quiz : Quiz.t) (responses : list Response.t) :
  Quiz.questions quiz = [] ->
  Grading.totalMarks quiz = JS.Num 0
  /\ fst (Grading.grade quiz responses) = JS.Num 0
  /\ Grading.percentage (fst (Grading.grade quiz responses)) (Grading.totalMarks quiz)
     = JS.NaN.
Proof.
  intros Hq.
  assert (Ht : Grading.totalMarks quiz = JS.Num 0)
    by (unfold Grading.totalMarks; now rewrite Hq).
  assert (Hs : fst (Grading.grade quiz responses) = JS.Num 0)
    by (now rewrite grade_matched, no_questions_no_match).
  rewrite Ht, Hs. repeat split.
Qed.

Lemma empty_quiz_percentage_is_NaN_witness :
  Grading.totalMarks Sample.emptied = JS.Num 0
  /\ fst (Grading.grade Sample.emptied [Sample.answer Sample.q1 (JS.VNum (JS.Num 2))])
     = JS.Num 0
  /\ Grading.percentage
       (fst (Grading.grade Sample.emptied [Sample.answer Sample.q1 (JS.VNum (JS.Num 2))]))
       (Grading.totalMarks Sample.emptied)
     = JS.NaN.
Proof.
  apply (empty_quiz_percentage_is_NaN Sample.emptied). reflexivity.
Defined.

(** The same through the handler: when it answers 201, the percentage of
    the reply is NaN; and when [toObject] raises it answers 500. It never
    replies a percentage of 0. *)
Lemma submit_empty_quiz_replies_NaN (now : Z) :
  (exists doc db,
     submitQuizAttempt Sample.hex24 now no_submit_faults Sample.student Sample.attemptId
       (Sample.store Sample.emptied) (Sample.submission [])
     = (Success 201 doc, db)
     /\ QuizAttempt.percentage doc = JS.NaN)
  /\ forall faults,
       create_fails faults = true \/ toObject_throws faults = true ->
       status (fst (submitQuizAttempt Sample.hex24 now faults Sample.student Sample.attemptId
                      (Sample.store Sample.emptied) (Sample.submission [])))
       = 500.
Proof.
  split.
  - eexists _, _. split; [vm_compute; reflexivity | reflexivity].
  - intros [[] []] [H | H]; try discriminate H; vm_compute; reflexivity.
Qed.

(** ** Attempt records *)

(** What the pre-save hook stores: the score over the number of questions. *)
Lemma pre_save_percentage (doc : QuizAttempt.t) :
  JS.gt (QuizAttempt.totalQuestions doc) (JS.Num 0) = true ->
  QuizAttempt.percentage (QuizAttempt.pre_save doc)
  = JS.Math_round
      (JS.mul (JS.div (QuizAttempt.score doc) (QuizAttempt.totalQuestions doc)) (JS.Num 100)).
Proof. intros H. unfold QuizAttempt.pre_save. now rewrite H. Qed.

Lemma pre_save_without_questions (doc : QuizAttempt.t) :
  JS.gt (QuizAttempt.totalQuestions doc) (JS.Num 0) = false ->
  QuizAttempt.pre_save doc = doc.
Proof. intros H. unfold QuizAttempt.pre_save. now rewrite H. Qed.

(** C2 (the defect). The attempt stored for a correct answer to the only
    question of a quiz, worth 2 marks, has score 2 and percentage 200, while
    the totalMarks of the submission is 2 and round(score / totalMarks * 100)
    is 100: the pre-save hook divides by totalQuestions. The same attempt is
    stored when [toObject] raises and the handler answers 500. *)
Theorem stored_percentage_divides_by_question_count :
  exists reply stored,
    submitQuizAttempt Sample.hex24 Sample.created no_submit_faults
      Sample.student Sample.attemptId
      (Sample.store Sample.twoMarks)
      (Sample.submission [Sample.answer Sample.q1 (JS.VNum (JS.Num 2))])
    = (Success 201 reply, {| quizzes := [Sample.twoMarks]; attempts := [stored] |})
    /\ submitQuizAttempt Sample.hex24 Sample.created
         {| create_fails := false; toObject_throws := true |}
         Sample.student Sample.attemptId
         (Sample.store Sample.twoMarks)
         (Sample.submission [Sample.answer Sample.q1 (JS.VNum (JS.Num 2))])
       = (Failure 500 "Failed to submit quiz attempt",
          {| quizzes := [Sample.twoMarks]; attempts := [stored] |})
    /\ QuizAttempt.score stored = JS.Num 2
    /\ QuizAttempt.totalQuestions stored = JS.Num 1
    /\ QuizAttempt.percentage stored = JS.Num 200
    /\ Grading.totalMarks Sample.twoMarks = JS.Num 2
    /\ Grading.percentage (QuizAttempt.score stored) (Grading.totalMarks Sample.twoMarks)
       = JS.Num 100
    /\ QuizAttempt.percentage reply = JS.Num 100.
Proof.
  eexists _, _. split; [vm_compute; reflexivity |].
  vm_compute. repeat split; reflexivity.
Qed.

(** ** Deleting a quiz *)

Section DeletionFacts.

Variable isValid : string -> bool.

Lemma findQuiz_id db id quiz :
  Db.findQuiz db id = Some quiz -> Quiz._id quiz = id /\ In quiz (quizzes db).
Proof.
  unfold Db.findQuiz. intros H. apply List.find_some in H as [Hin Heq].
  apply String.eqb_eq in Heq. now split.
Qed.

Lemma findQuiz_removed db id : Db.findQuiz (Db.removeQuiz id db) id = None.
Proof.
  unfold Db.findQuiz, Db.removeQuiz. cbn [quizzes].
  induction (quizzes db) as [|q l IH]; [reflexivity |].
  cbn [List.filter]. destruct (String.eqb (Quiz._id q) id) eqn:E; cbn [negb]; [exact IH |].
  cbn [List.find]. now rewrite E.
Qed.

(** The filter [{ quiz: id }] selects the attempts on that quiz, whatever strictQuery is. *)
Lemma matches_quiz strictQuery id a :
  Db.matches strictQuery "quiz" id a = String.eqb (QuizAttempt.quiz a) id.
Proof. reflexivity. Qed.

(** The filter [{ quizId: id }] names no path of the schema. *)
Lemma matches_quizId strictQuery id a :
  Db.matches strictQuery "quizId" id a = strictQuery.
Proof. reflexivity. Qed.

Lemma filter_all {A} (l : list A) : List.filter (fun _ => true) l = l.
Proof. induction l as [|x l IH]; [reflexivity | cbn; now rewrite IH]. Qed.

Lemma deleteMany_quizId_off id db :
  Db.deleteManyAttempts false "quizId" id db = db.
Proof.
  unfold Db.deleteManyAttempts. destruct db as [qs ats]. cbn [quizzes attempts].
  f_equal. apply filter_all.
Qed.

Lemma deleteMany_quizId_on id db :
  attempts (Db.deleteManyAttempts true "quizId" id db) = [].
Proof.
  unfold Db.deleteManyAttempts. cbn [attempts].
  induction (attempts db) as [|a l IH]; [reflexivity | exact IH].
Qed.

(** The administrators' deleteQuiz cascades: after a successful deletion the
    quiz is gone, no attempt refers to it, and the attempts on other quizzes
    are all still there. *)
Lemma admin_deleteQuiz_cascades strictQuery faults db id reply db' :
  admin_deleteQuiz isValid strictQuery faults db id = (Success 200 reply, db') ->
  Db.findQuiz db' id = None
  /\ (forall a, In a (attempts db') -> QuizAttempt.quiz a <> id)
  /\ (forall a, In a (attempts db) -> QuizAttempt.quiz a <> id -> In a (attempts db')).
Proof.
  unfold admin_deleteQuiz.
  destruct (isValid id); cbn [negb]; [| discriminate].
  destruct (Db.findQuiz db id) as [quiz|] eqn:Hq; [| discriminate].
  apply findQuiz_id in Hq as [Hid _]. rewrite Hid.
  destruct (deleteMany_fails faults); [discriminate |].
  destruct (remove_fails faults); [discriminate |].
  intros H. injection H as _ <-. split; [apply findQuiz_removed |].
  cbn [Db.removeQuiz Db.deleteManyAttempts attempts].
  split; intros a Ha.
  - apply List.filter_In in Ha as [_ Ha]. rewrite matches_quiz in Ha.
    intros E. rewrite E, String.eqb_refl in Ha. discriminate.
  - intros Hne. apply List.filter_In. split; [exact Ha |].
    rewrite matches_quiz. apply negb_true_iff, String.eqb_neq, Hne.
Qed.

(** Both handlers leave the database as it was, quiz included, when the
    removal of the attempts fails. *)
Lemma deleteQuiz_fail_closed strictQuery faults db req :
  deleteMany_fails faults = true ->
  snd (deleteQuiz isValid strictQuery faults db req) = db
  /\ status (fst (deleteQuiz isValid strictQuery faults db req)) <> 200.
Proof.
  intros Hf. unfold deleteQuiz.
  destruct (negb (isValid (delete_id req))); [now split |].
  destruct (Db.findQuiz db (delete_id req)); [| now split].
  destruct (_ && _); [now split |]. rewrite Hf. now split.
Qed.

Lemma admin_deleteQuiz_fail_closed strictQuery faults db id :
  deleteMany_fails faults = true ->
  snd (admin_deleteQuiz isValid strictQuery faults db id) = db
  /\ status (fst (admin_deleteQuiz isValid strictQuery faults db id)) <> 200.
Proof.
  intros Hf. unfold admin_deleteQuiz.
  destruct (negb (isValid id)); [now split |].
  destruct (Db.findQuiz db id); [| now split].
  rewrite Hf. now split.
Qed.

(** With strictQuery off, the owners' deleteQuiz never removes an attempt. *)
Lemma deleteQuiz_keeps_attempts faults db req :
  attempts (snd (deleteQuiz isValid false faults db req)) = attempts db.
Proof.
  unfold deleteQuiz.
  destruct (negb (isValid (delete_id req))); [reflexivity |].
  destruct (Db.findQuiz db (delete_id req)); [| reflexivity].
  destruct (_ && _); [reflexivity |].
  destruct (deleteMany_fails faults); [reflexivity |].
  rewrite deleteMany_quizId_off. now destruct (remove_fails faults).
Qed.

End DeletionFacts.

(** C3 (the defect). The owner deletes a quiz on which there is an attempt,
    with strictQuery off: deleteQuiz of quizController.js answers 200 and
    removes the quiz, and the attempt that refers to it is still in the
    database, because the filter names the path quizId and the schema's path
    is quiz. *)
Theorem owner_delete_leaves_attempts :
  deleteQuiz Sample.hex24 false no_faults Sample.attempted Sample.ownerDelete
  = (Success 200 tt,
     {| quizzes := [];
        attempts := [Sample.attemptOn Sample.attemptId Sample.quizId;
                     Sample.attemptOn Sample.otherAttemptId Sample.otherQuizId] |})
  /\ QuizAttempt.quiz (Sample.attemptOn Sample.attemptId Sample.quizId)
     = delete_id Sample.ownerDelete.
Proof. split; vm_compute; reflexivity. Qed.

(** With strictQuery on, the same request removes the attempts on every quiz. *)
Lemma owner_delete_removes_all_attempts :
  deleteQuiz Sample.hex24 true no_faults Sample.attempted Sample.ownerDelete
  = (Success 200 tt, {| quizzes := []; attempts := [] |}).
Proof. vm_compute. reflexivity. Qed.

(** The administrators' handler, on the same database, removes the attempt
    on the quiz and keeps the other. *)
Lemma admin_delete_removes_attempts :
  admin_deleteQuiz Sample.hex24 false no_faults Sample.attempted Sample.quizId
  = (Success 200 tt,
     {| quizzes := [];
        attempts := [Sample.attemptOn Sample.otherAttemptId Sample.otherQuizId] |}).
Proof. vm_compute. reflexivity. Qed.

(** ** Reconciliation *)

Section ReconcileFacts.

Variable isValid : string -> bool.

Lemma findAttempt_id db id a :
  Db.findAttempt db id = Some a -> QuizAttempt._id a = id.
Proof.
  unfold Db.findAttempt. intros H. apply List.find_some in H as [_ Heq].
  now apply String.eqb_eq in Heq.
Qed.

(** After the write-back the attempt is the one that was read, with the new
    percentage and the time of the write. *)
Lemma findAttempt_updated now db id p a :
  Db.findAttempt db id = Some a ->
  Db.findAttempt (Db.updateAttemptPercentage now id p db) id
  = Some (QuizAttempt.set_updatedAt now (QuizAttempt.set_percentage p a)).
Proof.
  unfold Db.findAttempt, Db.updateAttemptPercentage. cbn [attempts].
  induction (attempts db) as [|x l IH]; [discriminate |].
  cbn [List.find Db.update_first].
  destruct (String.eqb (QuizAttempt._id x) id) eqn:E.
  - intros [= ->].
    cbn [List.find QuizAttempt.set_percentage QuizAttempt.set_updatedAt QuizAttempt._id].
    now rewrite E.
  - intros H. cbn [List.find]. rewrite E. now apply IH.
Qed.

(** The write-back changes neither the score nor the quiz of the attempt, nor any quiz. *)
Lemma reconcile_reads_the_same now faults db id a :
  Db.findAttempt db id = Some a ->
  forall p,
    let db' := if update_fails faults then db
               else Db.updateAttemptPercentage now (QuizAttempt._id a) p db in
    exists a',
      Db.findAttempt db' id = Some a'
      /\ QuizAttempt.score a' = QuizAttempt.score a
      /\ QuizAttempt.quiz a' = QuizAttempt.quiz a
      /\ quizzes db' = quizzes db.
Proof.
  intros Ha p. cbn zeta. destruct (update_fails faults).
  - exists a. repeat split; assumption.
  - rewrite (findAttempt_id _ _ _ Ha).
    exists (QuizAttempt.set_updatedAt now (QuizAttempt.set_percentage p a)).
    split; [now apply findAttempt_updated | repeat split].
Qed.

(** What a successful reply holds: the total of the marks of the quiz as it
    is now, and the percentage computed from it. *)
Lemma reconcile_success now faults db id s result db' :
  getQuizAttemptById isValid now faults db id = (Success s result, db') ->
  exists attempt quiz,
    isValid id = true
    /\ Db.findAttempt db id = Some attempt
    /\ Db.findQuiz db (QuizAttempt.quiz attempt) = Some quiz
    /\ AttemptResult.totalPossibleScore result = totalPossibleScore quiz
    /\ AttemptResult.percentage result
       = calculatedPercentage (QuizAttempt.score attempt) (totalPossibleScore quiz)
    /\ db' = (if update_fails faults then db
              else Db.updateAttemptPercentage now (QuizAttempt._id attempt)
                     (AttemptResult.percentage result) db).
Proof.
  unfold getQuizAttemptById.
  destruct (isValid id); cbn [negb]; [| discriminate].
  destruct (Db.findAttempt db id) as [attempt|] eqn:Ha; [| discriminate].
  destruct (Db.findQuiz db (QuizAttempt.quiz attempt)) as [quiz|] eqn:Hq; [| discriminate].
  intros [= <- <- <-]. exists attempt, quiz. repeat split; assumption.
Qed.

(** The three cases of the recomputed percentage. *)
Lemma calculatedPercentage_cases (score total : JS.number) :
  let rounded := JS.Math_round (JS.mul (JS.div score total) (JS.Num 100)) in
  (JS.gt total (JS.Num 0) = false -> calculatedPercentage score total = JS.Num 0)
  /\ (JS.gt total (JS.Num 0) = true -> JS.isNaN rounded = true ->
      calculatedPercentage score total = JS.Num 0)
  /\ (JS.gt total (JS.Num 0) = true -> JS.isNaN rounded = false ->
      calculatedPercentage score total = rounded).
Proof.
  cbn zeta. unfold calculatedPercentage. repeat split.
  - intros ->. reflexivity.
  - intros -> ->. reflexivity.
  - intros -> ->. reflexivity.
Qed.

End ReconcileFacts.

(** C5 (counterexample). One question worth 1e308 marks, answered correctly
    twice in one submission: the stored score is Infinity, and reconciling
    the attempt returns the percentage Infinity, which is not a finite number
    and has not been replaced by 0. *)
Lemma reconcile_returns_infinite_percentage :
  exists reply db result db',
    submitQuizAttempt Sample.hex24 Sample.created no_submit_faults
      Sample.student Sample.attemptId
      (Sample.store Sample.heavy)
      (Sample.submission [Sample.answer Sample.q1 (JS.VNum (JS.Num 2));
                          Sample.answer Sample.q1 (JS.VNum (JS.Num 2))])
    = (Success 201 reply, db)
    /\ getQuizAttemptById Sample.hex24 Sample.later no_faults db Sample.attemptId
       = (Success 200 result, db')
    /\ JS.gt (AttemptResult.totalPossibleScore result) (JS.Num 0) = true
    /\ AttemptResult.percentage result = JS.Infinity
    /\ JS.isFinite (AttemptResult.percentage result) = false
    /\ AttemptResult.percentage result <> JS.Num 0.
Proof.
  eexists _, _, _, _.
  split; [vm_compute; reflexivity |].
  split; [vm_compute; reflexivity |].
  vm_compute. repeat split; discriminate.
Qed.

(** C5 (amended). When getQuizAttemptById succeeds, its reply holds
    totalPossibleScore, the sum of the marks of the quiz's current questions,
    and the percentage round(score / totalPossibleScore * 100), replaced by 0
    when totalPossibleScore is not greater than 0 or the rounded value is
    NaN; and running it again on the resulting database, the quiz unchanged,
    succeeds with the same percentage and the same totalPossibleScore,
    whenever the two runs take place and whether or not either write-back
    failed. *)
Theorem reconcile_is_idempotent (isValid : string -> bool) (now1 now2 : Z)
  (faults1 faults2 : Faults)
  (db db1 : Store) (attemptId : string) (s : Z) (result : AttemptResult.t) :
  getQuizAttemptById isValid now1 faults1 db attemptId = (Success s result, db1) ->
  (exists attempt quiz,
     Db.findAttempt db attemptId = Some attempt
     /\ Db.findQuiz db (QuizAttempt.quiz attempt) = Some quiz
     /\ AttemptResult.totalPossibleScore result
        = List.fold_left (fun sum q => JS.add sum (Grading.marks_or (JS.Num 0) q))
                         (Quiz.questions quiz) (JS.Num 0)
     /\ let total := AttemptResult.totalPossibleScore result in
        let rounded :=
          JS.Math_round (JS.mul (JS.div (QuizAttempt.score attempt) total) (JS.Num 100)) in
        AttemptResult.percentage result
        = if JS.gt total (JS.Num 0) && negb (JS.isNaN rounded) then rounded else JS.Num 0)
  /\ exists result2 db2,
       getQuizAttemptById isValid now2 faults2 db1 attemptId = (Success s result2, db2)
       /\ AttemptResult.percentage result2 = AttemptResult.percentage result
       /\ AttemptResult.totalPossibleScore result2 = AttemptResult.totalPossibleScore result.
Proof.
  intros H.
  assert (Hs : s = 200).
  { revert H. unfold getQuizAttemptById.
    destruct (negb _); [discriminate |].
    destruct (Db.findAttempt _ _); [| discriminate].
    destruct (Db.findQuiz _ _); [| discriminate]. now intros [= <- _ _]. }
  apply reconcile_success in H
    as (attempt & quiz & Hv & Ha & Hq & Ht & Hp & Hdb).
  split.
  - exists attempt, quiz. repeat split; try assumption.
    cbn zeta. rewrite Hp, Ht. unfold calculatedPercentage.
    destruct (JS.gt _ _); cbn [andb]; [| reflexivity].
    now destruct (JS.isNaN _).
  - destruct (reconcile_reads_the_same now1 faults1 db attemptId attempt Ha
                (AttemptResult.percentage result))
      as (a' & Ha' & Hscore & Hquiz & Hquizzes).
    cbn zeta in Ha', Hquizzes. rewrite <- Hdb in Ha', Hquizzes.
    unfold getQuizAttemptById. rewrite Hv. cbn [negb]. rewrite Ha'.
    assert (Hq' : Db.findQuiz db1 (QuizAttempt.quiz a') = Some quiz)
      by (unfold Db.findQuiz; rewrite Hquizzes, Hquiz; exact Hq).
    rewrite Hq'. subst s. eexists _, _. split; [reflexivity |].
    cbn [AttemptResult.percentage AttemptResult.totalPossibleScore].
    now rewrite Hscore, Hp, Ht.
Qed.

Lemma reconcile_is_idempotent_witness :
  exists result2 db2,
    getQuizAttemptById Sample.hex24 Sample.later no_faults
      (Db.updateAttemptPercentage Sample.created Sample.attemptId (JS.Num 100)
         Sample.attempted)
      Sample.attemptId
    = (Success 200 result2, db2)
    /\ AttemptResult.percentage result2 = JS.Num 100
    /\ AttemptResult.totalPossibleScore result2 = JS.Num 1.
Proof.
  refine (proj2 (reconcile_is_idempotent Sample.hex24 Sample.created Sample.later
                   no_faults no_faults Sample.attempted
                   (Db.updateAttemptPercentage Sample.created Sample.attemptId (JS.Num 100)
                      Sample.attempted)
                   Sample.attemptId 200
                   {| AttemptResult._id := Sample.attemptId;
                      AttemptResult.quizId := Sample.quizId;
                      AttemptResult.quizTitle := "Capitals";
                      AttemptResult.subject := "Geography";
                      AttemptResult.score := JS.Num 1;
                      AttemptResult.totalMarks := JS.VUndefined;
                      AttemptResult.totalPossibleScore := JS.Num 1;
                      AttemptResult.percentage := JS.Num 100;
                      AttemptResult.timeTaken := JS.VNum (JS.Num 30);
                      AttemptResult.responses := [] |} _)).
  vm_compute. reflexivity.
Defined.

(** ** Analytics *)

(** No attempt has a path [userId]: the filter of getUserAnalytics selects
    every attempt when strictQuery is on and none when it is off. *)
Lemma analytics_filter strictQuery userId (l : list QuizAttempt.t) :
  List.filter (Db.matches strictQuery "userId" userId) l = if strictQuery then l else [].
Proof.
  induction l as [|a l IH]; [now destruct strictQuery |].
  cbn [List.filter]. rewrite IH.
  change (Db.matches strictQuery "userId" userId a) with strictQuery.
  now destruct strictQuery.
Qed.

(** The handler fails as soon as its query selects a document. *)
Lemma analytics_fails_on_documents strictQuery strictPopulate db userId a l :
  List.filter (Db.matches strictQuery "userId" userId) (attempts db) = a :: l ->
  status (UserController.getUserAnalytics strictQuery strictPopulate db userId) = 500.
Proof.
  intros H. unfold UserController.getUserAnalytics, UserController.analytics_query.
  rewrite H. now destruct strictPopulate.
Qed.

(** The summary of a query that selects nothing. *)
Lemma analytics_of_nothing strictQuery strictPopulate db userId :
  List.filter (Db.matches strictQuery "userId" userId) (attempts db) = [] ->
  UserController.getUserAnalytics strictQuery strictPopulate db userId
  = Success 200 {| Analytics.totalAttempts := JS.Num 0;
                   Analytics.averageScore := JS.VNum (JS.Num 0);
                   Analytics.subjectPerformance := ∅;
                   Analytics.recentActivity := [] |}.
Proof.
  intros H. unfold UserController.getUserAnalytics, UserController.analytics_query.
  rewrite H. cbn. now rewrite fmap_empty.
Qed.

(** getUserHistory, by contrast, reads the path [quiz] and answers null for a
    quiz that did not resolve. *)
Lemma history_tolerates_unresolved_quiz :
  UserController.history_quiz None = None.
Proof. reflexivity. Qed.

(** C9 (the defect). With strictQuery on, getUserAnalytics answers 500 as
    soon as an attempt is stored: in particular for a user who has an
    attempt on a quiz that was deleted, where a summary that leaves the
    attempt out is expected. The query asks for the paths userId and quizId,
    which the schema of the attempts does not have, so that the attempts it
    selects come without their quiz, whether or not to populate is refused. *)
Theorem analytics_fails_on_deleted_quiz (strictPopulate : bool) (db : Store)
  (userId : ObjectId) :
  attempts db <> [] ->
  status (UserController.getUserAnalytics true strictPopulate db userId) = 500.
Proof.
  intros Hne.
  destruct (attempts db) as [|a l] eqn:E; [now contradiction Hne |].
  apply (analytics_fails_on_documents true strictPopulate db _ a l).
  now rewrite analytics_filter.
Qed.

(** The student's attempt on the author's quiz, after an administrator has
    deleted the author and, with them, the quiz. *)
Lemma analytics_fails_on_deleted_quiz_witness :
  Db.findQuiz
    (snd (snd (More.admin_deleteUser Sample.hex24 true no_user_faults
                 Sample2.users Sample2.studentsAttempt Sample.author)))
    Sample.quizId = None
  /\ status (UserController.getUserAnalytics true true
               (snd (snd (More.admin_deleteUser Sample.hex24 true no_user_faults
                            Sample2.users Sample2.studentsAttempt Sample.author)))
               Sample.student)
     = 500.
Proof.
  split; [vm_compute; reflexivity |].
  apply (analytics_fails_on_deleted_quiz true). vm_compute. discriminate.
Defined.

(** ** Strings *)

Ltac each_char c := destruct c as [[] [] [] [] [] [] [] []].

Lemma lower_whitespace c : JS.is_whitespace c = true -> JS.lower_char c = c.
Proof. each_char c; intros H; try discriminate H; reflexivity. Qed.

Lemma lower_swap c : JS.lower_char (Props.swap_char c) = JS.lower_char c.
Proof. each_char c; reflexivity. Qed.

Lemma append_cons c s t : String c s ++ t = String c (s ++ t).
Proof. reflexivity. Qed.

Lemma append_empty t : "" ++ t = t.
Proof. reflexivity. Qed.

Lemma toLowerCase_app s t :
  JS.toLowerCase (s ++ t) = JS.toLowerCase s ++ JS.toLowerCase t.
Proof.
  induction s as [|c s IH]; [reflexivity |].
  rewrite append_cons. cbn [JS.toLowerCase]. now rewrite append_cons, IH.
Qed.

Lemma toLowerCase_whitespace ws :
  Props.all_whitespace ws = true -> JS.toLowerCase ws = ws.
Proof.
  induction ws as [|c ws IH]; [reflexivity |].
  cbn [Props.all_whitespace JS.toLowerCase].
  intros [Hc Hws]%andb_true_iff. now rewrite lower_whitespace, IH.
Qed.

Lemma toLowerCase_swap_case mask : forall s,
  JS.toLowerCase (Props.swap_case mask s) = JS.toLowerCase s.
Proof.
  induction mask as [|b mask IH]; intros [|c s]; try reflexivity.
  cbn [Props.swap_case JS.toLowerCase]. rewrite IH.
  destruct b; [now rewrite lower_swap | reflexivity].
Qed.

Lemma trimStart_whitespace_app ws s :
  Props.all_whitespace ws = true -> JS.trimStart (ws ++ s) = JS.trimStart s.
Proof.
  induction ws as [|c ws IH]; [reflexivity |].
  cbn [Props.all_whitespace]. intros [Hc Hws]%andb_true_iff.
  rewrite append_cons. cbn [JS.trimStart]. rewrite Hc. now apply IH.
Qed.

Lemma trimEnd_whitespace ws : Props.all_whitespace ws = true -> JS.trimEnd ws = "".
Proof.
  induction ws as [|c ws IH]; [reflexivity |].
  cbn [Props.all_whitespace JS.trimEnd]. intros [Hc Hws]%andb_true_iff.
  now rewrite IH, Hc.
Qed.

Lemma trimEnd_app_whitespace s ws :
  Props.all_whitespace ws = true -> JS.trimEnd (s ++ ws) = JS.trimEnd s.
Proof.
  intros Hws. induction s as [|c s IH]; [now apply trimEnd_whitespace |].
  rewrite append_cons. cbn [JS.trimEnd]. now rewrite IH.
Qed.

Lemma trim_app_whitespace s ws :
  Props.all_whitespace ws = true -> JS.trim (s ++ ws) = JS.trim s.
Proof.
  intros Hws. unfold JS.trim. induction s as [|c s IH].
  - rewrite append_empty. pose proof (trimStart_whitespace_app ws "" Hws) as E.
    rewrite <- (trimEnd_app_whitespace (JS.trimStart "") ws Hws).
    cbn [JS.trimStart]. rewrite append_empty.
    assert (Hall : Props.all_whitespace (JS.trimStart ws) = true).
    { clear E. induction ws as [|c ws IH]; [reflexivity |].
      cbn [Props.all_whitespace] in Hws. apply andb_true_iff in Hws as [Hc Hr].
      cbn [JS.trimStart]. rewrite Hc. now apply IH. }
    now rewrite !trimEnd_whitespace.
  - rewrite append_cons. cbn [JS.trimStart].
    destruct (JS.is_whitespace c); [exact IH |].
    rewrite <- append_cons. now apply trimEnd_app_whitespace.
Qed.

(** Trimming ignores the whitespace around a string. *)
Lemma trim_surrounded ws1 s ws2 :
  Props.all_whitespace ws1 = true -> Props.all_whitespace ws2 = true ->
  JS.trim (ws1 ++ s ++ ws2) = JS.trim s.
Proof.
  intros H1 H2. unfold JS.trim. rewrite trimStart_whitespace_app by exact H1.
  now apply trim_app_whitespace.
Qed.

(** ** Grading by question type *)

Lemma num_eq_NaN x : JS.num_eq x JS.NaN = false.
Proof. now destruct x. Qed.

Lemma num_eq_isNaN x y : JS.isNaN y = true -> JS.num_eq x y = false.
Proof. destruct y; try discriminate. intros _. apply num_eq_NaN. Qed.

Lemma parseInt_starts_no_integer c r :
  Props.starts_no_integer c = true -> JS.parseInt (JS.VStr (String c r)) = JS.NaN.
Proof.
  each_char c; intros H; try (vm_compute in H; discriminate H); reflexivity.
Qed.

Lemma is_correct_MCQ question answer :
  Question.type question = "MCQ" ->
  Grading.is_correct question answer
  = JS.num_eq (JS.parseInt (Question.correctAnswer question)) (JS.parseInt answer).
Proof. intros H. unfold Grading.is_correct. now rewrite H. Qed.

Lemma is_correct_Fill question answer :
  Question.type question = "Fill" ->
  Grading.is_correct question answer
  = if negb (JS.truthy (Question.correctAnswer question)) || JS.nullish answer then false
    else String.eqb
           (JS.trim (JS.toLowerCase (JS.ToString (Question.correctAnswer question))))
           (JS.trim (JS.toLowerCase (JS.ToString answer))).
Proof. intros H. unfold Grading.is_correct. now rewrite H. Qed.

(** C6 (counterexample). The answer "2abc" is not numeric, and it grades
    correct on an MCQ question whose correctAnswer is 2. *)
Lemma non_numeric_answer_grades_correct :
  Props.numeric (JS.VStr "2abc") = false
  /\ Grading.is_correct (Sample.mcq Sample.q1 2 1) (JS.VStr "2abc") = true.
Proof. split; vm_compute; reflexivity. Qed.

(** C6 (amended). For every MCQ question, grading compares
    parseInt(correctAnswer) with parseInt of the submitted answer: two
    submitted values with the same parseInt result grade identically, the
    string "2" and the number 2 both grade correct when correctAnswer is 2,
    and an answer on which parseInt gives NaN grades incorrect, which is the
    case of a missing, null or boolean answer, of the empty string and of a
    string whose first character is neither whitespace, a sign nor a digit. *)
Theorem mcq_grading_compares_parseInt (question : Question.t) :
  Question.type question = "MCQ" ->
  (forall a b, JS.parseInt a = JS.parseInt b ->
               Grading.is_correct question a = Grading.is_correct question b)
  /\ (Question.correctAnswer question = JS.VNum (JS.Num 2) ->
      Grading.is_correct question (JS.VStr "2") = true
      /\ Grading.is_correct question (JS.VNum (JS.Num 2)) = true)
  /\ (forall a, JS.isNaN (JS.parseInt a) = true -> Grading.is_correct question a = false)
  /\ Grading.is_correct question JS.VUndefined = false
  /\ Grading.is_correct question JS.VNull = false
  /\ (forall b, Grading.is_correct question (JS.VBool b) = false)
  /\ Grading.is_correct question (JS.VStr "") = false
  /\ (forall c r, Props.starts_no_integer c = true ->
                  Grading.is_correct question (JS.VStr (String c r)) = false).
Proof.
  intros H.
  assert (Hnan : forall a, JS.isNaN (JS.parseInt a) = true ->
                           Grading.is_correct question a = false).
  { intros a Ha. rewrite is_correct_MCQ by exact H. now apply num_eq_isNaN. }
  split; [intros a b Hab; rewrite !is_correct_MCQ by exact H; now rewrite Hab |].
  split; [intros Hc; rewrite !is_correct_MCQ by exact H; rewrite Hc; split; reflexivity |].
  split; [exact Hnan |].
  repeat split; try (apply Hnan; reflexivity).
  - intros []; apply Hnan; reflexivity.
  - intros c r Hc. apply Hnan. now rewrite parseInt_starts_no_integer.
Qed.

Lemma mcq_grading_compares_parseInt_witness :
  Grading.is_correct (Sample.mcq Sample.q1 2 1) (JS.VStr "2") = true
  /\ Grading.is_correct (Sample.mcq Sample.q1 2 1) (JS.VNum (JS.Num 2)) = true.
Proof.
  apply (mcq_grading_compares_parseInt (Sample.mcq Sample.q1 2 1)); reflexivity.
Defined.

(** C7. For every Fill question whose correctAnswer is set, an answer that
    is neither missing nor null is correct exactly when its string form,
    lowercased and trimmed, equals the correctAnswer lowercased and trimmed;
    so the grade of a string answer does not change when whitespace is put
    around it or when the case of any of its letters is changed; and a
    missing or null answer is incorrect. *)
Theorem fill_grading_is_normalised (question : Question.t) :
  Question.type question = "Fill" ->
  (forall answer,
     JS.truthy (Question.correctAnswer question) = true ->
     JS.nullish answer = false ->
     Grading.is_correct question answer
     = String.eqb (JS.trim (JS.toLowerCase (JS.ToString (Question.correctAnswer question))))
                  (JS.trim (JS.toLowerCase (JS.ToString answer))))
  /\ (forall ws1 s ws2,
        Props.all_whitespace ws1 = true -> Props.all_whitespace ws2 = true ->
        Grading.is_correct question (JS.VStr (ws1 ++ s ++ ws2))
        = Grading.is_correct question (JS.VStr s))
  /\ (forall mask s,
        Grading.is_correct question (JS.VStr (Props.swap_case mask s))
        = Grading.is_correct question (JS.VStr s))
  /\ Grading.is_correct question JS.VUndefined = false
  /\ Grading.is_correct question JS.VNull = false.
Proof.
  intros H. repeat split.
  - intros answer Hc Ha. rewrite is_correct_Fill by exact H. now rewrite Hc, Ha.
  - intros ws1 s ws2 H1 H2. rewrite !is_correct_Fill by exact H.
    cbn [JS.nullish JS.ToString].
    rewrite !toLowerCase_app, (toLowerCase_whitespace ws1 H1), (toLowerCase_whitespace ws2 H2).
    now rewrite trim_surrounded.
  - intros mask s. rewrite !is_correct_Fill by exact H.
    cbn [JS.nullish JS.ToString]. now rewrite toLowerCase_swap_case.
  - rewrite is_correct_Fill by exact H. cbn [JS.nullish]. now rewrite orb_true_r.
  - rewrite is_correct_Fill by exact H. cbn [JS.nullish]. now rewrite orb_true_r.
Qed.

Lemma fill_grading_is_normalised_witness :
  Grading.is_correct (Sample.fill Sample.q2 "Paris" 2) (JS.VStr (" " ++ "paris" ++ "  "))
  = Grading.is_correct (Sample.fill Sample.q2 "Paris" 2) (JS.VStr "paris")
  /\ Grading.is_correct (Sample.fill Sample.q2 "Paris" 2)
       (JS.VStr (Props.swap_case [true; false; true] "paris"))
     = Grading.is_correct (Sample.fill Sample.q2 "Paris" 2) (JS.VStr "paris").
Proof.
  pose proof (fill_grading_is_normalised (Sample.fill Sample.q2 "Paris" 2) eq_refl)
    as (_ & Hws & Hcase & _).
  split; [apply Hws; reflexivity | apply Hcase].
Defined.

(** ** The True/False shorthand *)

Lemma validate_question_nil q :
  QuizModel.validate_question q = [] ->
  QuizModel.type_ok q = true
  /\ String.eqb (Question.questionText q) "" = false
  /\ QuizModel.options_ok q = true
  /\ QuizModel.correctAnswer_ok q = true
  /\ QuizModel.marks_ok q = true.
Proof.
  unfold QuizModel.validate_question.
  destruct (QuizModel.type_ok q); [| discriminate].
  destruct (String.eqb (Question.questionText q) ""); [discriminate |].
  destruct (QuizModel.options_ok q); [| discriminate].
  destruct (QuizModel.correctAnswer_ok q); [| discriminate].
  destruct (QuizModel.marks_ok q); [| discriminate].
  intros _. repeat split.
Qed.

Lemma concat_nil {A} (ls : list (list A)) :
  List.concat ls = [] -> Forall (fun l => l = []) ls.
Proof.
  induction ls as [|l ls IH]; [constructor |]. cbn [List.concat].
  intros H. apply List.app_eq_nil in H as [-> H]. constructor; [reflexivity | now apply IH].
Qed.

(** A body with a question whose type is not in the enum of the schema does
    not pass validation, whatever else it holds. *)
Lemma createQuizDocument_rejects_type newId createdBy title subject duration questions
  question :
  In question questions ->
  QuizModel.type_ok question = false ->
  exists errors,
    More.createQuizDocument newId createdBy title subject duration questions = inl errors.
Proof.
  intros Hin Hbad. unfold More.createQuizDocument.
  destruct (More.validate_quiz _ duration) as [|e es] eqn:Hv; [| now eexists].
  exfalso. unfold More.validate_quiz in Hv. cbn [Quiz.questions] in Hv.
  repeat (apply List.app_eq_nil in Hv as [_ Hv]).
  apply concat_nil in Hv. rewrite List.Forall_map, List.Forall_map in Hv.
  rewrite List.Forall_forall in Hv. specialize (Hv question Hin).
  apply validate_question_nil in Hv as [Ht _].
  unfold QuizModel.type_ok in Ht, Hbad. cbn [More.default_marks Question.type] in Ht.
  congruence.
Qed.

(** C8 (counterexample). A quiz whose only question is a True/False question
    with the correctAnswer true is not stored: createQuiz answers 400 and the
    database holds no quiz afterwards, hence no MultipleChoice question that
    the shorthand would have been rewritten to. *)
Lemma trueFalse_is_not_rewritten_to_MCQ :
  exists message,
    More.createQuiz Sample.hex24 false Sample.quizId Sample2.users
      {| quizzes := []; attempts := [] |} Sample2.trueFalseCreation
    = (Failure 400 message, {| quizzes := []; attempts := [] |}).
Proof. eexists. vm_compute. reflexivity. Qed.

(** C8 (amended). A question submitted with the legacy True/False shorthand,
    the type TrueFalse, is rejected by the validation of the quiz, the enum
    of the path type admitting MCQ and Fill only: createQuiz never answers
    201 for a body with such a question, it answers 400 when the body comes
    from a stored user, and in every case it stores nothing. Validation
    comes before the pre-save hook, which is not run. *)
Theorem trueFalse_shorthand_is_rejected (isValid : string -> bool) (insert_fails : bool)
  (newId : ObjectId) (users : list User.t) (db : Store) (req : CreateRequest)
  (questions : list Question.t) (question : Question.t) :
  create_questions req = Some questions ->
  In question questions ->
  Question.type question = "TrueFalse" ->
  let r := More.createQuiz isValid insert_fails newId users db req in
  status (fst r) <> 201
  /\ snd r = db
  /\ (forall userId user,
        create_user req = Some userId -> userId <> "" -> isValid userId = true ->
        Auth.findUser users userId = Some user ->
        status (fst r) = 400).
Proof.
  intros Hqs Hin Htype. cbn zeta.
  assert (Hbad : QuizModel.type_ok question = false)
    by (unfold QuizModel.type_ok; now rewrite Htype).
  unfold More.createQuiz. rewrite Hqs.
  destruct (create_user req) as [userId|];
    [| split; [discriminate | split; [reflexivity | discriminate]]].
  destruct (String.eqb userId "") eqn:He.
  { apply String.eqb_eq in He.
    split; [discriminate | split; [reflexivity |]].
    intros ? ? [= <-] Hne. contradiction. }
  destruct (isValid userId) eqn:Hv; cbn [negb].
  2:{ split; [discriminate | split; [reflexivity |]].
      intros ? ? [= <-] _ Hv'. congruence. }
  destruct (Auth.findUser users userId) as [u|] eqn:Hu.
  2:{ split; [discriminate | split; [reflexivity |]].
      intros ? ? [= <-] _ _ Hu'. congruence. }
  destruct (create_duration req) as [duration|];
    [| split; [discriminate | split; [reflexivity | reflexivity]]].
  destruct questions as [|q qs]; [destruct Hin |].
  destruct (_ || _); [split; [discriminate | split; reflexivity] |].
  destruct (createQuizDocument_rejects_type newId userId (create_title req)
              (create_subject req) duration (q :: qs) question Hin Hbad) as [errors ->].
  split; [discriminate | split; reflexivity].
Qed.

Lemma trueFalse_shorthand_is_rejected_witness :
  status (fst (More.createQuiz Sample.hex24 false Sample.quizId Sample2.users
                 {| quizzes := []; attempts := [] |} Sample2.trueFalseCreation))
  = 400.
Proof.
  refine (proj2 (proj2 (trueFalse_shorthand_is_rejected Sample.hex24 false Sample.quizId
            Sample2.users {| quizzes := []; attempts := [] |} Sample2.trueFalseCreation
            [Sample.trueFalse] Sample.trueFalse eq_refl _ eq_refl))
            Sample.author Sample2.authorUser eq_refl _ eq_refl eq_refl).
  - now left.
  - discriminate.
Defined.

(** * Further properties *)

(** ** Grading: what the entries and the score are *)

Lemma find_question_found quiz r q :
  Grading.find_question quiz r = Some q ->
  In q (Quiz.questions quiz) /\ Response.questionId r = JS.VStr (Question._id q).
Proof.
  unfold Grading.find_question. intros H.
  apply List.find_some in H as [Hin Heq]. split; [exact Hin |].
  unfold JS.str_strict_eq in Heq.
  destruct (Response.questionId r); try discriminate.
  apply String.eqb_eq in Heq. now rewrite Heq.
Qed.

Lemma entry_of_cons quiz r responses p :
  More.entry_of quiz responses p -> More.entry_of quiz (r :: responses) p.
Proof.
  intros (r' & q & Hin & H). exists r', q. split; [now right | exact H].
Qed.

Lemma map_responses_entries quiz responses : forall score,
  Forall (More.entry_of quiz responses)
    (Grading.filter_Boolean (snd (Grading.map_responses quiz score responses))).
Proof.
  induction responses as [|r rest IH]; intros score; [constructor |].
  cbn [Grading.map_responses]. unfold Grading.process_response.
  destruct (Grading.find_question quiz r) as [q|] eqn:Hq.
  - set (score1 := if Grading.is_correct q _ then _ else _).
    specialize (IH score1).
    destruct (Grading.map_responses quiz score1 rest) as [s1 e1].
    cbn [snd Grading.filter_Boolean] in *.
    destruct (find_question_found quiz r q Hq) as [Hin Hid].
    constructor.
    + exists r, q. repeat split; try assumption; try reflexivity. now left.
    + eapply Forall_impl; [exact IH |]. intros p. apply entry_of_cons.
  - specialize (IH score).
    destruct (Grading.map_responses quiz score rest) as [s1 e1].
    cbn [snd Grading.filter_Boolean] in *.
    eapply Forall_impl; [exact IH |]. intros p. apply entry_of_cons.
Qed.

(** X1. Every entry of processedResponses comes from a response of the
    submission and from the question of the quiz that the response names: it
    repeats the response's questionId and selectedAnswer, carries that
    question's type and correctAnswer, and its isCorrect is the grade of the
    selected answer on that question. *)
Theorem entries_are_graded_questions (quiz : Quiz.t) (responses : list Response.t) :
  Forall (More.entry_of quiz responses) (snd (Grading.grade quiz responses)).
Proof.
  unfold Grading.grade.
  pose proof (map_responses_entries quiz responses (JS.Num 0)) as H.
  now destruct (Grading.map_responses quiz (JS.Num 0) responses).
Qed.

Lemma map_responses_score quiz responses : forall score,
  fst (Grading.map_responses quiz score responses)
  = More.add_correct quiz
      (Grading.filter_Boolean (snd (Grading.map_responses quiz score responses))) score.
Proof.
  induction responses as [|r rest IH]; intros score; [reflexivity |].
  cbn [Grading.map_responses]. unfold Grading.process_response.
  destruct (Grading.find_question quiz r) as [q|] eqn:Hq.
  - set (score1 := if Grading.is_correct q _ then _ else _).
    specialize (IH score1).
    destruct (Grading.map_responses quiz score1 rest) as [s1 e1].
    cbn [fst snd Grading.filter_Boolean] in *. rewrite IH.
    unfold More.add_correct at 2. cbn [List.fold_left Processed.isCorrect].
    unfold More.entry_marks at 2. cbn [Processed.questionId].
    unfold Grading.find_question in Hq. rewrite Hq. reflexivity.
  - specialize (IH score).
    now destruct (Grading.map_responses quiz score rest) as [s1 e1].
Qed.

Lemma grade_score (quiz : Quiz.t) (responses : list Response.t) :
  fst (Grading.grade quiz responses)
  = List.fold_left
      (fun s p => if Processed.isCorrect p then JS.add s (More.entry_marks quiz p) else s)
      (snd (Grading.grade quiz responses)) (JS.Num 0).
Proof.
  unfold Grading.grade.
  pose proof (map_responses_score quiz responses (JS.Num 0)) as H.
  now destruct (Grading.map_responses quiz (JS.Num 0) responses).
Qed.

(** X2. The score agrees with the entries: it is the sum, taken from left to
    right and starting from 0, of the marks (1 when the question has none) of
    the questions named by the entries marked correct; entries marked
    incorrect add nothing. *)
Theorem score_is_sum_of_correct_marks (quiz : Quiz.t) (responses : list Response.t) :
  fst (Grading.grade quiz responses)
  = List.fold_left
      (fun s p => if Processed.isCorrect p then JS.add s (More.entry_marks quiz p) else s)
      (snd (Grading.grade quiz responses)) (JS.Num 0).
Proof. exact (grade_score quiz responses). Qed.

Lemma add_correct_none quiz entries score :
  Forall (fun p => Processed.isCorrect p = false) entries ->
  More.add_correct quiz entries score = score.
Proof.
  unfold More.add_correct. induction 1 as [|p l Hp _ IH]; [reflexivity |].
  cbn [List.fold_left]. now rewrite Hp.
Qed.

Lemma percentage_of_zero (total : JS.number) :
  JS.gt total (JS.Num 0) = true -> Grading.percentage (JS.Num 0) total = JS.Num 0.
Proof.
  destruct total as [s | s | | s m e]; try destruct s; intros H;
    try (vm_compute in H; discriminate H); reflexivity.
Qed.

(** X3. A submission in which no entry is marked correct, an empty one
    included, has score 0, and its percentage is 0 whenever the quiz's
    totalMarks is greater than 0. *)
Theorem no_correct_answer_scores_zero (quiz : Quiz.t) (responses : list Response.t) :
  Forall (fun p => Processed.isCorrect p = false) (snd (Grading.grade quiz responses)) ->
  fst (Grading.grade quiz responses) = JS.Num 0
  /\ (JS.gt (Grading.totalMarks quiz) (JS.Num 0) = true ->
      Grading.percentage (fst (Grading.grade quiz responses)) (Grading.totalMarks quiz)
      = JS.Num 0).
Proof.
  intros H.
  assert (Hs : fst (Grading.grade quiz responses) = JS.Num 0).
  { rewrite grade_score. now apply (add_correct_none quiz). }
  split; [exact Hs |]. intros Ht. rewrite Hs. now apply percentage_of_zero.
Qed.

Lemma no_correct_answer_scores_zero_witness :
  fst (Grading.grade Sample.capitals [Sample.answer Sample.q1 (JS.VNum (JS.Num 0))])
  = JS.Num 0
  /\ Grading.percentage
       (fst (Grading.grade Sample.capitals [Sample.answer Sample.q1 (JS.VNum (JS.Num 0))]))
       (Grading.totalMarks Sample.capitals)
     = JS.Num 0.
Proof.
  destruct (no_correct_answer_scores_zero Sample.capitals
              [Sample.answer Sample.q1 (JS.VNum (JS.Num 0))]) as [Hs Hp].
  - vm_compute. repeat constructor.
  - split; [exact Hs | apply Hp; reflexivity].
Defined.

(** X4. On an MCQ question whose correctAnswer is one of the indexes 0 to 3,
    an answer that is one of these indexes, sent as a number or as its
    decimal string, grades correct exactly when it is the same index. *)
Theorem mcq_index_answers (question : Question.t) (k j : Z) :
  Question.type question = "MCQ" ->
  Question.correctAnswer question = JS.VNum (JS.Num k) ->
  0 <= k < 4 -> 0 <= j < 4 ->
  Grading.is_correct question (JS.VNum (JS.Num j)) = (j =? k)
  /\ Grading.is_correct question (JS.VStr (JS.decimal j)) = (j =? k).
Proof.
  intros Ht Hc Hk Hj. rewrite !is_correct_MCQ by exact Ht. rewrite Hc.
  assert (Ek : k = 0 \/ k = 1 \/ k = 2 \/ k = 3) by lia.
  assert (Ej : j = 0 \/ j = 1 \/ j = 2 \/ j = 3) by lia.
  destruct Ek as [-> | [-> | [-> | ->]]]; destruct Ej as [-> | [-> | [-> | ->]]];
    split; vm_compute; reflexivity.
Qed.

Lemma mcq_index_answers_witness :
  Grading.is_correct (Sample.mcq Sample.q1 2 1) (JS.VNum (JS.Num 3)) = (3 =? 2)
  /\ Grading.is_correct (Sample.mcq Sample.q1 2 1) (JS.VStr (JS.decimal 3)) = (3 =? 2).
Proof.
  apply (mcq_index_answers (Sample.mcq Sample.q1 2 1) 2 3); [reflexivity | reflexivity | lia | lia].
Defined.

(** ** Submitting an attempt *)

Lemma pre_save_keeps (doc : QuizAttempt.t) :
  QuizAttempt._id (QuizAttempt.pre_save doc) = QuizAttempt._id doc
  /\ QuizAttempt.user (QuizAttempt.pre_save doc) = QuizAttempt.user doc
  /\ QuizAttempt.quiz (QuizAttempt.pre_save doc) = QuizAttempt.quiz doc
  /\ QuizAttempt.score (QuizAttempt.pre_save doc) = QuizAttempt.score doc
  /\ QuizAttempt.totalQuestions (QuizAttempt.pre_save doc) = QuizAttempt.totalQuestions doc
  /\ QuizAttempt.responses (QuizAttempt.pre_save doc) = QuizAttempt.responses doc
  /\ QuizAttempt.updatedAt (QuizAttempt.pre_save doc) = QuizAttempt.updatedAt doc.
Proof.
  unfold QuizAttempt.pre_save. destruct (JS.gt _ _); repeat split; reflexivity.
Qed.

(** The stored form of the entries of [attemptData]. *)
Lemma stored_flags (l : list Processed.t) :
  List.map StoredResponse.isCorrect
    (List.map (fun p => {| StoredResponse.questionId := Processed.questionId p;
                           StoredResponse.selectedAnswer := Processed.selectedAnswer p;
                           StoredResponse.isCorrect := Processed.isCorrect p |}) l)
  = List.map Processed.isCorrect l.
Proof.
  induction l as [|p l IH]; [reflexivity |].
  cbn [List.map StoredResponse.isCorrect]. now rewrite IH.
Qed.

(** What [QuizAttempt.create] has done when it does not reject. *)
Lemma createAttempt_some insert_fails now id data db doc db' :
  Db.createAttempt insert_fails now id data db = Some (doc, db') ->
  insert_fails = false
  /\ db' = {| quizzes := quizzes db; attempts := (attempts db ++ [doc])%list |}
  /\ QuizAttempt._id doc = id
  /\ QuizAttempt.user doc = AttemptData.user data
  /\ QuizAttempt.quiz doc = AttemptData.quiz data
  /\ QuizAttempt.score doc = AttemptData.score data
  /\ QuizAttempt.totalQuestions doc = AttemptData.totalQuestions data
  /\ List.map StoredResponse.isCorrect (QuizAttempt.responses doc)
     = List.map Processed.isCorrect (AttemptData.responses data)
  /\ QuizAttempt.updatedAt doc = now
  /\ JS.isNaN (AttemptData.score data) = false
  /\ QuizAttempt.castNumber (AttemptData.timeTaken data) = Some (QuizAttempt.timeTaken doc).
Proof.
  unfold Db.createAttempt, Db.newAttempt.
  destruct (JS.isNaN (AttemptData.score data)); [discriminate |].
  destruct (QuizAttempt.castNumber (AttemptData.timeTaken data)) as [timeTaken|];
    [| discriminate].
  destruct insert_fails; [discriminate |].
  intros [= <- <-].
  assert (Ht : forall d, QuizAttempt.timeTaken (QuizAttempt.pre_save d)
                         = QuizAttempt.timeTaken d)
    by (intros d; unfold QuizAttempt.pre_save; now destruct (JS.gt _ _)).
  rewrite Ht.
  match goal with |- context [QuizAttempt.pre_save ?d] =>
    destruct (pre_save_keeps d) as (Hid & Huser & Hquiz & Hscore & Htotal & Hresp & Htime) end.
  rewrite Hid, Huser, Hquiz, Hscore, Htotal, Hresp, Htime.
  cbn [QuizAttempt._id QuizAttempt.user QuizAttempt.quiz QuizAttempt.score
       QuizAttempt.totalQuestions QuizAttempt.responses QuizAttempt.updatedAt
       QuizAttempt.timeTaken].
  repeat split; try reflexivity. apply stored_flags.
Qed.

(** The outcomes of submitQuizAttempt: nothing is stored and the answer is
    not 201, or one attempt is stored and the answer is 201 or, when
    [toObject] raises, 500. *)
Lemma submit_outcome (isValid : string -> bool) (now : Z) (faults : SubmitFaults)
  (newUser newId : ObjectId) (db db' : Store) (req : SubmitRequest)
  (reply : Reply QuizAttempt.t) :
  submitQuizAttempt isValid now faults newUser newId db req = (reply, db') ->
  (db' = db /\ (status reply = 400 \/ status reply = 404 \/ status reply = 500))
  \/ exists quiz responses stored,
       submit_responses req = Some responses
       /\ Db.findQuiz db (submit_id req) = Some quiz
       /\ create_fails faults = false
       /\ db' = {| quizzes := quizzes db; attempts := (attempts db ++ [stored])%list |}
       /\ QuizAttempt._id stored = newId
       /\ QuizAttempt.quiz stored = submit_id req
       /\ QuizAttempt.user stored
          = match submit_user req with
            | Some id => if String.eqb id "" then newUser else id
            | None => newUser
            end
       /\ QuizAttempt.score stored = fst (Grading.grade quiz responses)
       /\ QuizAttempt.totalQuestions stored = Grading.totalQuestions quiz
       /\ List.map StoredResponse.isCorrect (QuizAttempt.responses stored)
          = List.map Processed.isCorrect (snd (Grading.grade quiz responses))
       /\ QuizAttempt.updatedAt stored = now
       /\ JS.isNaN (fst (Grading.grade quiz responses)) = false
       /\ QuizAttempt.castNumber
            (if JS.truthy (submit_timeTaken req) then submit_timeTaken req
             else JS.VNum (JS.Num 0))
          = Some (QuizAttempt.timeTaken stored)
       /\ reply = if toObject_throws faults
                  then Failure 500 "Failed to submit quiz attempt"
                  else Success 201
                         (QuizAttempt.set_percentage
                            (Grading.percentage (QuizAttempt.score stored)
                                                (Grading.totalMarks quiz)) stored).
Proof.
  unfold submitQuizAttempt.
  destruct (String.eqb (submit_id req) "");
    [intros [= <- <-]; left; split; [reflexivity | now left] |].
  destruct (submit_responses req) as [responses|];
    [| intros [= <- <-]; left; split; [reflexivity | now left]].
  destruct (negb (isValid (submit_id req)));
    [intros [= <- <-]; left; split; [reflexivity | now right; right] |].
  destruct (Db.findQuiz db (submit_id req)) as [quiz|];
    [| intros [= <- <-]; left; split; [reflexivity | now right; left]].
  destruct (Db.createAttempt _ _ _ _ _) as [[doc db1]|] eqn:Ec;
    [| intros [= <- <-]; left; split; [reflexivity | now right; right]].
  apply createAttempt_some in Ec
    as (Hf & Hdb & Hid & Huser & Hquiz & Hscore & Htotal & Hflags & Htime & Hnan & Hcast).
  unfold attemptData in *.
  destruct (Grading.grade quiz responses) as [score processed] eqn:Eg.
  cbn [AttemptData.user AttemptData.quiz AttemptData.score AttemptData.totalQuestions
       AttemptData.responses AttemptData.totalMarks AttemptData.timeTaken] in *.
  intros H. right. exists quiz, responses, doc. rewrite Eg. cbn [fst snd].
  assert (Hd : db' = db1) by (destruct (toObject_throws faults); now injection H).
  subst db1.
  repeat (split; [first [reflexivity | assumption] |]).
  destruct (toObject_throws faults); injection H as <- _; now rewrite ?Hscore.
Qed.

(** X5. submitQuizAttempt stores at most one attempt. When it answers 201 it
    has appended exactly one: the attempt with the generated id, on the
    requested quiz, whose score and correctness flags are those of the
    grading and whose totalQuestions is the number of questions of the quiz;
    the reply is that attempt with its percentage replaced by
    round(score / totalMarks * 100). When it answers anything else the
    database is as it was, with one exception: when [toObject] raises after
    the insertion, the answer is 500 and that same attempt is stored. The
    answers 400 and 404 leave the database unchanged, and so does every
    answer to a request whose attempt [QuizAttempt.create] rejects: because
    the insertion fails, the score is NaN, or timeTaken does not cast to a
    number. *)
Theorem submit_appends_one_attempt (isValid : string -> bool) (now : Z)
  (faults : SubmitFaults) (newUser newId : ObjectId)
  (db db' : Store) (req : SubmitRequest) (reply : Reply QuizAttempt.t) :
  submitQuizAttempt isValid now faults newUser newId db req = (reply, db') ->
  let appended quiz responses stored :=
    submit_responses req = Some responses
    /\ Db.findQuiz db (submit_id req) = Some quiz
    /\ db' = {| quizzes := quizzes db; attempts := (attempts db ++ [stored])%list |}
    /\ QuizAttempt._id stored = newId
    /\ QuizAttempt.quiz stored = submit_id req
    /\ QuizAttempt.score stored = fst (Grading.grade quiz responses)
    /\ QuizAttempt.totalQuestions stored = Grading.totalQuestions quiz
    /\ List.map StoredResponse.isCorrect (QuizAttempt.responses stored)
       = List.map Processed.isCorrect (snd (Grading.grade quiz responses)) in
  (status reply = 201 ->
   exists quiz responses stored,
     appended quiz responses stored
     /\ reply = Success 201
                  (QuizAttempt.set_percentage
                     (Grading.percentage (QuizAttempt.score stored)
                                         (Grading.totalMarks quiz)) stored))
  /\ (status reply <> 201 ->
      db' = db
      \/ (toObject_throws faults = true /\ status reply = 500
          /\ exists quiz responses stored, appended quiz responses stored))
  /\ (status reply = 400 \/ status reply = 404 \/ create_fails faults = true
      \/ (toObject_throws faults = false /\ status reply <> 201) ->
      db' = db)
  /\ (forall quiz responses,
        submit_responses req = Some responses ->
        Db.findQuiz db (submit_id req) = Some quiz ->
        JS.isNaN (fst (Grading.grade quiz responses)) = true
        \/ QuizAttempt.castNumber
             (if JS.truthy (submit_timeTaken req) then submit_timeTaken req
              else JS.VNum (JS.Num 0)) = None ->
        db' = db).
Proof.
  intros H. cbn zeta. apply submit_outcome in H as [[-> Hs] | H].
  - split; [intros E; rewrite E in Hs; now destruct Hs as [Hs | [Hs | Hs]] |].
    split; [now left |]. split; reflexivity.
  - destruct H as (quiz & responses & stored & Hr & Hq & Hf & Hdb & Hid & Hquiz & _
                   & Hscore & Htotal & Hflags & _ & Hnan & Hcast & Hreply).
    assert (Hvalid : forall quiz' responses',
               submit_responses req = Some responses' ->
               Db.findQuiz db (submit_id req) = Some quiz' ->
               JS.isNaN (fst (Grading.grade quiz' responses')) = true
               \/ QuizAttempt.castNumber
                    (if JS.truthy (submit_timeTaken req) then submit_timeTaken req
                     else JS.VNum (JS.Num 0)) = None ->
               db' = db).
    { intros quiz' responses' Hr' Hq' [E | E]; [| congruence].
      rewrite Hr in Hr'. rewrite Hq in Hq'. injection Hr' as <-. injection Hq' as <-.
      congruence. }
    assert (Happ : exists quiz responses stored,
               submit_responses req = Some responses
               /\ Db.findQuiz db (submit_id req) = Some quiz
               /\ db' = {| quizzes := quizzes db;
                           attempts := (attempts db ++ [stored])%list |}
               /\ QuizAttempt._id stored = newId
               /\ QuizAttempt.quiz stored = submit_id req
               /\ QuizAttempt.score stored = fst (Grading.grade quiz responses)
               /\ QuizAttempt.totalQuestions stored = Grading.totalQuestions quiz
               /\ List.map StoredResponse.isCorrect (QuizAttempt.responses stored)
                  = List.map Processed.isCorrect (snd (Grading.grade quiz responses)))
      by (exists quiz, responses, stored; repeat split; assumption).
    destruct (toObject_throws faults); subst reply; cbn [status].
    + split; [discriminate |]. split; [intros _; right; now repeat split |].
      split; [| exact Hvalid].
      intros [E | [E | [E | [E _]]]]; try discriminate E. congruence.
    + split.
      * intros _. exists quiz, responses, stored. now repeat split.
      * split; [intros E; now contradiction E |]. split; [| exact Hvalid].
        intros [E | [E | [E | [_ E]]]]; try discriminate E; [congruence |].
        now contradiction E.
Qed.

Lemma submit_appends_one_attempt_witness :
  exists quiz responses stored,
    submit_responses (Sample.submission [Sample.answer Sample.q1 (JS.VNum (JS.Num 2))])
    = Some responses
    /\ Db.findQuiz (Sample.store Sample.capitals) Sample.quizId = Some quiz
    /\ snd (submitQuizAttempt Sample.hex24 Sample.created no_submit_faults
              Sample.student Sample.attemptId
              (Sample.store Sample.capitals)
              (Sample.submission [Sample.answer Sample.q1 (JS.VNum (JS.Num 2))]))
       = {| quizzes := [Sample.capitals]; attempts := [stored] |}
    /\ QuizAttempt._id stored = Sample.attemptId.
Proof.
  destruct (submit_appends_one_attempt Sample.hex24 Sample.created no_submit_faults
              Sample.student Sample.attemptId
              (Sample.store Sample.capitals) _
              (Sample.submission [Sample.answer Sample.q1 (JS.VNum (JS.Num 2))]) _
              (surjective_pairing _)) as [H _].
  destruct H as (quiz & responses & stored & (H1 & H2 & H3 & H4 & _) & _);
    [vm_compute; reflexivity |].
  exists quiz, responses, stored. repeat split; assumption.
Defined.

(** ** Authentication and the routes *)

Lemma split_space_app (a b : string) :
  (forall c, In c (list_ascii_of_string a) -> c <> " "%char) ->
  Auth.split_space (a ++ String " " b) = a :: Auth.split_space b.
Proof.
  induction a as [|c a IH]; intros H; [reflexivity |].
  rewrite append_cons. cbn [Auth.split_space].
  destruct (Ascii.eqb c " ") eqn:E.
  - apply Ascii.eqb_eq in E. exfalso. apply (H c); [now left | exact E].
  - rewrite IH; [reflexivity |]. intros c' Hc'. apply H. now right.
Qed.

Lemma split_space_single (a : string) :
  (forall c, In c (list_ascii_of_string a) -> c <> " "%char) ->
  Auth.split_space a = [a].
Proof.
  induction a as [|c a IH]; intros H; [reflexivity |].
  cbn [Auth.split_space].
  destruct (Ascii.eqb c " ") eqn:E.
  - apply Ascii.eqb_eq in E. exfalso. apply (H c); [now left | exact E].
  - rewrite IH; [reflexivity |]. intros c' Hc'. apply H. now right.
Qed.

(** X6. The token that protect reads is the second space-separated field of
    an Authorization header that starts with "Bearer": "Bearer" followed by
    characters other than a space, one space and the token gives the token
    (so "Bearer <token>" does, and so does "Bearerx <token>"); what follows a
    further space is ignored; and a header that is absent, that has one
    field only, or that does not start with "Bearer" gives no token. *)
Theorem bearer_token_is_second_field (suffix token rest : string) :
  (forall c, In c (list_ascii_of_string suffix) -> c <> " "%char) ->
  (forall c, In c (list_ascii_of_string token) -> c <> " "%char) ->
  Auth.bearer_token (Some (("Bearer" ++ suffix) ++ String " " token)) = Some token
  /\ Auth.bearer_token (Some (("Bearer" ++ suffix) ++ String " " (token ++ String " " rest)))
     = Some token
  /\ Auth.bearer_token (Some ("Bearer" ++ suffix)) = None
  /\ Auth.bearer_token None = None
  /\ (forall header, String.prefix "Bearer" header = false ->
                     Auth.bearer_token (Some header) = None).
Proof.
  intros Hs Ht.
  assert (Hp : forall s, (forall c, In c (list_ascii_of_string s) -> c <> " "%char) ->
                         forall c, In c (list_ascii_of_string ("Bearer" ++ s)) -> c <> " "%char).
  { intros s H c Hc. cbn in Hc.
    repeat (destruct Hc as [<- | Hc]; [discriminate |]). now apply H. }
  assert (Hpre : forall s, String.prefix "Bearer" ("Bearer" ++ s) = true).
  { intros s. destruct s; reflexivity. }
  assert (Hne : forall s t, String.eqb (("Bearer" ++ s) ++ t) "" = false) by reflexivity.
  assert (Hne' : forall s, String.eqb ("Bearer" ++ s) "" = false) by reflexivity.
  assert (Hpre' : forall s t, String.prefix "Bearer" (("Bearer" ++ s) ++ t) = true).
  { intros s t. destruct s; destruct t; reflexivity. }
  repeat split.
  - unfold Auth.bearer_token.
    rewrite Hne, Hpre'. cbn [negb andb].
    rewrite split_space_app by now apply Hp.
    now rewrite split_space_single.
  - unfold Auth.bearer_token.
    rewrite Hne, Hpre'. cbn [negb andb].
    rewrite split_space_app by now apply Hp.
    now rewrite split_space_app.
  - unfold Auth.bearer_token. rewrite Hne', Hpre. cbn [negb andb].
    now rewrite split_space_single by now apply Hp.
  - intros header H. unfold Auth.bearer_token. rewrite H. now rewrite andb_false_r.
Qed.

Lemma bearer_token_is_second_field_witness :
  Auth.bearer_token (Some (("Bearer" ++ "") ++ String " " "t-admin")) = Some "t-admin".
Proof.
  apply (bearer_token_is_second_field "" "t-admin" "").
  - intros c [].
  - intros c Hc. cbn in Hc.
    repeat (destruct Hc as [<- | Hc]; [discriminate |]). destruct Hc.
Defined.

Lemma findUser_found users id user :
  Auth.findUser users id = Some user -> User._id user = id /\ In user users.
Proof.
  unfold Auth.findUser. intros H. apply List.find_some in H as [Hin Heq].
  apply String.eqb_eq in Heq. now split.
Qed.

Lemma protect_outcome (verify : string -> option string)
  (isValid : string -> bool) (users : list User.t) (authorization : option string) :
  (forall user,
     Auth.protect verify isValid users authorization = Next user
     <-> exists token id,
           Auth.bearer_token authorization = Some token
           /\ token <> ""
           /\ verify token = Some id
           /\ isValid id = true
           /\ Auth.findUser users id = Some user)
  /\ (forall s m, Auth.protect verify isValid users authorization = Respond s m -> s = 401).
Proof.
  unfold Auth.protect. split.
  - intros user. split.
    + destruct (Auth.bearer_token authorization) as [token|]; [| discriminate].
      destruct (String.eqb token "") eqn:Et; [discriminate |].
      destruct (verify token) as [id|] eqn:Ev; [| discriminate].
      destruct (isValid id) eqn:Ei; cbn [negb]; [| discriminate].
      destruct (Auth.findUser users id) as [u|] eqn:Ef; [| discriminate].
      intros [= ->]. exists token, id. repeat split; try assumption.
      now apply String.eqb_neq.
    + intros (token & id & -> & Hne & Hv & Hi & Hf).
      apply String.eqb_neq in Hne. now rewrite Hne, Hv, Hi, Hf.
  - intros s m.
    destruct (Auth.bearer_token authorization) as [token|]; [| now intros [= <- _]].
    destruct (String.eqb token ""); [now intros [= <- _] |].
    destruct (verify token) as [id|]; [| now intros [= <- _]].
    destruct (negb (isValid id)); [now intros [= <- _] |].
    destruct (Auth.findUser users id); [discriminate | now intros [= <- _]].
Qed.

(** X7. protect hands the request on exactly when the header carries a
    non-empty token that verifies to a valid id of a stored user, and
    req.user is then that user; in every other case it answers 401. *)
Theorem protect_accepts_verified_users (verify : string -> option string)
  (isValid : string -> bool) (users : list User.t) (authorization : option string) :
  (forall user,
     Auth.protect verify isValid users authorization = Next user
     <-> exists token id,
           Auth.bearer_token authorization = Some token
           /\ token <> ""
           /\ verify token = Some id
           /\ isValid id = true
           /\ Auth.findUser users id = Some user)
  /\ (forall s m, Auth.protect verify isValid users authorization = Respond s m -> s = 401).
Proof. exact (protect_outcome verify isValid users authorization). Qed.

Lemma protect_accepts_verified_users_witness :
  Auth.protect Sample2.verify Sample.hex24 Sample2.users (Some "Bearer t-admin")
  = Next Sample2.admin.
Proof.
  apply (proj1 (protect_accepts_verified_users Sample2.verify Sample.hex24 Sample2.users
                  (Some "Bearer t-admin"))).
  exists "t-admin", (User._id Sample2.admin).
  repeat split; try reflexivity. discriminate.
Defined.

Section RouteFacts.

Variable isValid : string -> bool.
Variable strictQuery : bool.
Variable verify : string -> option string.

Lemma protect_next users authorization user :
  Auth.protect verify isValid users authorization = Next user ->
  In user users /\ isValid (User._id user) = true
  /\ exists token, Auth.bearer_token authorization = Some token
                   /\ verify token = Some (User._id user).
Proof.
  intros H.
  apply (proj1 (protect_outcome verify isValid users authorization)) in H
    as (token & id & Hb & _ & Hv & Hi & Hf).
  apply findUser_found in Hf as [<- Hin]. split; [exact Hin |]. split; [exact Hi |].
  now exists token.
Qed.

End RouteFacts.

(** ** Deleting quizzes and users *)

Lemma find_filter_keep {A} (p f : A -> bool) (l : list A) (a : A) :
  List.find p l = Some a -> f a = true -> List.find p (List.filter f l) = Some a.
Proof.
  induction l as [|x l IH]; [discriminate |]. cbn [List.find List.filter].
  destruct (p x) eqn:Ep.
  - intros [= ->] Hf. rewrite Hf. cbn [List.find]. now rewrite Ep.
  - intros H Hf. destruct (f x); [cbn [List.find]; rewrite Ep |]; now apply IH.
Qed.

Lemma find_filter_none {A} (p f : A -> bool) (l : list A) :
  (forall x, In x l -> p x = true -> f x = false) ->
  List.find p (List.filter f l) = None.
Proof.
  induction l as [|x l IH]; intros H; [reflexivity |]. cbn [List.filter].
  destruct (f x) eqn:Ef.
  - cbn [List.find]. destruct (p x) eqn:Ep.
    + rewrite (H x) in Ef; [discriminate | now left | exact Ep].
    + apply IH. intros y Hy. apply H. now right.
  - apply IH. intros y Hy. apply H. now right.
Qed.

(** X8. deleteQuiz of quizController.js answers 200 only for a quiz that
    exists and a requester who created it or whose role is admin, and it
    then removes that quiz and no other; whenever it answers anything else
    (401 for another user, 404, 500) every quiz is still there. *)
Theorem deleteQuiz_needs_owner_or_admin (isValid : string -> bool) (strictQuery : bool)
  (faults : Faults) (db db' : Store) (req : DeleteRequest) (reply : Reply unit) :
  deleteQuiz isValid strictQuery faults db req = (reply, db') ->
  (status reply = 200 ->
   exists quiz,
     Db.findQuiz db (delete_id req) = Some quiz
     /\ (Quiz.createdBy quiz = delete_user req \/ delete_role req = "admin")
     /\ Db.findQuiz db' (delete_id req) = None
     /\ (forall q, In q (quizzes db) -> Quiz._id q <> delete_id req -> In q (quizzes db')))
  /\ (status reply <> 200 -> quizzes db' = quizzes db).
Proof.
  unfold deleteQuiz.
  destruct (negb (isValid (delete_id req)));
    [intros [= <- <-]; split; [discriminate | reflexivity] |].
  destruct (Db.findQuiz db (delete_id req)) as [quiz|] eqn:Hq;
    [| intros [= <- <-]; split; [discriminate | reflexivity]].
  destruct (negb (String.eqb (Quiz.createdBy quiz) (delete_user req))
            && negb (String.eqb (delete_role req) "admin")) eqn:Hauth;
    [intros [= <- <-]; split; [discriminate | reflexivity] |].
  destruct (deleteMany_fails faults);
    [intros [= <- <-]; split; [discriminate | reflexivity] |].
  destruct (remove_fails faults);
    [intros [= <- <-]; split; [discriminate | reflexivity] |].
  intros [= <- <-]. split; [intros _ | intros H; now contradiction H].
  destruct (findQuiz_id _ _ _ Hq) as [Hid _].
  exists quiz. split; [reflexivity |]. split.
  - apply andb_false_iff in Hauth as [H | H]; apply negb_false_iff in H.
    + left. now apply String.eqb_eq.
    + right. now apply String.eqb_eq.
  - rewrite Hid. split; [apply findQuiz_removed |].
    intros q Hin Hne. cbn [Db.removeQuiz Db.deleteManyAttempts quizzes].
    apply List.filter_In. split; [exact Hin |].
    now apply negb_true_iff, String.eqb_neq.
Qed.

Lemma deleteQuiz_needs_owner_or_admin_witness :
  exists quiz,
    Db.findQuiz Sample.attempted (delete_id Sample.ownerDelete) = Some quiz
    /\ (Quiz.createdBy quiz = delete_user Sample.ownerDelete
        \/ delete_role Sample.ownerDelete = "admin").
Proof.
  destruct (proj1 (deleteQuiz_needs_owner_or_admin Sample.hex24 false no_faults
                     Sample.attempted _ Sample.ownerDelete _ (surjective_pairing _)))
    as (quiz & H1 & H2 & _); [vm_compute; reflexivity |].
  exists quiz. now split.
Defined.

(** X9. deleteQuiz of adminController.js is a cascade: when it answers 200
    the quiz is gone, no attempt refers to it, and every other quiz and
    every attempt on another quiz is still there; when it answers anything
    else the quiz is still there, and nothing at all has changed if it was
    the removal of the attempts that failed. *)
Theorem admin_deleteQuiz_is_a_cascade (isValid : string -> bool) (strictQuery : bool)
  (faults : Faults) (db db' : Store) (id : string) (reply : Reply unit) :
  admin_deleteQuiz isValid strictQuery faults db id = (reply, db') ->
  (status reply = 200 ->
   Db.findQuiz db' id = None
   /\ (forall a, In a (attempts db') -> QuizAttempt.quiz a <> id)
   /\ (forall a, In a (attempts db) -> QuizAttempt.quiz a <> id -> In a (attempts db'))
   /\ (forall q, In q (quizzes db) -> Quiz._id q <> id -> In q (quizzes db')))
  /\ (status reply <> 200 -> quizzes db' = quizzes db)
  /\ (deleteMany_fails faults = true -> db' = db).
Proof.
  intros H. split; [| split].
  - intros Hs.
    assert (Hr : reply = Success 200 tt).
    { revert H Hs. unfold admin_deleteQuiz.
      destruct (negb (isValid id)); [intros [= <- _]; discriminate |].
      destruct (Db.findQuiz db id); [| intros [= <- _]; discriminate].
      destruct (deleteMany_fails faults); [intros [= <- _]; discriminate |].
      destruct (remove_fails faults); [intros [= <- _]; discriminate |].
      now intros [= <- _]. }
    subst reply.
    destruct (admin_deleteQuiz_cascades isValid strictQuery faults db id tt db' H)
      as (H1 & H2 & H3).
    repeat split; try assumption.
    intros q Hin Hne. revert H. unfold admin_deleteQuiz.
    destruct (negb (isValid id)); [discriminate |].
    destruct (Db.findQuiz db id) as [quiz|] eqn:Hq; [| discriminate].
    destruct (deleteMany_fails faults); [discriminate |].
    destruct (remove_fails faults); [discriminate |].
    intros [= <-]. destruct (findQuiz_id _ _ _ Hq) as [Hid _]. rewrite Hid.
    cbn [Db.removeQuiz Db.deleteManyAttempts quizzes].
    apply List.filter_In. split; [exact Hin |].
    now apply negb_true_iff, String.eqb_neq.
  - revert H. unfold admin_deleteQuiz.
    destruct (negb (isValid id)); [now intros [= <- <-] |].
    destruct (Db.findQuiz db id) as [quiz|]; [| now intros [= <- <-]].
    destruct (deleteMany_fails faults); [now intros [= <- <-] |].
    destruct (remove_fails faults); [now intros [= <- <-] |].
    intros [= <- <-] Hs. now contradiction Hs.
  - intros Hf.
    pose proof (admin_deleteQuiz_fail_closed isValid strictQuery faults db id Hf) as [Hdb _].
    rewrite H in Hdb. exact Hdb.
Qed.

Lemma admin_deleteQuiz_is_a_cascade_witness :
  Db.findQuiz (snd (admin_deleteQuiz Sample.hex24 false no_faults Sample.attempted
                      Sample.quizId)) Sample.quizId = None
  /\ In (Sample.attemptOn Sample.otherAttemptId Sample.otherQuizId)
        (attempts (snd (admin_deleteQuiz Sample.hex24 false no_faults Sample.attempted
                          Sample.quizId))).
Proof.
  destruct (proj1 (admin_deleteQuiz_is_a_cascade Sample.hex24 false no_faults
                     Sample.attempted _ Sample.quizId _ (surjective_pairing _)))
    as (H1 & _ & H3 & _); [vm_compute; reflexivity |].
  split; [exact H1 |]. apply H3; [| discriminate].
  right. left. reflexivity.
Defined.

Section UserDeletion.

Variable isValid : string -> bool.
Variable strictQuery : bool.

Lemma matches_user id a :
  Db.matches strictQuery "user" id a = String.eqb (QuizAttempt.user a) id.
Proof. reflexivity. Qed.

Lemma admin_deleteUser_success faults users db id reply users' db' :
  More.admin_deleteUser isValid strictQuery faults users db id = (reply, (users', db')) ->
  status reply = 200 ->
  isValid id = true
  /\ (exists user, Auth.findUser users id = Some user)
  /\ users' = List.filter (fun u => negb (String.eqb (User._id u) id)) users
  /\ quizzes db' = List.filter (fun q => negb (String.eqb (Quiz.createdBy q) id)) (quizzes db)
  /\ attempts db' = List.filter (fun a => negb (String.eqb (QuizAttempt.user a) id)) (attempts db).
Proof.
  unfold More.admin_deleteUser.
  destruct (isValid id); cbn [negb]; [| intros [= <- _ _]; discriminate].
  destruct (Auth.findUser users id) as [user|] eqn:Hu; [| intros [= <- _ _]; discriminate].
  destruct (findUser_found _ _ _ Hu) as [Hid _]. rewrite Hid.
  destruct (quizzes_deleteMany_fails faults); [intros [= <- _ _]; discriminate |].
  destruct (attempts_deleteMany_fails faults); [intros [= <- _ _]; discriminate |].
  destruct (user_deleteOne_fails faults); [intros [= <- _ _]; discriminate |].
  intros [= <- <- <-] _. split; [reflexivity |]. split; [now exists user |].
  repeat split.
Qed.

End UserDeletion.

(** X10. deleteUser removes, when it answers 200, the user, the quizzes the
    user created and the attempts the user made, and keeps every other user,
    quiz and attempt in place, the attempts of other users on the removed
    quizzes included; when it answers anything else the user is still there,
    and nothing has changed if the first write (the quizzes) failed. *)
Theorem deleteUser_removes_own_data (isValid : string -> bool) (strictQuery : bool)
  (faults : UserFaults) (users users' : list User.t) (db db' : Store) (id : string)
  (reply : Reply unit) :
  More.admin_deleteUser isValid strictQuery faults users db id = (reply, (users', db')) ->
  (status reply = 200 ->
   users' = List.filter (fun u => negb (String.eqb (User._id u) id)) users
   /\ quizzes db' = List.filter (fun q => negb (String.eqb (Quiz.createdBy q) id)) (quizzes db)
   /\ attempts db'
      = List.filter (fun a => negb (String.eqb (QuizAttempt.user a) id)) (attempts db)
   /\ (forall a, In a (attempts db) -> QuizAttempt.user a <> id -> In a (attempts db')))
  /\ (status reply <> 200 -> users' = users)
  /\ (quizzes_deleteMany_fails faults = true -> db' = db).
Proof.
  intros H. split; [| split].
  - intros Hs.
    destruct (admin_deleteUser_success isValid strictQuery faults users db id reply
                users' db' H Hs) as (_ & _ & Hu & Hq & Ha).
    repeat split; try assumption.
    intros a Hin Hne. rewrite Ha. apply List.filter_In. split; [exact Hin |].
    now apply negb_true_iff, String.eqb_neq.
  - revert H. unfold More.admin_deleteUser.
    destruct (negb (isValid id)); [now intros [= <- <- _] |].
    destruct (Auth.findUser users id) as [user|]; [| now intros [= <- <- _]].
    destruct (quizzes_deleteMany_fails faults); [now intros [= <- <- _] |].
    destruct (attempts_deleteMany_fails faults); [now intros [= <- <- _] |].
    destruct (user_deleteOne_fails faults); [now intros [= <- <- _] |].
    intros [= <- _ _] Hs. now contradiction Hs.
  - intros Hf. revert H. unfold More.admin_deleteUser.
    destruct (negb (isValid id)); [now intros [= _ _ <-] |].
    destruct (Auth.findUser users id) as [user|]; [| now intros [= _ _ <-]].
    rewrite Hf. now intros [= _ _ <-].
Qed.

Lemma deleteUser_removes_own_data_witness :
  attempts (snd (snd (More.admin_deleteUser Sample.hex24 false no_user_faults
                        Sample2.users Sample2.studentsAttempt Sample.author)))
  = List.filter (fun a => negb (String.eqb (QuizAttempt.user a) Sample.author))
                (attempts Sample2.studentsAttempt).
Proof.
  destruct (More.admin_deleteUser Sample.hex24 false no_user_faults
              Sample2.users Sample2.studentsAttempt Sample.author)
    as [reply [users' db']] eqn:E.
  destruct (proj1 (deleteUser_removes_own_data Sample.hex24 false no_user_faults
                     Sample2.users users' Sample2.studentsAttempt db' Sample.author reply E))
    as (_ & _ & Ha & _).
  - vm_compute in E. injection E as <- _ _. reflexivity.
  - exact Ha.
Defined.

(** X11. After deleteUser has removed a user, an attempt that another user
    made on a quiz of the removed user is still stored while its quiz is
    gone, and the results page of that attempt (getQuizAttemptById) answers
    500 from then on. *)
Theorem deleteUser_orphans_attempts_of_others (isValid : string -> bool)
  (strictQuery : bool) (faults : UserFaults) (users users' : list User.t)
  (db db' : Store) (id : string) (reply : Reply unit)
  (attemptId : string) (attempt : QuizAttempt.t) :
  More.admin_deleteUser isValid strictQuery faults users db id = (reply, (users', db')) ->
  status reply = 200 ->
  isValid attemptId = true ->
  Db.findAttempt db attemptId = Some attempt ->
  QuizAttempt.user attempt <> id ->
  (forall q, In q (quizzes db) -> Quiz._id q = QuizAttempt.quiz attempt ->
             Quiz.createdBy q = id) ->
  Db.findAttempt db' attemptId = Some attempt
  /\ Db.findQuiz db' (QuizAttempt.quiz attempt) = None
  /\ forall now readFaults,
       getQuizAttemptById isValid now readFaults db' attemptId
       = (Failure 500 "Failed to fetch quiz attempt", db').
Proof.
  intros H Hs Hv Ha Hother Hquiz.
  destruct (admin_deleteUser_success isValid strictQuery faults users db id reply
              users' db' H Hs) as (_ & _ & _ & Hq' & Ha').
  assert (Hfa : Db.findAttempt db' attemptId = Some attempt).
  { unfold Db.findAttempt in *. rewrite Ha'. apply find_filter_keep; [exact Ha |].
    now apply negb_true_iff, String.eqb_neq. }
  assert (Hfq : Db.findQuiz db' (QuizAttempt.quiz attempt) = None).
  { unfold Db.findQuiz. rewrite Hq'. apply find_filter_none.
    intros q Hin Hid. apply String.eqb_eq in Hid.
    apply negb_false_iff, String.eqb_eq. now apply Hquiz. }
  split; [exact Hfa |]. split; [exact Hfq |].
  intros now readFaults. unfold getQuizAttemptById. now rewrite Hv, Hfa, Hfq.
Qed.

Lemma deleteUser_orphans_attempts_of_others_witness :
  getQuizAttemptById Sample.hex24 Sample.later no_faults
    (snd (snd (More.admin_deleteUser Sample.hex24 false no_user_faults
                 Sample2.users Sample2.studentsAttempt Sample.author)))
    Sample.attemptId
  = (Failure 500 "Failed to fetch quiz attempt",
     snd (snd (More.admin_deleteUser Sample.hex24 false no_user_faults
                 Sample2.users Sample2.studentsAttempt Sample.author))).
Proof.
  destruct (More.admin_deleteUser Sample.hex24 false no_user_faults
              Sample2.users Sample2.studentsAttempt Sample.author)
    as [reply [users' db']] eqn:E0.
  cbn [snd].
  refine (proj2 (proj2 (deleteUser_orphans_attempts_of_others Sample.hex24 false
            no_user_faults Sample2.users users' Sample2.studentsAttempt db' Sample.author
            reply Sample.attemptId (Sample.attemptOn Sample.attemptId Sample.quizId)
            E0 _ eq_refl eq_refl _ _)) Sample.later no_faults).
  - vm_compute in E0. now injection E0 as <- _ _.
  - discriminate.
  - intros q [<- | []] _. reflexivity.
Defined.

(** ** The routes *)

Lemma protect_responds_401 verify isValid users authorization s m :
  Auth.protect verify isValid users authorization = Respond s m -> s = 401.
Proof. apply protect_outcome. Qed.

Lemma authorize_admin user u :
  Auth.authorize ["admin"] user = Next u -> User.role user = "admin".
Proof.
  unfold Auth.authorize. cbn [existsb]. rewrite orb_false_r.
  destruct (String.eqb (User.role user) "admin") eqn:E; [| discriminate].
  intros _. now apply String.eqb_eq.
Qed.

Lemma authorize_responds_403 roles user s m :
  Auth.authorize roles user = Respond s m -> s = 403.
Proof.
  unfold Auth.authorize. destruct (existsb _ _); [discriminate | now intros [= <- _]].
Qed.

(** X12. The administrators' routes change nothing and answer neither 200
    unless the request carries a token that verifies to a stored user whose
    role is admin: for DELETE /api/admin/quizzes/:id and DELETE
    /api/admin/users/:id, an answer 200 or any change to the database or to
    the users implies such a token. *)
Theorem admin_routes_need_an_admin (isValid : string -> bool) (strictQuery : bool)
  (verify : string -> option string) (users : list User.t) (db : Store)
  (authorization : option string) (id : string) :
  let admin_token :=
    exists token user,
      Auth.bearer_token authorization = Some token
      /\ verify token = Some (User._id user)
      /\ In user users
      /\ User.role user = "admin" in
  (forall faults reply db',
     More.route_admin_deleteQuiz isValid strictQuery verify faults users db authorization id
     = (reply, db') ->
     status reply = 200 \/ db' <> db -> admin_token)
  /\ (forall faults reply users' db',
        More.route_admin_deleteUser isValid strictQuery verify faults users db authorization id
        = (reply, (users', db')) ->
        status reply = 200 \/ users' <> users \/ db' <> db -> admin_token).
Proof.
  cbn zeta. split.
  - intros faults reply db'. unfold More.route_admin_deleteQuiz.
    destruct (Auth.protect verify isValid users authorization) as [user | s m] eqn:Hp.
    + destruct (protect_next isValid verify users authorization user Hp)
        as (Hin & _ & token & Hb & Hv).
      destruct (Auth.authorize ["admin"] user) as [u | s m] eqn:Ha.
      * intros _ _. exists token, user. repeat split; try assumption.
        now apply (authorize_admin user u).
      * apply authorize_responds_403 in Ha. subst s.
        intros [= <- <-] [H | H]; [discriminate H | now contradiction H].
    + apply protect_responds_401 in Hp. subst s.
      intros [= <- <-] [H | H]; [discriminate H | now contradiction H].
  - intros faults reply users' db'. unfold More.route_admin_deleteUser.
    destruct (Auth.protect verify isValid users authorization) as [user | s m] eqn:Hp.
    + destruct (protect_next isValid verify users authorization user Hp)
        as (Hin & _ & token & Hb & Hv).
      destruct (Auth.authorize ["admin"] user) as [u | s m] eqn:Ha.
      * intros _ _. exists token, user. repeat split; try assumption.
        now apply (authorize_admin user u).
      * apply authorize_responds_403 in Ha. subst s.
        intros [= <- <- <-] [H | [H | H]]; [discriminate H | now contradiction H ..].
    + apply protect_responds_401 in Hp. subst s.
      intros [= <- <- <-] [H | [H | H]]; [discriminate H | now contradiction H ..].
Qed.

Lemma admin_routes_need_an_admin_witness :
  exists token user,
    Auth.bearer_token (Some "Bearer t-admin") = Some token
    /\ Sample2.verify token = Some (User._id user)
    /\ In user Sample2.users
    /\ User.role user = "admin".
Proof.
  refine (proj1 (admin_routes_need_an_admin Sample.hex24 false Sample2.verify Sample2.users
                   Sample.attempted (Some "Bearer t-admin") Sample.quizId)
            no_faults _ _ (surjective_pairing _) (or_introl _)).
  vm_compute. reflexivity.
Defined.

(** X13. Through the route POST /api/quizzes/:id/attempt, which runs protect
    first, a request without a verified token is answered 401 and stores
    nothing, and every attempt that gets stored, whether the answer is 201
    or, [toObject] having raised, 500, is recorded under the id of the stored
    user the token names, never under a generated id (the empty string being
    no valid id). *)
Theorem route_submit_records_the_caller (isValid : string -> bool) (now : Z)
  (verify : string -> option string) (faults : SubmitFaults) (newUser newId : ObjectId)
  (users : list User.t)
  (db db' : Store) (authorization : option string) (id : string)
  (responses : option (list Response.t)) (timeTaken : JS.value)
  (reply : Reply QuizAttempt.t) :
  isValid "" = false ->
  More.route_submitQuizAttempt isValid now verify faults newUser newId users db
    authorization id responses timeTaken = (reply, db') ->
  let recorded :=
    exists token user stored,
      Auth.bearer_token authorization = Some token
      /\ verify token = Some (User._id user)
      /\ In user users
      /\ db' = {| quizzes := quizzes db; attempts := (attempts db ++ [stored])%list |}
      /\ QuizAttempt.user stored = User._id user in
  (status reply = 201 -> recorded)
  /\ (db' = db \/ recorded)
  /\ ((forall token, Auth.bearer_token authorization = Some token -> verify token = None) ->
      status reply = 401 /\ db' = db).
Proof.
  intros Hempty. cbn zeta. unfold More.route_submitQuizAttempt.
  destruct (Auth.protect verify isValid users authorization) as [user | s m] eqn:Hp.
  - destruct (protect_next isValid verify users authorization user Hp)
      as (Hin & Hv & token & Hb & Hverify).
    intros H.
    assert (Hno : (forall token, Auth.bearer_token authorization = Some token ->
                                 verify token = None) ->
                  status reply = 401 /\ db' = db).
    { intros Hnone. specialize (Hnone token Hb). congruence. }
    apply submit_outcome in H as [[-> Hs] | H].
    + split; [intros E; rewrite E in Hs; now destruct Hs as [Hs | [Hs | Hs]] |].
      split; [now left | exact Hno].
    + destruct H as (quiz & rs & stored & _ & _ & _ & Hdb & _ & _ & Hu & _).
      cbn [submit_user] in Hu.
      assert (Hrec : exists token user stored,
                 Auth.bearer_token authorization = Some token
                 /\ verify token = Some (User._id user)
                 /\ In user users
                 /\ db' = {| quizzes := quizzes db;
                             attempts := (attempts db ++ [stored])%list |}
                 /\ QuizAttempt.user stored = User._id user).
      { exists token, user, stored. repeat split; try assumption.
        rewrite Hu. destruct (String.eqb (User._id user) "") eqn:E; [| reflexivity].
        apply String.eqb_eq in E. rewrite E, Hempty in Hv. discriminate. }
      split; [intros _; exact Hrec |]. split; [now right | exact Hno].
  - apply protect_responds_401 in Hp. subst s.
    intros [= <- <-]. split; [discriminate |]. split; [now left |].
    intros _. split; reflexivity.
Qed.

Lemma route_submit_records_the_caller_witness :
  exists token user stored,
    Auth.bearer_token (Some "Bearer t-student") = Some token
    /\ Sample2.verify token = Some (User._id user)
    /\ In user Sample2.users
    /\ snd (More.route_submitQuizAttempt Sample.hex24 Sample.created Sample2.verify
              no_submit_faults "generated"
              Sample.attemptId Sample2.users (Sample.store Sample.capitals)
              (Some "Bearer t-student") Sample.quizId
              (Some [Sample.answer Sample.q1 (JS.VNum (JS.Num 2))]) JS.VUndefined)
       = {| quizzes := [Sample.capitals]; attempts := [stored] |}
    /\ QuizAttempt.user stored = User._id user.
Proof.
  refine (proj1 (route_submit_records_the_caller Sample.hex24 Sample.created Sample2.verify
                   no_submit_faults "generated"
                   Sample.attemptId Sample2.users (Sample.store Sample.capitals) _
                   (Some "Bearer t-student") Sample.quizId
                   (Some [Sample.answer Sample.q1 (JS.VNum (JS.Num 2))]) JS.VUndefined _
                   eq_refl (surjective_pairing _)) _).
  vm_compute. reflexivity.
Defined.

(** ** Quiz documents: the pre-save hook and the validators *)

Lemma four_options_length o : List.length (QuizModel.four_options o) = 4%nat.
Proof.
  unfold QuizModel.four_options.
  rewrite List.length_firstn, List.length_app, List.repeat_length. lia.
Qed.

Lemma four_options_nth o i :
  (i < 4)%nat -> List.nth i (QuizModel.four_options o) "" = List.nth i o "".
Proof.
  intros Hi. unfold QuizModel.four_options.
  rewrite List.nth_firstn.
  destruct (i <? 4)%nat eqn:E; [| apply Nat.ltb_ge in E; lia].
  destruct (Nat.lt_ge_cases i (List.length o)) as [Hlt | Hge].
  - now rewrite List.app_nth1.
  - rewrite List.app_nth2 by exact Hge. rewrite List.nth_repeat.
    now rewrite List.nth_overflow.
Qed.

(** X14. The pre-save hook of the quiz leaves every MCQ question with
    exactly four options: the first four it came with, in order, followed by
    empty strings where it had fewer (four empty strings where it had none);
    its type, id, text and marks are unchanged. *)
Theorem hook_gives_mcq_four_options (question : Question.t) :
  Question.type question = "MCQ" ->
  let saved := QuizModel.pre_save_question question in
  (exists o,
     Question.options saved = Some o
     /\ List.length o = 4%nat
     /\ forall i, (i < 4)%nat ->
                  List.nth i o "" = List.nth i (default [] (Question.options question)) "")
  /\ Question.type saved = "MCQ"
  /\ Question._id saved = Question._id question
  /\ Question.questionText saved = Question.questionText question
  /\ Question.marks saved = Question.marks question.
Proof.
  intros H. cbn zeta. unfold QuizModel.pre_save_question. rewrite H.
  cbn [String.eqb Ascii.eqb Bool.eqb QuizModel.set_options_answer Question.type
       Question.options Question._id Question.questionText Question.marks].
  split; [| repeat split; exact H].
  destruct (Question.options question) as [o|]; cbn [default].
  - destruct (List.length o =? 4)%nat eqn:E.
    + exists o. apply Nat.eqb_eq in E.
      split; [reflexivity |]. split; [exact E |]. intros i _. reflexivity.
    + exists (QuizModel.four_options o).
      split; [reflexivity |]. split; [apply four_options_length |].
      intros i Hi. now apply four_options_nth.
  - exists ["";"";"";""]. split; [reflexivity |]. split; [reflexivity |].
    intros i Hi. do 4 (destruct i as [|i]; [reflexivity |]). lia.
Qed.

Lemma hook_gives_mcq_four_options_witness :
  exists o,
    Question.options
      (QuizModel.pre_save_question
         (Sample.question Sample.q1 "MCQ" (Some ["A"; "B"]) (JS.VStr "1") 1)) = Some o
    /\ List.length o = 4%nat.
Proof.
  destruct (proj1 (hook_gives_mcq_four_options
                     (Sample.question Sample.q1 "MCQ" (Some ["A"; "B"]) (JS.VStr "1") 1)
                     eq_refl)) as (o & H1 & H2 & _).
  exists o. now split.
Defined.

Lemma trueFalse_answer_idempotent v :
  QuizModel.trueFalse_answer (QuizModel.trueFalse_answer v) = QuizModel.trueFalse_answer v.
Proof.
  destruct v as [| | b | n | s]; try reflexivity.
  cbn [QuizModel.trueFalse_answer].
  destruct (String.eqb (JS.toLowerCase s) "true") eqn:E1; [reflexivity |].
  destruct (String.eqb (JS.toLowerCase s) "false") eqn:E2; [reflexivity |].
  cbn [QuizModel.trueFalse_answer]. now rewrite E1, E2.
Qed.

(** X15. The pre-save hook of the quiz is idempotent: applied to a question
    it has already normalised, of whatever type, it changes nothing, so
    saving a quiz again leaves its questions as they are. *)
Theorem quiz_pre_save_is_idempotent (quiz : Quiz.t) :
  (forall question,
     QuizModel.pre_save_question (QuizModel.pre_save_question question)
     = QuizModel.pre_save_question question)
  /\ QuizModel.pre_save (QuizModel.pre_save quiz) = QuizModel.pre_save quiz.
Proof.
  assert (Hq : forall question,
             QuizModel.pre_save_question (QuizModel.pre_save_question question)
             = QuizModel.pre_save_question question).
  { intros [id ty text opts ans mk]. unfold QuizModel.pre_save_question.
    cbn [Question.type Question.options Question.correctAnswer].
    destruct (String.eqb ty "TrueFalse") eqn:E1.
    - cbn [QuizModel.set_options_answer Question.type Question.options
           Question.correctAnswer Question._id Question.questionText Question.marks].
      rewrite E1. cbn [QuizModel.set_options_answer Question.type Question.options
           Question.correctAnswer Question._id Question.questionText Question.marks].
      now rewrite trueFalse_answer_idempotent.
    - destruct (String.eqb ty "Fill") eqn:E2.
      + cbn [QuizModel.set_options_answer Question.type Question.options
             Question.correctAnswer Question._id Question.questionText Question.marks].
        now rewrite E1, E2.
      + destruct (String.eqb ty "MCQ") eqn:E3.
        * cbn [QuizModel.set_options_answer Question.type Question.options
               Question.correctAnswer Question._id Question.questionText Question.marks].
          rewrite E1, E2, E3.
          cbn [QuizModel.set_options_answer Question.type Question.options
               Question.correctAnswer Question._id Question.questionText Question.marks].
          assert (Ho : forall o : list string,
                     (if (List.length (if (List.length o =? 4)%nat then o
                                       else QuizModel.four_options o) =? 4)%nat
                      then (if (List.length o =? 4)%nat then o else QuizModel.four_options o)
                      else QuizModel.four_options
                             (if (List.length o =? 4)%nat then o
                              else QuizModel.four_options o))
                     = (if (List.length o =? 4)%nat then o else QuizModel.four_options o)).
          { intros o. destruct (List.length o =? 4)%nat eqn:E; [now rewrite E |].
            now rewrite four_options_length. }
          destruct opts as [o|]; [rewrite Ho |]; now destruct ans.
        * cbn [Question.type]. now rewrite E1, E2, E3. }
  split; [exact Hq |].
  unfold QuizModel.pre_save. cbn [Quiz.questions Quiz._id Quiz.title Quiz.subject Quiz.createdBy].
  f_equal. rewrite List.map_map. apply List.map_ext. intros q. apply Hq.
Qed.

(** A question that passes the validators satisfies the invariant of the
    data model once the pre-save hook has run, and the hook leaves its type
    alone and changes nothing at all in an MCQ question. *)
Lemma hook_keeps_valid_questions q :
  QuizModel.validate_question q = [] ->
  More.question_invariant (QuizModel.pre_save_question q) = true
  /\ Question.type (QuizModel.pre_save_question q) = Question.type q
  /\ (Question.type q = "MCQ" -> QuizModel.pre_save_question q = q)
  /\ (Question.type q = "Fill" -> Question.options (QuizModel.pre_save_question q) = None).
Proof.
  intros H. apply validate_question_nil in H as (Ht & Htext & Ho & Ha & Hm).
  destruct q as [id ty text opts ans mk].
  unfold QuizModel.type_ok, QuizModel.options_ok, QuizModel.correctAnswer_ok,
    QuizModel.marks_ok in *.
  cbn [Question.type Question.options Question.correctAnswer Question.marks
       Question.questionText] in *.
  apply orb_true_iff in Ht as [Ht | Ht]; apply String.eqb_eq in Ht; subst ty.
  - cbn [String.eqb Ascii.eqb Bool.eqb] in Ho, Ha.
    destruct opts as [o|]; [| discriminate].
    destruct ans as [| | | n |]; try discriminate.
    unfold QuizModel.pre_save_question. cbn [Question.type String.eqb Ascii.eqb Bool.eqb].
    cbn [Question.options Question.correctAnswer]. rewrite Ho.
    cbn [QuizModel.set_options_answer Question._id Question.type Question.questionText
         Question.marks].
    repeat split; try discriminate.
    unfold More.question_invariant, QuizModel.MultipleChoice_invariant,
      QuizModel.options_ok, QuizModel.correctAnswer_ok, QuizModel.marks_ok.
    cbn [QuizModel.set_options_answer Question.type Question.options
         Question.correctAnswer Question.marks Question.questionText
         String.eqb Ascii.eqb Bool.eqb].
    now rewrite Ho, Ha, Htext, Hm.
  - cbn [String.eqb Ascii.eqb Bool.eqb] in Ho, Ha.
    unfold QuizModel.pre_save_question. cbn [Question.type String.eqb Ascii.eqb Bool.eqb].
    cbn [QuizModel.set_options_answer Question._id Question.type Question.questionText
         Question.marks Question.options Question.correctAnswer].
    repeat split; try discriminate.
    unfold More.question_invariant, QuizModel.MultipleChoice_invariant,
      QuizModel.options_ok, QuizModel.correctAnswer_ok, QuizModel.marks_ok.
    cbn [QuizModel.set_options_answer Question.type Question.options
         Question.correctAnswer Question.marks Question.questionText
         String.eqb Ascii.eqb Bool.eqb].
    now rewrite Ha, Htext, Hm.
Qed.

Lemma createQuizDocument_valid newId createdBy title subject duration questions quiz :
  More.createQuizDocument newId createdBy title subject duration questions = inr quiz ->
  Quiz._id quiz = newId
  /\ Quiz.createdBy quiz = createdBy
  /\ Quiz.title quiz = JS.trim title /\ Quiz.title quiz <> ""
  /\ Quiz.subject quiz = JS.trim subject /\ Quiz.subject quiz <> ""
  /\ SFleb (JS.Num 1) duration = true
  /\ List.length (Quiz.questions quiz) = List.length questions
  /\ Forall (fun q => More.question_invariant q = true) (Quiz.questions quiz).
Proof.
  unfold More.createQuizDocument.
  destruct (More.validate_quiz _ duration) eqn:Hv; [| discriminate].
  intros [= <-]. unfold More.validate_quiz in Hv.
  cbn [Quiz.title Quiz.subject Quiz.questions] in Hv.
  destruct (String.eqb (JS.trim title) "") eqn:Et; [discriminate |].
  destruct (String.eqb (JS.trim subject) "") eqn:Es; [discriminate |].
  destruct (SFleb (JS.Num 1) duration); [| discriminate].
  cbn [app] in Hv. apply concat_nil in Hv.
  cbn [QuizModel.pre_save Quiz._id Quiz.createdBy Quiz.title Quiz.subject Quiz.questions].
  apply String.eqb_neq in Et, Es.
  repeat split; try assumption.
  - now rewrite !List.length_map.
  - induction questions as [|q qs IH]; [constructor |].
    cbn [List.map] in *. inversion Hv as [|? ? Hq Hqs]; subst.
    constructor; [| now apply IH].
    now apply hook_keeps_valid_questions.
Qed.

(** X16. createQuiz stores a quiz only when it answers 201, and the quiz it
    stores is appended to the others, is created by the stored user who sent
    the request, has a non-empty trimmed title and subject and at least one
    question, and each of its questions satisfies the invariant of the data
    model: MCQ with exactly four options and an integer correctAnswer from 0
    to 3, or Fill with a non-blank string answer and no options; a text; and
    marks of at least 1. On every other answer the database is unchanged. *)
Theorem createQuiz_stores_valid_quizzes (isValid : string -> bool) (insert_fails : bool)
  (newId : ObjectId) (users : list User.t) (db db' : Store) (req : CreateRequest)
  (reply : Reply Quiz.t) :
  More.createQuiz isValid insert_fails newId users db req = (reply, db') ->
  (status reply = 201 ->
   exists quiz user,
     reply = Success 201 quiz
     /\ db' = {| quizzes := (quizzes db ++ [quiz])%list; attempts := attempts db |}
     /\ Quiz._id quiz = newId
     /\ In user users
     /\ create_user req = Some (User._id user)
     /\ Quiz.createdBy quiz = User._id user
     /\ Quiz.title quiz <> "" /\ Quiz.subject quiz <> ""
     /\ Quiz.questions quiz <> []
     /\ Forall (fun q => More.question_invariant q = true) (Quiz.questions quiz))
  /\ (status reply <> 201 -> db' = db).
Proof.
  unfold More.createQuiz.
  destruct (create_user req) as [userId|];
    [| intros [= <- <-]; split; [discriminate | reflexivity]].
  destruct (String.eqb userId "");
    [intros [= <- <-]; split; [discriminate | reflexivity] |].
  destruct (negb (isValid userId));
    [intros [= <- <-]; split; [discriminate | reflexivity] |].
  destruct (Auth.findUser users userId) as [user|] eqn:Hu;
    [| intros [= <- <-]; split; [discriminate | reflexivity]].
  destruct (create_duration req) as [duration|];
    [| intros [= <- <-]; split; [discriminate | reflexivity]].
  destruct (create_questions req) as [[|q qs]|];
    [intros [= <- <-]; split; [discriminate | reflexivity] | |
     intros [= <- <-]; split; [discriminate | reflexivity]].
  destruct (_ || _);
    [intros [= <- <-]; split; [discriminate | reflexivity] |].
  destruct (More.createQuizDocument newId userId _ _ duration (q :: qs))
    as [errors | quiz] eqn:Hd;
    [intros [= <- <-]; split; [discriminate | reflexivity] |].
  destruct insert_fails;
    [intros [= <- <-]; split; [discriminate | reflexivity] |].
  intros [= <- <-]. split; [intros _ | intros H; now contradiction H].
  apply createQuizDocument_valid in Hd
    as (Hid & Hc & _ & Ht & _ & Hs & _ & Hlen & Hall).
  apply findUser_found in Hu as [Hid' Hin].
  exists quiz, user. rewrite Hid'. repeat split; try assumption.
  intros E. rewrite E in Hlen. discriminate Hlen.
Qed.

Lemma createQuiz_stores_valid_quizzes_witness :
  exists quiz user,
    fst (More.createQuiz Sample.hex24 false Sample.quizId Sample2.users
           (Sample.store Sample.emptied) Sample2.creation) = Success 201 quiz
    /\ In user Sample2.users
    /\ Quiz.createdBy quiz = User._id user
    /\ Forall (fun q => More.question_invariant q = true) (Quiz.questions quiz).
Proof.
  destruct (proj1 (createQuiz_stores_valid_quizzes Sample.hex24 false Sample.quizId
                     Sample2.users (Sample.store Sample.emptied) _ Sample2.creation _
                     (surjective_pairing _)))
    as (quiz & user & H1 & _ & _ & H4 & _ & H6 & _ & _ & _ & H10);
    [vm_compute; reflexivity |].
  exists quiz, user. repeat split; assumption.
Defined.

(** ** The results page *)

(** X17. getQuizAttemptById answers 400 for an id that is not valid, 404
    when no attempt has the id, 500 when the attempt's quiz no longer
    exists, and 200 exactly when the id is valid and both the attempt and
    its quiz are found; unless it answers 200 it writes nothing. *)
Theorem results_page_outcomes (isValid : string -> bool) (now : Z) (faults : Faults)
  (db : Store) (attemptId : string) :
  let r := getQuizAttemptById isValid now faults db attemptId in
  (isValid attemptId = false -> r = (Failure 400 "Invalid attempt ID format", db))
  /\ (isValid attemptId = true -> Db.findAttempt db attemptId = None ->
      r = (Failure 404 "Quiz attempt not found", db))
  /\ (forall attempt,
        isValid attemptId = true -> Db.findAttempt db attemptId = Some attempt ->
        Db.findQuiz db (QuizAttempt.quiz attempt) = None ->
        r = (Failure 500 "Failed to fetch quiz attempt", db))
  /\ (status (fst r) = 200
      <-> isValid attemptId = true
          /\ exists attempt quiz,
               Db.findAttempt db attemptId = Some attempt
               /\ Db.findQuiz db (QuizAttempt.quiz attempt) = Some quiz)
  /\ (status (fst r) <> 200 -> snd r = db).
Proof.
  cbn zeta. unfold getQuizAttemptById.
  destruct (isValid attemptId); cbn [negb].
  - destruct (Db.findAttempt db attemptId) as [attempt|].
    + destruct (Db.findQuiz db (QuizAttempt.quiz attempt)) as [quiz|] eqn:Hq.
      * repeat split; try discriminate.
        -- intros a _ [= <-]. rewrite Hq. discriminate.
        -- now exists attempt, quiz.
        -- intros H. now contradiction H.
      * repeat split; try discriminate.
        intros (_ & a & q & [= <-] & Hq'). rewrite Hq in Hq'. discriminate.
    + repeat split; try discriminate. now intros (_ & a & q & H & _).
  - repeat split; try discriminate. now intros [H _].
Qed.

Lemma results_page_outcomes_witness :
  getQuizAttemptById Sample.hex24 Sample.later no_faults Sample.attempted "not-an-id"
  = (Failure 400 "Invalid attempt ID format", Sample.attempted).
Proof.
  apply (results_page_outcomes Sample.hex24 Sample.later no_faults Sample.attempted
           "not-an-id").
  reflexivity.
Defined.

(** The update rewrites the first document with the id, and no other. *)
Lemma update_first_split now id p l a :
  List.find (fun x => String.eqb (QuizAttempt._id x) id) l = Some a ->
  exists before after,
    l = (before ++ a :: after)%list
    /\ Forall (fun x => QuizAttempt._id x <> id) before
    /\ Db.update_first now id p l
       = (before ++ QuizAttempt.set_updatedAt now (QuizAttempt.set_percentage p a)
                 :: after)%list.
Proof.
  induction l as [|x l IH]; [discriminate |].
  cbn [List.find Db.update_first].
  destruct (String.eqb (QuizAttempt._id x) id) eqn:E.
  - intros [= ->]. exists [], l. repeat split. constructor.
  - intros H. destruct (IH H) as (before & after & -> & Hb & Hu).
    exists (x :: before), after. rewrite Hu. repeat split.
    constructor; [now apply String.eqb_neq | exact Hb].
Qed.

(** X18. A successful getQuizAttemptById changes one document, in two
    fields: the quizzes are unchanged, and the attempts are the same ones in
    the same order, except that the attempt that was read, the first with
    the id, now holds the percentage that is replied and, in updatedAt, the
    time of the request. When the write-back fails the database is unchanged;
    and the reply is the same whenever the request is made and whether or
    not the write-back fails. *)
Theorem results_page_updates_one_attempt (isValid : string -> bool) (now : Z)
  (faults : Faults) (db db' : Store) (attemptId : string) (s : Z)
  (result : AttemptResult.t) :
  getQuizAttemptById isValid now faults db attemptId = (Success s result, db') ->
  quizzes db' = quizzes db
  /\ (update_fails faults = false ->
      exists before attempt after,
        attempts db = (before ++ attempt :: after)%list
        /\ Forall (fun a => QuizAttempt._id a <> attemptId) before
        /\ QuizAttempt._id attempt = attemptId
        /\ attempts db'
           = (before
              ++ QuizAttempt.set_updatedAt now
                   (QuizAttempt.set_percentage (AttemptResult.percentage result) attempt)
              :: after)%list)
  /\ (update_fails faults = true -> db' = db)
  /\ (forall now' faults',
        fst (getQuizAttemptById isValid now' faults' db attemptId) = Success s result).
Proof.
  intros H.
  assert (Hall : forall now' faults',
             fst (getQuizAttemptById isValid now' faults' db attemptId) = Success s result).
  { intros now' faults'. revert H. unfold getQuizAttemptById.
    destruct (negb (isValid attemptId)); [discriminate |].
    destruct (Db.findAttempt db attemptId) as [attempt|]; [| discriminate].
    destruct (Db.findQuiz db (QuizAttempt.quiz attempt)) as [quiz|]; [| discriminate].
    now intros [= <- <- _]. }
  apply reconcile_success in H as (attempt & quiz & Hv & Ha & Hq & Ht & Hp & Hdb).
  destruct (update_fails faults) eqn:Hf; subst db'.
  - repeat split; try reflexivity; try assumption. discriminate.
  - rewrite (findAttempt_id _ _ _ Ha).
    split; [reflexivity |]. split; [| split; [discriminate | exact Hall]].
    intros _.
    destruct (update_first_split now attemptId (AttemptResult.percentage result)
                (attempts db) attempt Ha) as (before & after & Hl & Hb & Hu).
    exists before, attempt, after.
    split; [exact Hl |]. split; [exact Hb |].
    split; [exact (findAttempt_id _ _ _ Ha) | exact Hu].
Qed.

Lemma results_page_updates_one_attempt_witness :
  quizzes (snd (getQuizAttemptById Sample.hex24 Sample.later no_faults Sample.attempted
                  Sample.attemptId))
  = quizzes Sample.attempted.
Proof.
  destruct (getQuizAttemptById Sample.hex24 Sample.later no_faults Sample.attempted
              Sample.attemptId)
    as [[s result | s m] db'] eqn:E.
  - exact (proj1 (results_page_updates_one_attempt Sample.hex24 Sample.later no_faults
                    Sample.attempted db' Sample.attemptId s result E)).
  - vm_compute in E. discriminate E.
Defined.

(** ** The totals of a quiz *)

Lemma fold_left_agree {A B} (f g : A -> B -> A) (l : list B) (P : B -> Prop) :
  (forall a b, P b -> f a b = g a b) -> Forall P l ->
  forall a, List.fold_left f l a = List.fold_left g l a.
Proof.
  intros Hfg. induction 1 as [|b l Hb _ IH]; intros a; [reflexivity |].
  cbn [List.fold_left]. rewrite Hfg by exact Hb. apply IH.
Qed.

Lemma fold_left_map_agree {A B} (f g : A -> B -> A) (h : B -> B) (l : list B)
  (P : B -> Prop) :
  (forall a b, P b -> f a (h b) = g a b) -> Forall P l ->
  forall a, List.fold_left f (List.map h l) a = List.fold_left g l a.
Proof.
  intros Hfg. induction 1 as [|b l Hb _ IH]; intros a; [reflexivity |].
  cbn [List.map List.fold_left]. rewrite Hfg by exact Hb. apply IH.
Qed.

(** The virtual counts what a submission counts when no question has marks
    of 0 or NaN, and the results page counts the same when moreover no
    question lacks its marks. *)
Lemma totals_agree (quiz : Quiz.t) :
  (Forall (fun q => forall n, Question.marks q = Some n -> JS.num_truthy n = true)
          (Quiz.questions quiz) ->
   More.virtual_totalMarks quiz = Grading.totalMarks quiz)
  /\ (Forall (fun q => More.has_marks q = true) (Quiz.questions quiz) ->
      More.virtual_totalMarks quiz = Grading.totalMarks quiz
      /\ totalPossibleScore quiz = Grading.totalMarks quiz).
Proof.
  assert (Hv : Forall (fun q => forall n, Question.marks q = Some n ->
                                          JS.num_truthy n = true)
                      (Quiz.questions quiz) ->
               More.virtual_totalMarks quiz = Grading.totalMarks quiz).
  { intros H. unfold More.virtual_totalMarks, Grading.totalMarks, More.hydrate.
    cbn [Quiz.questions].
    apply (fold_left_map_agree _ _ _ _
             (fun q => forall n, Question.marks q = Some n -> JS.num_truthy n = true));
      [| exact H].
    intros a q Hq. unfold More.default_marks, Grading.marks_or. cbn [Question.marks default].
    destruct (Question.marks q) as [n|]; cbn [default from_option id]; [| reflexivity].
    now rewrite (Hq n eq_refl). }
  split; [exact Hv |].
  intros H. split.
  - apply Hv. eapply Forall_impl; [exact H |].
    intros q Hq n Hn. unfold More.has_marks in Hq. now rewrite Hn in Hq.
  - unfold Grading.totalMarks, totalPossibleScore.
    apply (fold_left_agree _ _ _ (fun q => More.has_marks q = true)); try exact H.
    intros a q Hq. unfold More.has_marks, Grading.marks_or in *.
    destruct (Question.marks q) as [n|]; try discriminate. now rewrite Hq.
Qed.

(** X19. The three totals of a quiz. The virtual totalMarks of the schema is
    computed on the document, where a question without marks has the
    default 1: it equals the totalMarks of a submission whenever no question
    has marks of 0 or NaN. The totalPossibleScore of the results page, which
    counts nothing for a question without marks, equals both when moreover
    the marks of every question are set. *)
Theorem totals_agree_when_marks_are_set (quiz : Quiz.t) :
  (Forall (fun q => forall n, Question.marks q = Some n -> JS.num_truthy n = true)
          (Quiz.questions quiz) ->
   More.virtual_totalMarks quiz = Grading.totalMarks quiz)
  /\ (Forall (fun q => More.has_marks q = true) (Quiz.questions quiz) ->
      More.virtual_totalMarks quiz = Grading.totalMarks quiz
      /\ totalPossibleScore quiz = Grading.totalMarks quiz).
Proof. exact (totals_agree quiz). Qed.

Lemma totals_agree_when_marks_are_set_witness :
  More.virtual_totalMarks Sample.capitals = Grading.totalMarks Sample.capitals
  /\ totalPossibleScore Sample.capitals = Grading.totalMarks Sample.capitals.
Proof.
  apply (proj2 (totals_agree_when_marks_are_set Sample.capitals)).
  repeat constructor.
Defined.

(** ** A submission and its results page *)





(** ** The analytics summary *)

(** X21. getUserAnalytics never reports an attempt. It answers 200 exactly
    when its query selects no document, which is always the case with
    strictQuery off and, with strictQuery on, only when no attempt is stored
    at all; the summary is then the empty one: totalAttempts 0, averageScore
    the number 0, no subject and no recent activity, whatever attempts the
    user has made. In every other case it answers 500. *)
Theorem analytics_never_reports_an_attempt (strictQuery strictPopulate : bool)
  (db : Store) (userId : ObjectId) :
  let reply := UserController.getUserAnalytics strictQuery strictPopulate db userId in
  (status reply = 200 <-> strictQuery = false \/ attempts db = [])
  /\ (status reply = 200 ->
      reply = Success 200 {| Analytics.totalAttempts := JS.Num 0;
                             Analytics.averageScore := JS.VNum (JS.Num 0);
                             Analytics.subjectPerformance := ∅;
                             Analytics.recentActivity := [] |})
  /\ (status reply <> 200 -> status reply = 500).
Proof.
  cbn zeta.
  destruct (List.filter (Db.matches strictQuery "userId" userId) (attempts db))
    as [|a l] eqn:E.
  - rewrite (analytics_of_nothing strictQuery strictPopulate db userId E).
    split; [| split; [reflexivity | intros H; now contradiction H]].
    split; [intros _ | reflexivity].
    rewrite analytics_filter in E. destruct strictQuery; [now right | now left].
  - pose proof (analytics_fails_on_documents strictQuery strictPopulate db userId a l E)
      as Hs.
    rewrite Hs. split; [| split; [discriminate | reflexivity]].
    split; [discriminate |].
    rewrite analytics_filter in E.
    intros [-> | Hnil]; [discriminate E |].
    rewrite Hnil in E. now destruct strictQuery.
Qed.

Lemma analytics_never_reports_an_attempt_witness :
  UserController.getUserAnalytics false true Sample.attempted Sample.student
  = Success 200 {| Analytics.totalAttempts := JS.Num 0;
                   Analytics.averageScore := JS.VNum (JS.Num 0);
                   Analytics.subjectPerformance := ∅;
                   Analytics.recentActivity := [] |}.
Proof.
  apply (proj1 (proj2 (analytics_never_reports_an_attempt false true Sample.attempted
                         Sample.student))).
  apply (proj1 (analytics_never_reports_an_attempt false true Sample.attempted
                  Sample.student)).
  now left.
Defined.

(** ** Listing the quizzes *)

Lemma sortOptions_of_valid s :
  In s More.validSortOptions ->
  let so := More.sortOptions_of s in
  (so = {| sort_title := Some 1; sort_createdAt := None; sort_duration := None |}
   \/ so = {| sort_title := Some (-1); sort_createdAt := None; sort_duration := None |}
   \/ so = {| sort_title := None; sort_createdAt := Some 1; sort_duration := None |}
   \/ so = {| sort_title := None; sort_createdAt := Some (-1); sort_duration := None |}
   \/ so = {| sort_title := None; sort_createdAt := None; sort_duration := Some 1 |}
   \/ so = {| sort_title := None; sort_createdAt := None; sort_duration := Some (-1) |}).
Proof.
  intros H. cbn zeta. cbn [More.validSortOptions In] in H.
  destruct H as [<- | [<- | [<- | [<- | [<- | [<- | []]]]]]]; vm_compute; tauto.
Qed.

(** X22. getQuizzes answers 400 exactly when a sort parameter is given and,
    lowercased, is none of the six valid options. Otherwise the filter it
    builds always requires isPublic, filters on the subject only when one
    other than "all" is given, and the sort has exactly one key, with
    direction 1 or -1: the key and direction of the option, whatever the
    letter case it was written in, and createdAt descending when no sort is
    given. *)
Theorem getQuizzes_validates_the_sort (subject sort search : option string) :
  let r := More.getQuizzes_plan subject sort search in
  (status r = 400
   <-> exists s, sort = Some s /\ s <> ""
                 /\ ~ In (JS.toLowerCase s) More.validSortOptions)
  /\ forall query so,
       r = Success 200 (query, so) ->
       query_isPublic query = true
       /\ (forall s, query_subject query = Some s -> subject = Some s /\ s <> "all" /\ s <> "")
       /\ (so = {| sort_title := Some 1; sort_createdAt := None; sort_duration := None |}
           \/ so = {| sort_title := Some (-1); sort_createdAt := None; sort_duration := None |}
           \/ so = {| sort_title := None; sort_createdAt := Some 1; sort_duration := None |}
           \/ so = {| sort_title := None; sort_createdAt := Some (-1); sort_duration := None |}
           \/ so = {| sort_title := None; sort_createdAt := None; sort_duration := Some 1 |}
           \/ so = {| sort_title := None; sort_createdAt := None; sort_duration := Some (-1) |})
       /\ (forall s, sort = Some s -> s <> "" -> so = More.sortOptions_of (JS.toLowerCase s))
       /\ (sort = None \/ sort = Some "" ->
           so = {| sort_title := None; sort_createdAt := Some (-1); sort_duration := None |}).
Proof.
  cbn zeta. unfold More.getQuizzes_plan.
  assert (Hex : forall s, existsb (String.eqb s) More.validSortOptions = true
                          <-> In s More.validSortOptions).
  { intros s. rewrite List.existsb_exists. split.
    - intros (x & Hin & Heq). apply String.eqb_eq in Heq. now subst.
    - intros Hin. exists s. split; [exact Hin | apply String.eqb_refl]. }
  destruct sort as [s|]; cbn [default from_option id].
  - destruct (String.eqb s "") eqn:Es; cbn [negb andb].
    + apply String.eqb_eq in Es. subst s. split.
      * split; [discriminate | now intros (s & [= <-] & H & _)].
      * intros query so [= <- <-]. cbn [query_isPublic query_subject].
        split; [reflexivity |]. split; [| split; [tauto | split]].
        -- intros x. destruct subject as [sub|]; cbn [default from_option id]; [| discriminate].
           destruct (String.eqb sub "") eqn:E1; cbn [negb andb]; [discriminate |].
           destruct (String.eqb sub "all") eqn:E2; cbn [negb]; [discriminate |].
           intros [= <-]. apply String.eqb_neq in E1, E2. now repeat split.
        -- intros x [= <-] H. now contradiction H.
        -- reflexivity.
    + apply String.eqb_neq in Es.
      destruct (existsb (String.eqb (JS.toLowerCase s)) More.validSortOptions) eqn:Ev;
        cbn [negb].
      * apply Hex in Ev. split.
        -- split; [discriminate | now intros (x & [= <-] & _ & H)].
        -- intros query so [= <- <-]. cbn [query_isPublic query_subject].
           split; [reflexivity |]. split; [| split; [| split]].
           ++ intros x. destruct subject as [sub|]; cbn [default from_option id]; [| discriminate].
              destruct (String.eqb sub "") eqn:E1; cbn [negb andb]; [discriminate |].
              destruct (String.eqb sub "all") eqn:E2; cbn [negb]; [discriminate |].
              intros [= <-]. apply String.eqb_neq in E1, E2. now repeat split.
           ++ now apply sortOptions_of_valid.
           ++ now intros x [= <-] _.
           ++ intros [H | [= H]]; [discriminate | now contradiction Es].
      * split; [| discriminate]. split; [intros _ | reflexivity].
        exists s. repeat split; [exact Es |]. intros Hin. apply Hex in Hin.
        rewrite Hin in Ev. discriminate.
  - cbn [negb andb]. split.
    + split; [discriminate | now intros (s & [=] & _)].
    + intros query so [= <- <-]. cbn [query_isPublic query_subject].
      split; [reflexivity |]. split; [| split; [tauto | split]].
      * intros x. destruct subject as [sub|]; cbn [default from_option id]; [| discriminate].
        destruct (String.eqb sub "") eqn:E1; cbn [negb andb]; [discriminate |].
        destruct (String.eqb sub "all") eqn:E2; cbn [negb]; [discriminate |].
        intros [= <-]. apply String.eqb_neq in E1, E2. now repeat split.
      * discriminate.
      * reflexivity.
Qed.

Lemma getQuizzes_validates_the_sort_witness :
  exists s, Some "Best" = Some s /\ s <> "" /\ ~ In (JS.toLowerCase s) More.validSortOptions.
Proof.
  apply (proj1 (getQuizzes_validates_the_sort (Some "Geography") (Some "Best") None)).
  reflexivity.
Defined.

(** ** More on grading and on creating quizzes *)

Lemma map_responses_entries_any_score quiz responses : forall s1 s2,
  snd (Grading.map_responses quiz s1 responses)
  = snd (Grading.map_responses quiz s2 responses).
Proof.
  induction responses as [|r rest IH]; intros s1 s2; [reflexivity |].
  cbn [Grading.map_responses]. unfold Grading.process_response.
  destruct (Grading.find_question quiz r) as [q|].
  - set (a := if Grading.is_correct q _ then JS.add s1 _ else s1).
    set (b := if Grading.is_correct q _ then JS.add s2 _ else s2).
    specialize (IH a b).
    destruct (Grading.map_responses quiz a rest), (Grading.map_responses quiz b rest).
    cbn [snd] in *. now rewrite IH.
  - specialize (IH s1 s2).
    destruct (Grading.map_responses quiz s1 rest), (Grading.map_responses quiz s2 rest).
    cbn [snd] in *. now rewrite IH.
Qed.

Lemma filter_Boolean_app {A} (l1 l2 : list (option A)) :
  Grading.filter_Boolean (l1 ++ l2)%list
  = (Grading.filter_Boolean l1 ++ Grading.filter_Boolean l2)%list.
Proof.
  induction l1 as [|[x|] l1 IH]; [reflexivity | |]; cbn; now rewrite IH.
Qed.

(** X23. Each response is graded on its own: the entries of a submission made
    of two lists of responses are the entries of the first list followed by
    those of the second, whatever either list contains; and a submission
    never yields more entries than it has responses. *)
Theorem entries_of_a_concatenation (quiz : Quiz.t) (l1 l2 : list Response.t) :
  snd (Grading.grade quiz (l1 ++ l2)%list)
  = (snd (Grading.grade quiz l1) ++ snd (Grading.grade quiz l2))%list
  /\ (List.length (snd (Grading.grade quiz l1)) <= List.length l1)%nat.
Proof.
  split.
  - unfold Grading.grade. rewrite map_responses_app.
    pose proof (map_responses_entries_any_score quiz l2
                  (fst (Grading.map_responses quiz (JS.Num 0) l1)) (JS.Num 0)) as H.
    destruct (Grading.map_responses quiz (JS.Num 0) l1) as [s1 e1]. cbn [fst] in H.
    destruct (Grading.map_responses quiz s1 l2) as [s2 e2].
    destruct (Grading.map_responses quiz (JS.Num 0) l2) as [s3 e3].
    cbn [snd] in *. subst e3. apply filter_Boolean_app.
  - rewrite <- (List.length_map Processed.questionId), grade_ids, List.length_map.
    apply List.filter_length_le.
Qed.

(** X24. createQuiz stores no quiz that has a question whose type is neither
    MCQ nor Fill: a body with a TrueFalse question, for one, is answered
    without a 201 and leaves the database unchanged. *)
Theorem createQuiz_rejects_other_types (isValid : string -> bool) (insert_fails : bool)
  (newId : ObjectId) (users : list User.t) (db : Store) (req : CreateRequest)
  (questions : list Question.t) (question : Question.t) :
  create_questions req = Some questions ->
  In question questions ->
  Question.type question <> "MCQ" ->
  Question.type question <> "Fill" ->
  status (fst (More.createQuiz isValid insert_fails newId users db req)) <> 201
  /\ snd (More.createQuiz isValid insert_fails newId users db req) = db.
Proof.
  intros Hqs Hin Hmcq Hfill.
  assert (Hbad : forall createdBy title subject duration,
             exists errors,
               More.createQuizDocument newId createdBy title subject duration questions
               = inl errors).
  { intros createdBy title subject duration. unfold More.createQuizDocument.
    destruct (More.validate_quiz _ duration) as [|e es] eqn:Hv; [| now eexists].
    exfalso. unfold More.validate_quiz in Hv. cbn [Quiz.questions] in Hv.
    repeat (apply List.app_eq_nil in Hv as [_ Hv]).
    apply concat_nil in Hv. rewrite List.Forall_map, List.Forall_map in Hv.
    rewrite List.Forall_forall in Hv. specialize (Hv question Hin).
    apply validate_question_nil in Hv as [Ht _].
    unfold QuizModel.type_ok in Ht. cbn [More.default_marks Question.type] in Ht.
    apply orb_true_iff in Ht as [Ht | Ht]; apply String.eqb_eq in Ht; contradiction. }
  unfold More.createQuiz. rewrite Hqs.
  destruct (create_user req) as [userId|]; [| split; [discriminate | reflexivity]].
  destruct (String.eqb userId ""); [split; [discriminate | reflexivity] |].
  destruct (negb (isValid userId)); [split; [discriminate | reflexivity] |].
  destruct (Auth.findUser users userId); [| split; [discriminate | reflexivity]].
  destruct (create_duration req) as [duration|]; [| split; [discriminate | reflexivity]].
  destruct questions as [|q qs]; [destruct Hin |].
  destruct (_ || _); [split; [discriminate | reflexivity] |].
  destruct (Hbad userId (create_title req) (create_subject req) duration) as [errors ->].
  split; [discriminate | reflexivity].
Qed.

Lemma createQuiz_rejects_other_types_witness :
  snd (More.createQuiz Sample.hex24 false Sample.quizId Sample2.users
         (Sample.store Sample.emptied) Sample2.trueFalseCreation)
  = Sample.store Sample.emptied.
Proof.
  apply (createQuiz_rejects_other_types Sample.hex24 false Sample.quizId Sample2.users
           (Sample.store Sample.emptied) Sample2.trueFalseCreation
           [Sample.trueFalse] Sample.trueFalse eq_refl);
    [now left | discriminate | discriminate].
Defined.

(** ** The administrators' list of users *)

Lemma quizzesByUser_groups (allQuizzes : list (Quiz.t * option Creator.t)) (key : string) :
  default [] (AdminController.quizzesByUser allQuizzes !! key)
  = List.map AdminController.adminQuiz
      (List.filter (fun entry => String.eqb (AdminController.creatorId (snd entry)) key)
                   allQuizzes).
Proof.
  unfold AdminController.quizzesByUser.
  assert (H : forall (l : list (Quiz.t * option Creator.t))
                     (acc : gmap string (list AdminQuiz.t)),
             default [] (List.fold_left
                           (fun acc entry =>
                              let k := AdminController.creatorId (snd entry) in
                              <[k := (default [] (acc !! k)
                                      ++ [AdminController.adminQuiz entry])%list]> acc)
                           l acc !! key)
             = (default [] (acc !! key)
                ++ List.map AdminController.adminQuiz
                     (List.filter
                        (fun entry => String.eqb (AdminController.creatorId (snd entry)) key)
                        l))%list).
  { induction l as [|entry l IH]; intros acc.
    - cbn. now rewrite List.app_nil_r.
    - cbn [List.fold_left List.filter]. rewrite IH. cbn zeta.
      destruct (String.eqb (AdminController.creatorId (snd entry)) key) eqn:E.
      + apply String.eqb_eq in E. rewrite E, lookup_insert_eq.
        cbn [List.map default from_option id]. now rewrite <- List.app_assoc.
      + apply String.eqb_neq in E. now rewrite lookup_insert_ne. }
  rewrite H, lookup_empty. reflexivity.
Qed.

(** X25. getAllUsers lists every quiz under its creator: the quizzes reported
    for a user are the quizzes whose populated creator has that user's id,
    in the order of the query, quizCount is their number, and the quizzes
    whose creator did not resolve are the unassigned ones; the report has
    one entry per user, in order, and counts them. *)
Theorem getAllUsers_groups_quizzes_by_creator (users : list User.t)
  (allQuizzes : list (Quiz.t * option Creator.t))
  (attemptsByUser : list (option ObjectId * JS.number)) :
  exists report,
    AdminController.getAllUsers users allQuizzes attemptsByUser = Success 200 report
    /\ List.map FormattedUser.user (UsersReport.users report) = users
    /\ UsersReport.count report = JS.Num (Z.of_nat (List.length users))
    /\ Forall (fun f =>
                 FormattedUser.quizzes f
                 = List.map AdminController.adminQuiz
                     (List.filter
                        (fun entry => String.eqb (AdminController.creatorId (snd entry))
                                                 (User._id (FormattedUser.user f)))
                        allQuizzes)
                 /\ FormattedUser.quizCount f
                    = JS.Num (Z.of_nat (List.length (FormattedUser.quizzes f))))
              (UsersReport.users report)
    /\ UsersReport.unassignedQuizzes report
       = List.map AdminController.adminQuiz
           (List.filter (fun entry => String.eqb (AdminController.creatorId (snd entry))
                                                 "unassigned")
                        allQuizzes).
Proof.
  eexists. split; [reflexivity |].
  cbn [UsersReport.users UsersReport.count UsersReport.unassignedQuizzes].
  split; [| split; [| split]].
  - rewrite List.map_map. cbn [FormattedUser.user]. apply List.map_id.
  - now rewrite List.length_map.
  - apply List.Forall_map, List.Forall_forall. intros user _.
    cbn [FormattedUser.quizzes FormattedUser.quizCount FormattedUser.user].
    split; [apply quizzesByUser_groups | reflexivity].
  - apply quizzesByUser_groups.
Qed.
